(** * libdns-dynu: the record translator and the batch facade

    A shallow embedding of [provider.go] and [client.go] (package [dynu]),
    together with the pieces of the Go runtime and of [libdns] they call:
    [strings.TrimRight], [strings.TrimSuffix], [fmt.Sscan] into an [int64],
    [fmt.Sprint] of an [int64], [time.Duration.Seconds], [errors.Join],
    [libdns.AbsoluteName] and [libdns.RelativeName]. The provider is the
    one with the [OwnDomain] field, whose translators take the owning
    domain as a parameter.

    Go strings are byte strings and are modelled by [string]; [int64],
    [int] (taken to be 64 bits wide, as on amd64 and arm64) and [uint] are
    modelled by [Z] with the wrap-around written out; [float64] is modelled
    by the binary64 instance of [SpecFloat]. *)

From Stdlib Require Import ZArith List String Ascii Bool Lia.
From Stdlib Require Import Floats.SpecFloat.
Import ListNotations.

Local Open Scope string_scope.
Local Open Scope Z_scope.

(** ** Machine integers *)

Module GoInt.

Definition minInt64 : Z := - 2 ^ 63.
Definition maxInt64 : Z := 2 ^ 63 - 1.
Definition maxUint64 : Z := 2 ^ 64 - 1.

Definition inInt64 (z : Z) : Prop := minInt64 <= z <= maxInt64.

(** Conversion of a mathematical integer to [int64]/[int]: two's complement
    wrap-around. *)
Definition wrapInt64 (z : Z) : Z := (z + 2 ^ 63) mod 2 ^ 64 - 2 ^ 63.

(** Conversion to [uint64]/[uint]. *)
Definition wrapUint64 (z : Z) : Z := z mod 2 ^ 64.

End GoInt.

(** ** Package [strings] *)

Module strings.

Definition dot : ascii := "."%char.

(** [strings.HasSuffix]: [len(s) >= len(suffix) && s[len(s)-len(suffix):] == suffix]. *)
Definition HasSuffix (s suffix : string) : bool :=
  (length suffix <=? length s)%nat
  && (substring (length s - length suffix) (length suffix) s =? suffix)%string.

(** [strings.TrimSuffix]: [s[:len(s)-len(suffix)]] when [s] has the suffix,
    [s] itself otherwise. *)
Definition TrimSuffix (s suffix : string) : string :=
  if HasSuffix s suffix then substring 0 (length s - length suffix) s else s.

(** [strings.TrimRight(s, cutset)] for a cutset of one byte [c]: every
    trailing [c] is removed. *)
Fixpoint TrimRight (s : string) (c : ascii) : string :=
  match s with
  | EmptyString => EmptyString
  | String a rest =>
      match TrimRight rest c with
      | EmptyString => if Ascii.eqb a c then EmptyString else String a EmptyString
      | t => String a t
      end
  end.

(** [strings.TrimLeft(s, cutset)] for a cutset of one byte. *)
Fixpoint TrimLeft (s : string) (c : ascii) : string :=
  match s with
  | EmptyString => EmptyString
  | String a rest => if Ascii.eqb a c then TrimLeft rest c else s
  end.

(** [strings.Trim(s, cutset)] for a cutset of one byte. *)
Definition Trim (s : string) (c : ascii) : string :=
  TrimRight (TrimLeft s c) c.

(** [strings.HasPrefix] *)
Fixpoint HasPrefix (s prefix : string) {struct prefix} : bool :=
  match prefix with
  | EmptyString => true
  | String c p =>
      match s with
      | String a r => Ascii.eqb a c && HasPrefix r p
      | EmptyString => false
      end
  end.

End strings.

(** ** Package [strconv] *)

Module strconv.

Definition byteVal (c : ascii) : Z := Z.of_N (N_of_ascii c).
Definition byteOf (z : Z) : ascii := ascii_of_N (Z.to_N z).

(** [lower(c)] is [c | ('x' - 'X')]. *)
Definition lower (c : ascii) : Z := Z.lor (byteVal c) 32.

Definition isDecimal (c : ascii) : bool :=
  (48 <=? byteVal c) && (byteVal c <=? 57).

(** The digit a byte stands for in [ParseUint]'s loop: ['0'..'9'], then the
    letters of either case; [None] is the syntax error of the [default]
    branch. *)
Definition digitVal (c : ascii) : option Z :=
  if isDecimal c then Some (byteVal c - 48)
  else if (97 <=? lower c) && (lower c <=? 122) then Some (lower c - 97 + 10)
  else None.

Definition underscore : ascii := "_"%char.

(** The loop of [ParseUint] over the bytes of [s], for [bitSize = 64]:
    [n] is the value so far, [us] records whether an underscore was skipped.
    [None] is either error ([ErrSyntax] or [ErrRange]). *)
Fixpoint parseLoop (base : Z) (base0 : bool) (s : string) (n : Z) (us : bool)
  : option (Z * bool) :=
  match s with
  | EmptyString => Some (n, us)
  | String c r =>
      if Ascii.eqb c underscore && base0 then parseLoop base base0 r n true
      else
        match digitVal c with
        | None => None
        | Some d =>
            if base <=? d then None
            else if GoInt.maxUint64 / base + 1 <=? n then None
            else
              let n1 := n * base + d in
              if GoInt.maxUint64 <? n1 then None
              else parseLoop base base0 r n1 us
        end
  end.

(** The state [i] of [underscoreOK]: ['^'], ['0'], ['_'] or ['!']. *)
Inductive prevChar := AtStart | AfterDigit | AfterUnderscore | AfterOther.

Fixpoint underscoreLoop (hex : bool) (s : string) (i : prevChar) : bool :=
  match s with
  | EmptyString => match i with AfterUnderscore => false | _ => true end
  | String c r =>
      if isDecimal c || (hex && (97 <=? lower c) && (lower c <=? 102))
      then underscoreLoop hex r AfterDigit
      else if Ascii.eqb c underscore then
        match i with
        | AfterDigit => underscoreLoop hex r AfterUnderscore
        | _ => false
        end
      else
        match i with
        | AfterUnderscore => false
        | _ => underscoreLoop hex r AfterOther
        end
  end.

Definition isSign (c : ascii) : bool :=
  Ascii.eqb c "+"%char || Ascii.eqb c "-"%char.

Definition isPrefixLetter (c : ascii) : bool :=
  (lower c =? 98) || (lower c =? 111) || (lower c =? 120).

(** [underscoreOK]: underscores only between digits, or between a base
    prefix and a digit. *)
Definition underscoreOK (s : string) : bool :=
  let s1 := match s with
            | String c r => if isSign c then r else s
            | EmptyString => s
            end in
  match s1 with
  | String c0 (String c1 r) =>
      if Ascii.eqb c0 "0"%char && isPrefixLetter c1
      then underscoreLoop (lower c1 =? 120) r AfterDigit
      else underscoreLoop false s1 AtStart
  | _ => underscoreLoop false s1 AtStart
  end.

(** [ParseUint(s, 0, 64)]. *)
Definition ParseUint (s : string) : option Z :=
  match s with
  | EmptyString => None
  | String c0 r0 =>
      let '(base, digits) :=
        if Ascii.eqb c0 "0"%char then
          match r0 with
          | String c1 (String c2 r2) =>
              if lower c1 =? 98 then (2, String c2 r2)
              else if lower c1 =? 111 then (8, String c2 r2)
              else if lower c1 =? 120 then (16, String c2 r2)
              else (8, r0)
          | _ => (8, r0)
          end
        else (10, s) in
      match parseLoop base true digits 0 false with
      | None => None
      | Some (n, us) => if us && negb (underscoreOK s) then None else Some n
      end
  end.

(** [ParseInt(s, 0, 64)]; [None] stands for a non-nil [err]. *)
Definition ParseInt (s : string) : option Z :=
  match s with
  | EmptyString => None
  | String c0 r0 =>
      let neg := Ascii.eqb c0 "-"%char in
      let s1 := if isSign c0 then r0 else s in
      match ParseUint s1 with
      | None => None
      | Some un =>
          let cutoff := 2 ^ 63 in
          if negb neg && (cutoff <=? un) then None
          else if neg && (cutoff <? un) then None
          else Some (if neg then - un else un)
      end
  end.

(** [formatBits] for base 10: the digits of [u], least significant first,
    pushed in front of [acc]. Twenty rounds cover every [uint64]. *)
Fixpoint formatBits (fuel : nat) (u : Z) (acc : string) : string :=
  match fuel with
  | O => acc
  | S fuel' =>
      if 10 <=? u
      then formatBits fuel' (u / 10) (String (byteOf (48 + u mod 10)) acc)
      else String (byteOf (48 + u)) acc
  end.

(** [FormatInt(i, 10)]. *)
Definition FormatInt (i : Z) : string :=
  if i <? 0 then String "-"%char (formatBits 20 (- i) "")
  else formatBits 20 i "".

End strconv.

(** ** Package [fmt] *)

Module fmt.

Definition binaryDigits := "01".
Definition octalDigits := "01234567".
Definition decimalDigits := "0123456789".
Definition hexadecimalDigits := "0123456789aAbBcCdDeEfF".
Definition sign := "+-".

(** [indexRune(ok, r) >= 0], on bytes: every set above is ASCII. *)
Fixpoint indexRune (ok : string) (c : ascii) : bool :=
  match ok with
  | EmptyString => false
  | String a r => Ascii.eqb a c || indexRune r c
  end.

(** The scan state [ss]: the token buffer and the unread input. *)
Record ss := mkSs { buf : string; rd : string }.

Definition peek (ok : string) (s : ss) : bool :=
  match rd s with
  | String c _ => indexRune ok c
  | EmptyString => false
  end.

(** [s.accept(ok)], that is [s.consume(ok, true)]. *)
Definition accept (ok : string) (s : ss) : bool * ss :=
  match rd s with
  | String c r =>
      if indexRune ok c then (true, mkSs (buf s ++ String c "") r) else (false, s)
  | EmptyString => (false, s)
  end.

(** [for s.accept(digits) {}] *)
Fixpoint acceptAll (ok : string) (b : string) (input : string) : ss :=
  match input with
  | String c r => if indexRune ok c then acceptAll ok (b ++ String c "") r else mkSs b input
  | EmptyString => mkSs b input
  end.

Definition b (c : ascii) : Z := strconv.byteVal c.

(** [isSpace] on a rune of one byte: U+0009..U+000D and U+0020. *)
Definition isSpace1 (c : ascii) : bool :=
  ((9 <=? b c) && (b c <=? 13)) || (b c =? 32).

(** U+0085 and U+00A0, encoded C2 85 and C2 A0. *)
Definition isSpace2 (c1 c2 : ascii) : bool :=
  (b c1 =? 194) && ((b c2 =? 133) || (b c2 =? 160)).

(** U+1680, U+2000..U+200A, U+2028, U+2029, U+202F, U+205F and U+3000 in
    their encodings of three bytes. *)
Definition isSpace3 (c1 c2 c3 : ascii) : bool :=
  ((b c1 =? 225) && (b c2 =? 154) && (b c3 =? 128))
  || ((b c1 =? 226) && (b c2 =? 128)
      && (((128 <=? b c3) && (b c3 <=? 138)) || (b c3 =? 168) || (b c3 =? 169) || (b c3 =? 175)))
  || ((b c1 =? 226) && (b c2 =? 129) && (b c3 =? 159))
  || ((b c1 =? 227) && (b c2 =? 128) && (b c3 =? 128)).

(** [s.SkipSpace()] for [Sscan], where a newline counts as space. *)
Fixpoint SkipSpace (s : string) : string :=
  match s with
  | EmptyString => s
  | String c1 r1 =>
      if isSpace1 c1 then SkipSpace r1
      else
        match r1 with
        | EmptyString => s
        | String c2 r2 =>
            if isSpace2 c1 c2 then SkipSpace r2
            else
              match r2 with
              | EmptyString => s
              | String c3 r3 => if isSpace3 c1 c2 c3 then SkipSpace r3 else s
              end
        end
  end.

(** [s.scanBasePrefix()]: the digit set of the number that follows and
    whether a zero was already read. *)
Definition scanBasePrefix (s : ss) : string * bool * ss :=
  if negb (peek "0" s) then (decimalDigits ++ "_", false, s)
  else
    let s0 := snd (accept "0" s) in
    if peek "bB" s0 then (binaryDigits ++ "_", true, snd (accept "bB" s0))
    else if peek "oO" s0 then (octalDigits ++ "_", true, snd (accept "oO" s0))
    else if peek "xX" s0 then (hexadecimalDigits ++ "_", true, snd (accept "xX" s0))
    else (octalDigits ++ "_", true, s0).

(** [s.scanNumber(digits, haveDigits)]; [None] when it panics. *)
Definition scanNumber (digits : string) (haveDigits : bool) (s : ss) : option string :=
  if haveDigits then Some (buf (acceptAll digits (buf s) (rd s)))
  else
    match accept digits s with
    | (true, s') => Some (buf (acceptAll digits (buf s') (rd s')))
    | (false, _) => None
    end.

(** [s.scanInt('v', 64)] from the sign on, the input being [rest]. *)
Definition scanToken (rest : string) : option Z :=
  let s1 := snd (accept sign (mkSs "" rest)) in
  let '(digits, haveDigits, s2) := scanBasePrefix s1 in
  match scanNumber digits haveDigits s2 with
  | None => None
  | Some tok => strconv.ParseInt tok
  end.

(** [s.scanInt('v', 64)]; [None] when it panics, in which case the
    destination is not assigned. *)
Definition scanInt (input : string) : option Z :=
  match SkipSpace input with
  | EmptyString => None
  | rest => scanToken rest
  end.

(** [fmt.Sscan(str, &v)] for [v] an [int64] holding [old]: the value of [v]
    afterwards. The count and the error that [Sscan] returns are dropped by
    the caller. *)
Definition Sscan (str : string) (old : Z) : Z :=
  match scanInt str with
  | Some v => v
  | None => old
  end.

(** [fmt.Sprint] of one [int64]. *)
Definition Sprint (i : Z) : string := strconv.FormatInt i.

End fmt.

(** ** [float64] and its conversions *)

Module GoFloat.

(** binary64 *)
Definition prec : Z := 53.
Definition emax : Z := 1024.
Definition float64 := spec_float.

(** The conversion [float64(z)] of an integer, rounding to nearest even. *)
Definition float64_of_int (z : Z) : float64 := binary_normalize prec emax z 0 false.

(** The conversion [int(f)]: the fraction is discarded. In this program
    [f] is the [Seconds] of an [int64], which is finite and far inside the
    range of [int], so the cases with no defined result are not reached;
    they are given 0 here. *)
Definition int_of_float64 (f : float64) : Z :=
  match f with
  | S754_finite s m e =>
      cond_Zopp s
        (match e with
         | Zneg p => Z.pos m / 2 ^ Z.pos p
         | _ => Z.pos m * 2 ^ e
         end)
  | _ => 0
  end.

End GoFloat.

(** ** Package [time] *)

Module time.

(** A [Duration] is an [int64] count of nanoseconds. *)
Definition Duration := Z.
Definition Second : Duration := 1000000000.

(** [d.Seconds()]:
    [sec := d / Second; nsec := d % Second; return float64(sec) + float64(nsec)/1e9]. *)
Definition Seconds (d : Duration) : GoFloat.float64 :=
  let sec := Z.quot d Second in
  let nsec := Z.rem d Second in
  SFadd GoFloat.prec GoFloat.emax (GoFloat.float64_of_int sec)
    (SFdiv GoFloat.prec GoFloat.emax (GoFloat.float64_of_int nsec)
       (GoFloat.float64_of_int 1000000000)).

End time.

(** ** Package [path]

    The module is called [pathpkg]: [path] is a field of [Request] below. *)

Module pathpkg.

Definition slash : ascii := "/"%char.

(** The buffer of [Clean] ([lazybuf]) holds the bytes written so far, the
    last one first; [out.w] is its length. *)
Definition lazybuf := list ascii.

Definition bufString (out : lazybuf) : string := string_of_list_ascii (rev out).

(** [r == n || path[r] == '/'], for the rest [path[r:]] of the path. *)
Definition atEnd (rest : string) : bool :=
  match rest with
  | EmptyString => true
  | String c _ => Ascii.eqb c slash
  end.

(** [for out.w > dotdot && out.index(out.w) != '/' { out.w-- }], where
    [popped] is the byte at [out.w], the one dropped last. *)
Fixpoint backUp (popped : ascii) (out : lazybuf) (dotdot : nat) : lazybuf :=
  match out with
  | [] => []
  | c :: out' =>
      if (dotdot <? List.length out)%nat && negb (Ascii.eqb popped slash)
      then backUp c out' dotdot
      else out
  end.

(** [for ; r < n && path[r] != '/'; r++ { out.append(path[r]) }]: the rest
    of the path and the buffer afterwards. *)
Fixpoint copyElement (rest : string) (out : lazybuf) : string * lazybuf :=
  match rest with
  | EmptyString => (rest, out)
  | String c t => if Ascii.eqb c slash then (rest, out) else copyElement t (c :: out)
  end.

(** The loop [for r < n] of [Clean] on the rest [path[r:]] of the path.
    Every round takes one byte at least: [fuel] rounds are enough when
    [fuel] is the length of the rest. *)
Fixpoint cleanLoop (fuel : nat) (rooted : bool) (rest : string) (out : lazybuf)
    (dotdot : nat) : lazybuf :=
  match fuel with
  | O => out
  | S fuel' =>
      match rest with
      | EmptyString => out
      | String c t =>
          if Ascii.eqb c slash then
            (* empty path element *)
            cleanLoop fuel' rooted t out dotdot
          else if Ascii.eqb c strings.dot && atEnd t then
            (* . element *)
            cleanLoop fuel' rooted t out dotdot
          else if Ascii.eqb c strings.dot
                  && match t with
                     | String c1 t1 => Ascii.eqb c1 strings.dot && atEnd t1
                     | EmptyString => false
                     end then
            (* .. element: remove to last / *)
            let t1 := match t with String _ t1 => t1 | EmptyString => EmptyString end in
            if (dotdot <? List.length out)%nat then
              (* can backtrack *)
              match out with
              | popped :: out' => cleanLoop fuel' rooted t1 (backUp popped out' dotdot) dotdot
              | [] => cleanLoop fuel' rooted t1 out dotdot
              end
            else if negb rooted then
              (* cannot backtrack, but not rooted, so append .. element *)
              let out1 := if (0 <? List.length out)%nat then slash :: out else out in
              let out2 := strings.dot :: strings.dot :: out1 in
              cleanLoop fuel' rooted t1 out2 (List.length out2)
            else cleanLoop fuel' rooted t1 out dotdot
          else
            (* real path element: add slash if needed, copy element *)
            let out1 :=
              if rooted && negb (List.length out =? 1)%nat
                 || negb rooted && negb (List.length out =? 0)%nat
              then slash :: out else out in
            let (rest', out2) := copyElement rest out1 in
            cleanLoop fuel' rooted rest' out2 dotdot
      end
  end.

(** [path.Clean] *)
Definition Clean (path : string) : string :=
  match path with
  | EmptyString => "."
  | String c t =>
      let rooted := Ascii.eqb c slash in
      let out :=
        if rooted then cleanLoop (String.length t) true t [slash] 1
        else cleanLoop (String.length path) false path [] 0 in
      match out with
      | [] => "."
      | _ => bufString out
      end
  end.

(** The second loop of [path.Join]. *)
Fixpoint joinLoop (elem : list string) (buf : string) : string :=
  match elem with
  | [] => buf
  | e :: rest =>
      if negb (buf =? "")%string || negb (e =? "")%string then
        joinLoop rest ((if negb (buf =? "")%string then buf ++ "/" else buf) ++ e)
      else joinLoop rest buf
  end.

(** [path.Join] *)
Definition Join (elem : list string) : string :=
  let size := fold_left (fun n e => (n + String.length e)%nat) elem 0%nat in
  if (size =? 0)%nat then "" else Clean (joinLoop elem "").

End pathpkg.

(** ** Package [net/url] (Go 1.20 and later) *)

Module url.

Import strconv.

(** The two encodings the client reaches. *)
Inductive encoding := encodePath | encodeHost.

Fixpoint byteIn (c : ascii) (set : string) : bool :=
  match set with
  | EmptyString => false
  | String a r => Ascii.eqb a c || byteIn c r
  end.

Definition isAlnum (c : ascii) : bool :=
  let b := byteVal c in
  (97 <=? b) && (b <=? 122) || (65 <=? b) && (b <=? 90) || (48 <=? b) && (b <=? 57).

Definition doubleQuote : ascii := ascii_of_nat 34.

(** [shouldEscape(c, mode)] *)
Definition shouldEscape (c : ascii) (mode : encoding) : bool :=
  if isAlnum c then false
  else if match mode with
          | encodeHost => byteIn c "!$&'()*+,;=:[]<>" || Ascii.eqb c doubleQuote
          | encodePath => false
          end then false
  else if byteIn c "-_.~" then false
  else if byteIn c "$&+,/:;=?@" then
    match mode with
    | encodePath => Ascii.eqb c "?"
    | encodeHost => true
    end
  else true.

Definition ishex (c : ascii) : bool :=
  let b := byteVal c in
  (48 <=? b) && (b <=? 57) || (97 <=? b) && (b <=? 102) || (65 <=? b) && (b <=? 70).

Definition unhex (c : ascii) : Z :=
  let b := byteVal c in
  if (48 <=? b) && (b <=? 57) then b - 48
  else if (97 <=? b) && (b <=? 102) then b - 97 + 10
  else if (65 <=? b) && (b <=? 70) then b - 65 + 10
  else 0.

Definition percent : ascii := "%"%char.

(** The first loop of [unescape], in the mode [encodePath]: the number of
    [%], or [None] for the [EscapeError] of a [%] that is not followed by
    two hexadecimal digits. *)
Fixpoint countEscapes (s : string) : option nat :=
  match s with
  | EmptyString => Some 0%nat
  | String c t =>
      if Ascii.eqb c percent then
        match t with
        | String h1 (String h2 t') =>
            if ishex h1 && ishex h2 then option_map S (countEscapes t') else None
        | _ => None
        end
      else countEscapes t
  end.

(** The second loop of [unescape]. *)
Fixpoint decode (s : string) : string :=
  match s with
  | EmptyString => EmptyString
  | String c t =>
      if Ascii.eqb c percent then
        match t with
        | String h1 (String h2 t') =>
            String (byteOf (Z.lor (Z.shiftl (unhex h1) 4) (unhex h2))) (decode t')
        | _ => EmptyString
        end
      else String c (decode t)
  end.

(** [unescape(s, encodePath)] *)
Definition unescape (s : string) : option string :=
  match countEscapes s with
  | None => None
  | Some O => Some s
  | Some (S _) => Some (decode s)
  end.

Definition upperhex (n : Z) : ascii :=
  match String.get (Z.to_nat n) "0123456789ABCDEF" with
  | Some c => c
  | None => "0"%char
  end.

Fixpoint hexCount (s : string) (mode : encoding) : nat :=
  match s with
  | EmptyString => 0
  | String c t => ((if shouldEscape c mode then 1 else 0) + hexCount t mode)%nat
  end.

Fixpoint encode (s : string) (mode : encoding) : string :=
  match s with
  | EmptyString => EmptyString
  | String c t =>
      if shouldEscape c mode then
        String percent
          (String (upperhex (Z.shiftr (byteVal c) 4))
             (String (upperhex (Z.land (byteVal c) 15)) (encode t mode)))
      else String c (encode t mode)
  end.

(** [escape(s, mode)] *)
Definition escape (s : string) (mode : encoding) : string :=
  if (hexCount s mode =? 0)%nat then s else encode s mode.

(** [validEncoded(s, encodePath)] *)
Fixpoint validEncoded (s : string) : bool :=
  match s with
  | EmptyString => true
  | String c t =>
      (if byteIn c "!$&'()*+,;=:@" then true
       else if byteIn c "[]" then true
       else if Ascii.eqb c percent then true
       else negb (shouldEscape c encodePath))
      && validEncoded t
  end.

(** The fields of [url.URL] that [url.Parse(defaultBaseURL)] sets and
    [JoinPath] changes; there is no user, query or fragment, and the URL is
    not opaque. *)
Record URL := mkURL {
  Scheme : string;
  Host : string;
  Path : string;
  RawPath : string
}.

(** [u.setPath(p)]: the URL afterwards; it is left as it was when [p]
    cannot be unescaped. *)
Definition setPath (u : URL) (p : string) : URL :=
  match unescape p with
  | None => u
  | Some path =>
      mkURL (Scheme u) (Host u) path
        (if (p =? escape path encodePath)%string then "" else p)
  end.

(** [u.EscapedPath()] *)
Definition EscapedPath (u : URL) : string :=
  if negb (RawPath u =? "")%string && validEncoded (RawPath u)
     && match unescape (RawPath u) with
        | Some p => (p =? Path u)%string
        | None => false
        end
  then RawPath u
  else if (Path u =? "*")%string then "*"
  else escape (Path u) encodePath.

(** [u.JoinPath(elem...)]; the error of [setPath] is dropped. *)
Definition JoinPath (u : URL) (elem : list string) : URL :=
  let elem0 := EscapedPath u in
  let '(elem, p) :=
    if negb (strings.HasPrefix elem0 "/") then
      (* a relative path: joined as a rooted one, without its first byte *)
      let elem := ("/" ++ elem0) :: elem in
      let joined := pathpkg.Join elem in
      (elem, substring 1 (String.length joined - 1) joined)
    else
      let elem := elem0 :: elem in
      (elem, pathpkg.Join elem) in
  (* pathpkg.Join removes any trailing slash: preserve at least one *)
  let p :=
    if strings.HasSuffix (List.last elem "") "/" && negb (strings.HasSuffix p "/")
    then p ++ "/" else p in
  setPath u p.

(** The first element of [path], [strings.Cut(path, "/")], contains a colon. *)
Fixpoint firstSegmentHasColon (path : string) : bool :=
  match path with
  | EmptyString => false
  | String c t =>
      if Ascii.eqb c "/" then false else Ascii.eqb c ":" || firstSegmentHasColon t
  end.

(** [u.String()] for a URL that is not opaque and has no user, query or
    fragment ([OmitHost] is not set). *)
Definition String_ (u : URL) : string :=
  let buf := if negb (Scheme u =? "")%string then Scheme u ++ ":" else "" in
  let buf :=
    if negb (Scheme u =? "")%string || negb (Host u =? "")%string then
      (buf ++ (if negb (Host u =? "")%string || negb (Path u =? "")%string then "//" else ""))
      ++ (if negb (Host u =? "")%string then escape (Host u) encodeHost else "")
    else buf in
  let path := EscapedPath u in
  let buf :=
    if negb (path =? "")%string && negb (strings.HasPrefix path "/")
       && negb (Host u =? "")%string
    then buf ++ "/" else buf in
  let buf :=
    if (buf =? "")%string && firstSegmentHasColon path then buf ++ "./" else buf in
  buf ++ path.

End url.

(** ** Package [libdns] (v0.2): the record and the two name functions *)

Module libdns.

(** [libdns.Record], with the fields the adapter reads and writes. *)
Record record := mkRecord {
  ID : string;
  Type_ : string;
  Name : string;
  Value : string;
  TTL : time.Duration;
  Priority : Z (* uint *)
}.

(** Modelled from the spec: [libdns.RelativeName] is a function of the
    module [github.com/libdns/libdns], whose source is not part of this
    repository. It is the spec's
    name-rebasing primitive "given an absolute name and a domain, produce
    the short name by stripping the suffix and trailing separator, yielding
    empty string if the absolute name equals the domain exactly"; as in
    [libdns], a trailing dot of either argument is dropped first, and a
    name that does not end with the domain is returned as it is. *)
Definition RelativeName (fqdn zone : string) : string :=
  strings.TrimSuffix
    (strings.TrimSuffix (strings.TrimSuffix fqdn ".") (strings.TrimSuffix zone "."))
    ".".

(** Modelled from the spec: [libdns.AbsoluteName] is a function of the
    module [github.com/libdns/libdns], whose source is not part of this
    repository. It is the spec's "given a
    short name and a domain, produce the absolute name by suffixing"; as in
    [libdns], an empty name or ["@"] stands for the zone itself, and a dot
    is put between the name and the zone unless the name ends with one. *)
Definition AbsoluteName (name zone : string) : string :=
  if (zone =? "")%string then strings.Trim name strings.dot
  else if (name =? "")%string || (name =? "@")%string then zone
  else (if strings.HasSuffix name "." then name else name ++ ".") ++ zone.

End libdns.

(** ** Package [dynu]: the types of the provider's API *)

Module APIException.
Record t := mk { StatusCode : Z; Type_ : string; Message : string }.
End APIException.

Module DNSRecord.
Record t := mk {
  ID : Z;
  Type_ : string;
  DomainID : Z;
  DomainName : string;
  NodeName : string;
  Hostname : string;
  State : bool;
  Content : string;
  Ipv4Address : string;
  Ipv6Address : string;
  Host : string;
  TextData : string;
  TTL : Z;
  Priority : Z;
  StatusCode : Z
}.

(** The zero value of the struct. *)
Definition zero : t := mk 0 "" 0 "" "" "" false "" "" "" "" "" 0 0 0.

Definition set_NodeName (d : t) (v : string) : t :=
  mk (ID d) (Type_ d) (DomainID d) (DomainName d) v (Hostname d) (State d) (Content d)
     (Ipv4Address d) (Ipv6Address d) (Host d) (TextData d) (TTL d) (Priority d) (StatusCode d).
Definition set_Hostname (d : t) (v : string) : t :=
  mk (ID d) (Type_ d) (DomainID d) (DomainName d) (NodeName d) v (State d) (Content d)
     (Ipv4Address d) (Ipv6Address d) (Host d) (TextData d) (TTL d) (Priority d) (StatusCode d).
Definition set_Ipv4Address (d : t) (v : string) : t :=
  mk (ID d) (Type_ d) (DomainID d) (DomainName d) (NodeName d) (Hostname d) (State d) (Content d)
     v (Ipv6Address d) (Host d) (TextData d) (TTL d) (Priority d) (StatusCode d).
Definition set_Ipv6Address (d : t) (v : string) : t :=
  mk (ID d) (Type_ d) (DomainID d) (DomainName d) (NodeName d) (Hostname d) (State d) (Content d)
     (Ipv4Address d) v (Host d) (TextData d) (TTL d) (Priority d) (StatusCode d).
Definition set_Host (d : t) (v : string) : t :=
  mk (ID d) (Type_ d) (DomainID d) (DomainName d) (NodeName d) (Hostname d) (State d) (Content d)
     (Ipv4Address d) (Ipv6Address d) v (TextData d) (TTL d) (Priority d) (StatusCode d).
Definition set_TextData (d : t) (v : string) : t :=
  mk (ID d) (Type_ d) (DomainID d) (DomainName d) (NodeName d) (Hostname d) (State d) (Content d)
     (Ipv4Address d) (Ipv6Address d) (Host d) v (TTL d) (Priority d) (StatusCode d).
Definition set_Priority (d : t) (v : Z) : t :=
  mk (ID d) (Type_ d) (DomainID d) (DomainName d) (NodeName d) (Hostname d) (State d) (Content d)
     (Ipv4Address d) (Ipv6Address d) (Host d) (TextData d) (TTL d) v (StatusCode d).
Definition set_StatusCode (d : t) (v : Z) : t :=
  mk (ID d) (Type_ d) (DomainID d) (DomainName d) (NodeName d) (Hostname d) (State d) (Content d)
     (Ipv4Address d) (Ipv6Address d) (Host d) (TextData d) (TTL d) (Priority d) v.
End DNSRecord.

Module DNSHostname.
Record t := mk {
  StatusCode : Z;
  ID : Z;
  DomainName : string;
  Hostname : string;
  Node : string
}.
End DNSHostname.

Module RecordsResponse.
Record t := mk { StatusCode : Z; DNSRecords : list DNSRecord.t }.
End RecordsResponse.

Module DeleteResponse.
Record t := mk { StatusCode : Z }.
End DeleteResponse.

(** ** Errors

    The [error] values the package builds. What the transport returns
    (request construction, the HTTP round trip, reading and decoding the
    body) is opaque and carries its message only. *)
#[local] Unset Elimination Schemes.
Inductive error :=
| TransportError (msg : string)
    (* whatever [doWithCustomError] returns *)
| APIError (e : APIException.t)
    (* [fmt.Errorf("API error: %w", apiException)] *)
| NotImplemented (r : libdns.record)
    (* [fmt.Errorf("dnsRecord %+v: record type not implemented", record)] *)
| RecordError (r : libdns.record) (e : error)
    (* [fmt.Errorf("dnsRecord %+v: %w", rec, err)] *)
| RecordIdError (id : string) (e : error)
    (* [fmt.Errorf("dnsRecordId %s: %w", rec.ID, err)] *)
| JoinError (es : list error).
    (* the value of [errors.Join] *)
#[local] Set Elimination Schemes.

Module errors.
(** [errors.Join(errs...)] on a slice without nil entries: nil when the
    slice is empty, one error wrapping all of them, in order, otherwise. *)
Definition Join (errs : list error) : option error :=
  match errs with
  | [] => None
  | _ => Some (JoinError errs)
  end.
End errors.

(** ** The record translator ([provider.go]) *)

(** [dnsRecordToLibdnsRecord(dnsRecord, domain)] *)
Definition dnsRecordToLibdnsRecord (dnsRecord : DNSRecord.t) (domain : string)
  : libdns.record :=
  let fqdn := DNSRecord.Hostname dnsRecord in
  let relativeName :=
    let r := libdns.RelativeName fqdn domain in
    if (r =? "")%string then "@" else r in
  let id := fmt.Sprint (DNSRecord.ID dnsRecord) in
  let ty := DNSRecord.Type_ dnsRecord in
  let ttl := GoInt.wrapInt64 (DNSRecord.TTL dnsRecord * time.Second) in
  let libRecord (name value : string) (priority : Z) :=
    libdns.mkRecord id ty name value ttl priority in
  if (ty =? "A")%string then libRecord relativeName (DNSRecord.Ipv4Address dnsRecord) 0
  else if (ty =? "AAAA")%string then libRecord relativeName (DNSRecord.Ipv6Address dnsRecord) 0
  else if (ty =? "CNAME")%string then libRecord relativeName (DNSRecord.Host dnsRecord) 0
  else if (ty =? "MX")%string then
    libRecord relativeName (DNSRecord.Host dnsRecord)
      (GoInt.wrapUint64 (DNSRecord.Priority dnsRecord))
  else if (ty =? "NS")%string then libRecord relativeName (DNSRecord.Host dnsRecord) 0
  else if (ty =? "PTR")%string then
    libRecord (DNSRecord.Host dnsRecord) (DNSRecord.Hostname dnsRecord) 0
  else if (ty =? "SPF")%string then libRecord relativeName (DNSRecord.TextData dnsRecord) 0
  else if (ty =? "TXT")%string then libRecord relativeName (DNSRecord.TextData dnsRecord) 0
  else libRecord relativeName (DNSRecord.Content dnsRecord) 0.

(** [libdnsRecordToDnsRecord(record, domain, ownDomain)]: the provider
    record and the error, nil ([None]) for the eight known types. *)
Definition libdnsRecordToDnsRecord (record : libdns.record) (domain ownDomain : string)
  : DNSRecord.t * option error :=
  let id := fmt.Sscan (libdns.ID record) 0 in
  let nodeName :=
    if (libdns.Name record =? "@")%string then "" else libdns.Name record in
  let fqdn := libdns.AbsoluteName nodeName domain in
  let relativeName := libdns.RelativeName fqdn ownDomain in
  let dnsRecord :=
    DNSRecord.mk id (libdns.Type_ record) 0 "" relativeName "" true "" "" "" "" ""
      (GoFloat.int_of_float64 (time.Seconds (libdns.TTL record))) 0 0 in
  let ty := libdns.Type_ record in
  let v := libdns.Value record in
  if (ty =? "A")%string then (DNSRecord.set_Ipv4Address dnsRecord v, None)
  else if (ty =? "AAAA")%string then (DNSRecord.set_Ipv6Address dnsRecord v, None)
  else if (ty =? "CNAME")%string then (DNSRecord.set_Host dnsRecord v, None)
  else if (ty =? "MX")%string then
    (DNSRecord.set_Priority (DNSRecord.set_Host dnsRecord v)
       (GoInt.wrapInt64 (libdns.Priority record)), None)
  else if (ty =? "NS")%string then (DNSRecord.set_Host dnsRecord v, None)
  else if (ty =? "PTR")%string then
    (DNSRecord.set_NodeName (DNSRecord.set_Host dnsRecord (libdns.Name record))
       (libdns.RelativeName v ownDomain), None)
  else if (ty =? "SPF")%string then (DNSRecord.set_TextData dnsRecord v, None)
  else if (ty =? "TXT")%string then (DNSRecord.set_TextData dnsRecord v, None)
  else (dnsRecord, Some (NotImplemented record)).

(** [zoneToFqdn(zone)]: [strings.TrimRight(zone, ".")]. *)
Definition zoneToFqdn (zone : string) : string := strings.TrimRight zone strings.dot.

(** ** The state of the outside world

    Every remote call reads and changes the state of the network and of
    the provider. A computation is a function from that state to a result
    and the state afterwards. *)

Definition M (World A : Type) : Type := World -> A * World.

Definition ret {World A} (a : A) : M World A := fun w => (a, w).

Definition bind {World A B} (m : M World A) (k : A -> M World B) : M World B :=
  fun w => let (a, w') := m w in k a w'.

Notation "x <- m ;; k" := (bind m (fun x => k))
  (at level 61, m at next level, right associativity).

(** ** The client ([client.go]) *)

Inductive Method := MethodGet | MethodPost | MethodDelete.

(** What [doWithCustomError] sends: the method, the elements handed to
    [joinUrlPath] after the base URL, the JSON body (the record it was
    marshalled from) and the [API-Key] header. *)
Record Request := mkRequest {
  method : Method;
  path : list string;
  body : option DNSRecord.t;
  apiKey : string
}.

(** The transport under [doWithCustomError]: [send] is the construction of
    the request, [HTTPClient.Do] and [io.ReadAll]; the [decode] functions
    are [json.Unmarshal] of the raw body into each result type. Decoding
    into the [APIException] cannot fail the call: its error is dropped. *)
Record Transport (World Raw : Type) := mkTransport {
  send : Request -> M World (error + Raw);
  decodeHostname : Raw -> error + DNSHostname.t;
  decodeRecords : Raw -> error + RecordsResponse.t;
  decodeRecord : Raw -> error + DNSRecord.t;
  decodeDelete : Raw -> error + DeleteResponse.t;
  decodeException : Raw -> APIException.t
}.

Arguments mkTransport {World Raw}.
Arguments send {World Raw}.
Arguments decodeHostname {World Raw}.
Arguments decodeRecords {World Raw}.
Arguments decodeRecord {World Raw}.
Arguments decodeDelete {World Raw}.
Arguments decodeException {World Raw}.

Module Client.

Definition defaultBaseURL : string := "https://api.dynu.com/v2".

(** The [baseURL] of [NewClient]: the value of [url.Parse(defaultBaseURL)]. *)
Definition baseURL : url.URL := url.mkURL "https" "api.dynu.com" "/v2" "".

(** [c.joinUrlPath(elem...)] *)
Definition joinUrlPath (elem : list string) : url.URL := url.JoinPath baseURL elem.

(** [c.joinUrlPath(elem...).String()], the [uri] that [doWithCustomError]
    is called with for the elements [elem]. *)
Definition endpoint (elem : list string) : string := url.String_ (joinUrlPath elem).

Section WithTransport.

Context {World Raw : Type}.
Variable T : Transport World Raw.

(** The [Client]: its transport is [T], its token the field [APIToken]. *)
Variable APIToken : string.

Definition doWithCustomError {R : Type} (decode : Raw -> error + R)
    (m : Method) (elems : list string) (reqBody : option DNSRecord.t)
  : M World (error + R * APIException.t) :=
  resp <- send T (mkRequest m elems reqBody APIToken) ;;
  match resp with
  | inl err => ret (inl err)
  | inr raw =>
      match decode raw with
      | inl err => ret (inl err)
      | inr result => ret (inr (result, decodeException T raw))
      end
  end.

Definition GetRootDomain (hostname : string) : M World (error + DNSHostname.t) :=
  r <- doWithCustomError (decodeHostname T) MethodGet ["dns"; "getroot"; hostname] None ;;
  match r with
  | inl err => ret (inl err)
  | inr (apiResponse, apiException) =>
      if negb (DNSHostname.StatusCode apiResponse =? 200)
      then ret (inl (APIError apiException))
      else ret (inr apiResponse)
  end.

Definition GetRecords (hostnameId : Z) : M World (error + list DNSRecord.t) :=
  r <- doWithCustomError (decodeRecords T) MethodGet
         ["dns"; fmt.Sprint hostnameId; "record"] None ;;
  match r with
  | inl err => ret (inl err)
  | inr (apiResponse, apiException) =>
      if negb (RecordsResponse.StatusCode apiResponse =? 200)
      then ret (inl (APIError apiException))
      else ret (inr (RecordsResponse.DNSRecords apiResponse))
  end.

(** The endpoint of [AddOrUpdateRecord]: the record's own when it has an
    identifier and the caller did not ask to ignore it, the collection's
    otherwise. *)
Definition urlPaths (hostnameId : Z) (record : DNSRecord.t) (ignoreRecordId : bool)
  : list string :=
  ["dns"; fmt.Sprint hostnameId; "record"]
  ++ (if negb (DNSRecord.ID record =? 0) && negb ignoreRecordId
      then [fmt.Sprint (DNSRecord.ID record)] else []).

Definition AddOrUpdateRecord (hostnameId : Z) (record : DNSRecord.t) (ignoreRecordId : bool)
  : M World (error + DNSRecord.t) :=
  r <- doWithCustomError (decodeRecord T) MethodPost
         (urlPaths hostnameId record ignoreRecordId) (Some record) ;;
  match r with
  | inl err => ret (inl err)
  | inr (apiResponse, apiException) =>
      if negb (DNSRecord.StatusCode apiResponse =? 200)
      then ret (inl (APIError apiException))
      else ret (inr apiResponse)
  end.

Definition DeleteRecord (hostnameId : Z) (dnsRecordId : string) : M World (option error) :=
  r <- doWithCustomError (decodeDelete T) MethodDelete
         ["dns"; fmt.Sprint hostnameId; "record"; dnsRecordId] None ;;
  match r with
  | inl err => ret (Some err)
  | inr (apiResponse, apiException) =>
      if negb (DeleteResponse.StatusCode apiResponse =? 200)
      then ret (Some (APIError apiException))
      else ret None
  end.

End WithTransport.
End Client.

(** ** The facade ([provider.go]) *)

Module Provider.

(** The configuration fields of [Provider]. [Once] and [Client] only serve
    to build the client from [APIToken] on first use. *)
Record t := mk { APIToken : string; OwnDomain : string }.

Section WithTransport.

Context {World Raw : Type}.
Variable T : Transport World Raw.
Variable p : t.

(** A Go result [([]libdns.Record, error)]; the nil slice is [[]]. *)
Definition result : Type := list libdns.record * option error.

Definition GetRecords (zone : string) : M World result :=
  let domain := zoneToFqdn zone in
  r <- Client.GetRootDomain T (APIToken p) (OwnDomain p) ;;
  match r with
  | inl err => ret ([], Some err)
  | inr dnsHostName =>
      r' <- Client.GetRecords T (APIToken p) (DNSHostname.ID dnsHostName) ;;
      match r' with
      | inl err => ret ([], Some err)
      | inr dnsRecords =>
          ret (map (fun dnsRecord => dnsRecordToLibdnsRecord dnsRecord domain) dnsRecords, None)
      end
  end.

(** The loop of [appendOrSetRecords] over the records that are left, with
    the two slices it appends to. *)
Fixpoint appendOrSetLoop (domain : string) (hostnameId : Z) (ignoreRecordId : bool)
    (records : list libdns.record)
    (updatedRecords : list libdns.record) (updateErrors : list error)
  : M World (list libdns.record * list error) :=
  match records with
  | [] => ret (updatedRecords, updateErrors)
  | rec :: rest =>
      match libdnsRecordToDnsRecord rec domain (OwnDomain p) with
      | (_, Some err) =>
          appendOrSetLoop domain hostnameId ignoreRecordId rest
            updatedRecords (updateErrors ++ [err])
      | (dnsRecord, None) =>
          r <- Client.AddOrUpdateRecord T (APIToken p) hostnameId dnsRecord ignoreRecordId ;;
          match r with
          | inl err =>
              appendOrSetLoop domain hostnameId ignoreRecordId rest
                updatedRecords (updateErrors ++ [RecordError rec err])
          | inr updateResponse =>
              appendOrSetLoop domain hostnameId ignoreRecordId rest
                (updatedRecords ++ [dnsRecordToLibdnsRecord updateResponse domain])
                updateErrors
          end
      end
  end.

Definition appendOrSetRecords (zone : string) (records : list libdns.record)
    (ignoreRecordId : bool) : M World result :=
  let domain := zoneToFqdn zone in
  r <- Client.GetRootDomain T (APIToken p) (OwnDomain p) ;;
  match r with
  | inl err => ret ([], Some err)
  | inr dnsHostName =>
      out <- appendOrSetLoop domain (DNSHostname.ID dnsHostName) ignoreRecordId records [] [] ;;
      ret (fst out, errors.Join (snd out))
  end.

Definition AppendRecords (zone : string) (records : list libdns.record) : M World result :=
  appendOrSetRecords zone records true.

Definition SetRecords (zone : string) (records : list libdns.record) : M World result :=
  appendOrSetRecords zone records false.

(** The loop of [DeleteRecords]. *)
Fixpoint deleteLoop (hostnameId : Z) (records : list libdns.record)
    (deletedRecords : list libdns.record) (deleteErrors : list error)
  : M World (list libdns.record * list error) :=
  match records with
  | [] => ret (deletedRecords, deleteErrors)
  | rec :: rest =>
      e <- Client.DeleteRecord T (APIToken p) hostnameId (libdns.ID rec) ;;
      match e with
      | Some err =>
          deleteLoop hostnameId rest deletedRecords
            (deleteErrors ++ [RecordIdError (libdns.ID rec) err])
      | None => deleteLoop hostnameId rest (deletedRecords ++ [rec]) deleteErrors
      end
  end.

Definition DeleteRecords (zone : string) (records : list libdns.record) : M World result :=
  r <- Client.GetRootDomain T (APIToken p) (OwnDomain p) ;;
  match r with
  | inl err => ret ([], Some err)
  | inr dnsHostName =>
      out <- deleteLoop (DNSHostname.ID dnsHostName) records [] [] ;;
      ret (fst out, errors.Join (snd out))
  end.

End WithTransport.
End Provider.

(** ** The provider before [OwnDomain] ([provider.go], first part)

    The translators and the facade as they were before the field
    [OwnDomain]: the provider's domain is the zone. *)

Module Previous.

(** [dnsRecordToLibdnsRecord(dnsRecord)] *)
Definition dnsRecordToLibdnsRecord (dnsRecord : DNSRecord.t) : libdns.record :=
  let relativeName :=
    if (DNSRecord.NodeName dnsRecord =? "")%string then "@"
    else DNSRecord.NodeName dnsRecord in
  let id := fmt.Sprint (DNSRecord.ID dnsRecord) in
  let ty := DNSRecord.Type_ dnsRecord in
  let ttl := GoInt.wrapInt64 (DNSRecord.TTL dnsRecord * time.Second) in
  let libRecord (name value : string) (priority : Z) :=
    libdns.mkRecord id ty name value ttl priority in
  if (ty =? "A")%string then libRecord relativeName (DNSRecord.Ipv4Address dnsRecord) 0
  else if (ty =? "AAAA")%string then libRecord relativeName (DNSRecord.Ipv6Address dnsRecord) 0
  else if (ty =? "CNAME")%string then libRecord relativeName (DNSRecord.Host dnsRecord) 0
  else if (ty =? "MX")%string then
    libRecord relativeName (DNSRecord.Host dnsRecord)
      (GoInt.wrapUint64 (DNSRecord.Priority dnsRecord))
  else if (ty =? "NS")%string then libRecord relativeName (DNSRecord.Host dnsRecord) 0
  else if (ty =? "PTR")%string then
    libRecord (DNSRecord.Host dnsRecord) (DNSRecord.Hostname dnsRecord) 0
  else if (ty =? "SPF")%string then libRecord relativeName (DNSRecord.TextData dnsRecord) 0
  else if (ty =? "TXT")%string then libRecord relativeName (DNSRecord.TextData dnsRecord) 0
  else libRecord relativeName (DNSRecord.Content dnsRecord) 0.

(** [libdnsRecordToDnsRecord(fqdn, record)] *)
Definition libdnsRecordToDnsRecord (fqdn : string) (record : libdns.record)
  : DNSRecord.t * option error :=
  let id := fmt.Sscan (libdns.ID record) 0 in
  let dnsRecord :=
    DNSRecord.mk id (libdns.Type_ record) 0 "" (libdns.Name record) "" true "" "" "" "" ""
      (GoFloat.int_of_float64 (time.Seconds (libdns.TTL record))) 0 0 in
  let ty := libdns.Type_ record in
  let v := libdns.Value record in
  let '(dnsRecord, err) :=
    if (ty =? "A")%string then (DNSRecord.set_Ipv4Address dnsRecord v, None)
    else if (ty =? "AAAA")%string then (DNSRecord.set_Ipv6Address dnsRecord v, None)
    else if (ty =? "CNAME")%string then (DNSRecord.set_Host dnsRecord v, None)
    else if (ty =? "MX")%string then
      (DNSRecord.set_Priority (DNSRecord.set_Host dnsRecord v)
         (GoInt.wrapInt64 (libdns.Priority record)), None)
    else if (ty =? "NS")%string then (DNSRecord.set_Host dnsRecord v, None)
    else if (ty =? "PTR")%string then
      (DNSRecord.set_NodeName (DNSRecord.set_Host dnsRecord (libdns.Name record))
         (libdns.RelativeName v fqdn), None)
    else if (ty =? "SPF")%string then (DNSRecord.set_TextData dnsRecord v, None)
    else if (ty =? "TXT")%string then (DNSRecord.set_TextData dnsRecord v, None)
    else (dnsRecord, Some (NotImplemented record)) in
  (if (DNSRecord.NodeName dnsRecord =? "@")%string then DNSRecord.set_NodeName dnsRecord ""
   else dnsRecord,
   err).

Section WithTransport.

Context {World Raw : Type}.
Variable T : Transport World Raw.

(** The field [APIToken] of the [Provider]. *)
Variable APIToken : string.

Definition GetRecords (zone : string) : M World Provider.result :=
  let fqdn := zoneToFqdn zone in
  r <- Client.GetRootDomain T APIToken fqdn ;;
  match r with
  | inl err => ret ([], Some err)
  | inr dnsHostName =>
      r' <- Client.GetRecords T APIToken (DNSHostname.ID dnsHostName) ;;
      match r' with
      | inl err => ret ([], Some err)
      | inr dnsRecords => ret (map dnsRecordToLibdnsRecord dnsRecords, None)
      end
  end.

Fixpoint appendOrSetLoop (fqdn : string) (hostnameId : Z) (ignoreRecordId : bool)
    (records : list libdns.record)
    (updatedRecords : list libdns.record) (updateErrors : list error)
  : M World (list libdns.record * list error) :=
  match records with
  | [] => ret (updatedRecords, updateErrors)
  | rec :: rest =>
      match libdnsRecordToDnsRecord fqdn rec with
      | (_, Some err) =>
          appendOrSetLoop fqdn hostnameId ignoreRecordId rest
            updatedRecords (updateErrors ++ [err])
      | (dnsRecord, None) =>
          r <- Client.AddOrUpdateRecord T APIToken hostnameId dnsRecord ignoreRecordId ;;
          match r with
          | inl err =>
              appendOrSetLoop fqdn hostnameId ignoreRecordId rest
                updatedRecords (updateErrors ++ [RecordError rec err])
          | inr updateResponse =>
              appendOrSetLoop fqdn hostnameId ignoreRecordId rest
                (updatedRecords ++ [dnsRecordToLibdnsRecord updateResponse])
                updateErrors
          end
      end
  end.

Definition appendOrSetRecords (zone : string) (records : list libdns.record)
    (ignoreRecordId : bool) : M World Provider.result :=
  let fqdn := zoneToFqdn zone in
  r <- Client.GetRootDomain T APIToken fqdn ;;
  match r with
  | inl err => ret ([], Some err)
  | inr dnsHostName =>
      out <- appendOrSetLoop fqdn (DNSHostname.ID dnsHostName) ignoreRecordId records [] [] ;;
      ret (fst out, errors.Join (snd out))
  end.

Definition AppendRecords (zone : string) (records : list libdns.record)
  : M World Provider.result :=
  appendOrSetRecords zone records true.

Definition SetRecords (zone : string) (records : list libdns.record)
  : M World Provider.result :=
  appendOrSetRecords zone records false.

Fixpoint deleteLoop (hostnameId : Z) (records : list libdns.record)
    (deletedRecords : list libdns.record) (deleteErrors : list error)
  : M World (list libdns.record * list error) :=
  match records with
  | [] => ret (deletedRecords, deleteErrors)
  | rec :: rest =>
      e <- Client.DeleteRecord T APIToken hostnameId (libdns.ID rec) ;;
      match e with
      | Some err =>
          deleteLoop hostnameId rest deletedRecords
            (deleteErrors ++ [RecordIdError (libdns.ID rec) err])
      | None => deleteLoop hostnameId rest (deletedRecords ++ [rec]) deleteErrors
      end
  end.

Definition DeleteRecords (zone : string) (records : list libdns.record)
  : M World Provider.result :=
  let fqdn := zoneToFqdn zone in
  r <- Client.GetRootDomain T APIToken fqdn ;;
  match r with
  | inl err => ret ([], Some err)
  | inr dnsHostName =>
      out <- deleteLoop (DNSHostname.ID dnsHostName) records [] [] ;;
      ret (fst out, errors.Join (snd out))
  end.

End WithTransport.
End Previous.

(** * The vocabulary of the properties

    What the statements below are written with: predicates on strings and
    records, the rounds of the batch loops taken one at a time, a transport
    that keeps a log, a provider to run the facade against, and the
    constants of [provider_test.go]. *)

Section Vocabulary.
Import strings strconv.

(** *** Strings *)

(** The last byte of a string. *)
Fixpoint lastByte (s : string) : option ascii :=
  match s with
  | EmptyString => None
  | String a EmptyString => Some a
  | String _ r => lastByte r
  end.

(** [s] ends with a dot. *)
Definition endsWithDot (s : string) : bool := HasSuffix s ".".

(** A run of [n] dots. *)
Fixpoint dots (n : nat) : string :=
  match n with
  | O => ""
  | S n' => String dot (dots n')
  end.

(** The spec's words, "the facade strips a single trailing separator":
    [strings.TrimSuffix(zone, ".")]. *)
Definition stripOneDot (zone : string) : string := TrimSuffix zone ".".

(** [name] is the owning domain itself or a name below it. *)
Definition underDomain (name ownDomain : string) : Prop :=
  name = ownDomain \/ exists a, a <> "" /\ name = a ++ "." ++ ownDomain.

(** *** Record types and identifiers *)

(** The types the translator knows. *)
Definition knownTypes : list string :=
  ["A"; "AAAA"; "CNAME"; "MX"; "NS"; "PTR"; "SPF"; "TXT"].

Definition knownType (ty : string) : bool := existsb (String.eqb ty) knownTypes.

(** Every byte of [s] is a decimal digit. *)
Fixpoint allDecimal (s : string) : bool :=
  match s with
  | EmptyString => true
  | String c r => isDecimal c && allDecimal r
  end.


(** The number a string of decimal digits stands for, read in base ten
    after the digits that gave [acc]. *)
Fixpoint valueOf (s : string) (acc : Z) : Z :=
  match s with
  | EmptyString => acc
  | String c r => valueOf r (acc * 10 + (byteVal c - 48))
  end.

Definition digits_ : string := fmt.decimalDigits ++ "_".




(** *** The provider's answer and the round trip *)

(** What the provider sends back for a record: the same fields, with
    [hostname] put together from [nodeName] and the provider's domain. *)
Definition providerEcho (ownDomain : string) (d : DNSRecord.t) : DNSRecord.t :=
  DNSRecord.set_Hostname d
    (if (DNSRecord.NodeName d =? "")%string then ownDomain
     else DNSRecord.NodeName d ++ "." ++ ownDomain).

(** The record [libdnsRecordToDnsRecord] makes of [r], sent back by the
    provider and translated by [dnsRecordToLibdnsRecord]. *)
Definition roundTrip (r : libdns.record) (domain ownDomain : string) : libdns.record :=
  dnsRecordToLibdnsRecord
    (providerEcho ownDomain (fst (libdnsRecordToDnsRecord r domain ownDomain))) domain.


(** *** [float64] *)

(** The mantissa of 10^9 as a [float64]: 10^9 * 2^23. *)
Definition m9 : positive := 8388608000000000.

(** *** Batches *)

(** The entries of a list of outcomes that are failures, and those that are
    successes, each in the order of the list. *)
Fixpoint lefts {A B : Type} (l : list (A + B)) : list A :=
  match l with
  | [] => []
  | inl a :: r => a :: lefts r
  | inr _ :: r => lefts r
  end.

Fixpoint rights {A B : Type} (l : list (A + B)) : list B :=
  match l with
  | [] => []
  | inl _ :: r => rights r
  | inr b :: r => b :: rights r
  end.

(** Running [f] on every element in turn, whatever the earlier outcomes. *)
Fixpoint forEach {World A B : Type} (f : A -> M World B) (l : list A) : M World (list B) :=
  match l with
  | [] => ret []
  | a :: r => b <- f a ;; bs <- forEach f r ;; ret (b :: bs)
  end.

End Vocabulary.

(** Case analysis on the eight bits of a byte. *)
Ltac ascii_cases c := destruct c as [[|] [|] [|] [|] [|] [|] [|] [|]].

Section Rounds.

Context {World Raw : Type}.
Variable T : Transport World Raw.
Variable p : Provider.t.


(** The same for the loop of [DeleteRecords]. *)
Definition deleteOne (hostnameId : Z) (rec : libdns.record)
  : M World (error + libdns.record) :=
  e <- Client.DeleteRecord T (Provider.APIToken p) hostnameId (libdns.ID rec) ;;
  match e with
  | Some err => ret (inl (RecordIdError (libdns.ID rec) err))
  | None => ret (inr rec)
  end.

(** The transport [T] with a log of the requests handed to it, oldest
    first. *)
Definition logged : Transport (World * list Request) Raw :=
  mkTransport
    (fun req wl =>
       let (r, w') := send T req (fst wl) in (r, (w', (snd wl ++ [req])%list)))
    (decodeHostname T) (decodeRecords T) (decodeRecord T) (decodeDelete T)
    (decodeException T).

Definition logOf {A : Type} (x : A * (World * list Request)) : list Request := snd (snd x).

(** The request of root resolution. *)
Definition rootRequest (hostname : string) : Request :=
  mkRequest MethodGet ["dns"; "getroot"; hostname] None (Provider.APIToken p).

(** The request that carries a record of the batch to the provider. *)
Definition postRequest (domain : string) (hostnameId : Z) (ignoreRecordId : bool)
    (rec : libdns.record) : Request :=
  let dnsRecord := fst (libdnsRecordToDnsRecord rec domain (Provider.OwnDomain p)) in
  mkRequest MethodPost (Client.urlPaths hostnameId dnsRecord ignoreRecordId)
    (Some dnsRecord) (Provider.APIToken p).


End Rounds.

(** ** The vocabulary of the further properties *)

Section FurtherVocabulary.
Import pathpkg url.

(** *** Paths and URLs *)

(** Every byte of [s] satisfies [f]. *)
Fixpoint allBytes (f : ascii -> bool) (s : string) : bool :=
  match s with
  | EmptyString => true
  | String c t => f c && allBytes f t
  end.

(** A path element that [Clean] keeps as it is: not empty, not [.] or
    [..], and without a slash. *)
Definition segment (e : string) : bool :=
  negb (e =? "")%string && negb (e =? ".")%string && negb (e =? "..")%string
  && allBytes (fun c => negb (Ascii.eqb c slash)) e.

(** A segment that needs no escaping. *)
Definition plainSegment (e : string) : bool :=
  segment e && allBytes (fun c => negb (shouldEscape c encodePath)) e.

(** The elements, each after a slash. *)
Fixpoint slashed (elem : list string) : string :=
  match elem with
  | [] => ""
  | e :: rest => "/" ++ e ++ slashed rest
  end.

(** The loop of [Clean] on the rest of a rooted path, with the fuel
    [Clean] gives it. *)
Definition run (rest : string) (out : lazybuf) : lazybuf :=
  cleanLoop (String.length rest) true rest out 1.

(** The buffer of a rooted path: its first byte, the last of the list, is
    the slash. *)
Definition rootedBuf (out : lazybuf) : Prop := exists l, out = (l ++ [slash])%list.

(** The buffer with the separator an element is written after. *)
Definition withSlash (out : lazybuf) : lazybuf :=
  if negb (List.length out =? 1)%nat then slash :: out else out.

(** What is in the buffer before an element, the root apart. *)
Definition written (out : lazybuf) : string :=
  if (List.length out =? 1)%nat then "" else bufString out.

(** The path [JoinPath] hands to [setPath] for the elements [elem] after
    the base URL. *)
Definition joinedPath (elem : list string) : string :=
  let p := Clean ("/v2" ++ slashed elem) in
  if strings.HasSuffix (List.last elem "/v2") "/" && negb (strings.HasSuffix p "/")
  then p ++ "/" else p.

(** A [%] is followed by two hexadecimal digits. *)
Definition wellEscaped (s : string) : bool :=
  match countEscapes s with Some _ => true | None => false end.

(** The bytes after a [%] do not make an escape. *)
Definition badEscape (b : string) : bool :=
  match b with
  | String h1 (String h2 _) => negb (ishex h1 && ishex h2)
  | _ => true
  end.

(** *** Requests and records *)


(** The records of a batch whose type the translator knows. *)
Definition translatable (records : list libdns.record) : list libdns.record :=
  filter (fun rec => knownType (libdns.Type_ rec)) records.

(** The field of a provider record that holds what its type is about:
    the address, the target host or the text; for PTR the reverse name,
    which is in [Host]. *)
Definition typedField (d : DNSRecord.t) : string :=
  let ty := DNSRecord.Type_ d in
  if (ty =? "A")%string then DNSRecord.Ipv4Address d
  else if (ty =? "AAAA")%string then DNSRecord.Ipv6Address d
  else if (ty =? "CNAME")%string || (ty =? "MX")%string || (ty =? "NS")%string
          || (ty =? "PTR")%string then DNSRecord.Host d
  else if (ty =? "SPF")%string || (ty =? "TXT")%string then DNSRecord.TextData d
  else "".

(** A record whose name the two versions of [libdnsRecordToDnsRecord]
    treat alike: the name does not end with a dot and, for PTR, the value
    made relative is not ["@"]. *)
Definition sameInBoth (domain : string) (record : libdns.record) : bool :=
  negb (endsWithDot (libdns.Name record))
  && negb ((libdns.Type_ record =? "PTR")%string
           && (libdns.RelativeName (libdns.Value record) domain =? "@")%string).

End FurtherVocabulary.

Module Mock.

(** The state is the list of the requests received so far, and the raw body
    of a response is the request it answers. *)
Definition World := list Request.
Definition Raw := Request.

Definition lastElem (req : Request) : string := List.last (path req) "".

(** A provider for the domain [ownDomain], with identifier 100. It refuses
    a record whose value is ["bad"] and the deletion of record ["0"]; the
    host ["down"] cannot be reached. *)
Definition transport (ownDomain : string) : Transport World Raw :=
  mkTransport
    (fun req log =>
       (if (lastElem req =? "down")%string then inl (TransportError "no route to host")
        else inr req,
        (log ++ [req])%list))
    (fun raw => inr (DNSHostname.mk 200 100 ownDomain (lastElem raw) ""))
    (fun raw => inr (RecordsResponse.mk 200 []))
    (fun raw =>
       match body raw with
       | Some d =>
           inr (DNSRecord.set_StatusCode (providerEcho ownDomain d)
                  (if (DNSRecord.Ipv4Address d =? "bad")%string then 400 else 200))
       | None => inl (TransportError "unexpected end of JSON input")
       end)
    (fun raw => inr (DeleteResponse.mk (if (lastElem raw =? "0")%string then 404 else 200)))
    (fun raw => APIException.mk 400 "Validation Exception" "refused").

Definition provider : Provider.t := Provider.mk "token" "example.com".

Definition recA : libdns.record := libdns.mkRecord "" "A" "www" "192.0.2.1" (300 * time.Second) 0.
Definition recUnknown : libdns.record := libdns.mkRecord "" "UNKNOWN" "x" "x" (300 * time.Second) 0.
Definition recTxt : libdns.record := libdns.mkRecord "12" "TXT" "@" "hello" (300 * time.Second) 0.
Definition recZero : libdns.record := libdns.mkRecord "0" "TXT" "gone" "bye" (300 * time.Second) 0.

End Mock.

(** The constants of [provider_test.go]. *)
Module Tests.

Definition domain := "dynu.com".

Definition ownDomain := "my.dynu.com".

Definition getBasicDnsRecord : DNSRecord.t :=
  DNSRecord.mk 123 "A" 0 "my.dynu.com" "abc" "abc.my.dynu.com" false "" "" "" "" "" 120 0 0.

Definition getBasicLibDnsRecord : libdns.record :=
  libdns.mkRecord "123" "A" "abc.my" "" (120 * time.Second) 0.

End Tests.

(** * Properties *)

(** ** The model on the cases of the tests and on small inputs *)

Example Sscan_ex1 : fmt.Sscan "123" 0 = 123. Proof. reflexivity. Qed.
Example Sscan_ex2 : fmt.Sscan "" 0 = 0. Proof. reflexivity. Qed.
Example Sscan_ex3 : fmt.Sscan "abc" 0 = 0. Proof. reflexivity. Qed.
Example Sscan_ex4 : fmt.Sscan "010" 0 = 8. Proof. reflexivity. Qed.
Example Sscan_ex5 : fmt.Sscan "0x1F" 0 = 31. Proof. reflexivity. Qed.
Example Sscan_ex6 : fmt.Sscan " -12abc" 0 = -12. Proof. reflexivity. Qed.
Example Sscan_ex7 : fmt.Sscan "9223372036854775808" 0 = 0. Proof. reflexivity. Qed.
Example Sscan_ex8 : fmt.Sscan "9223372036854775807" 0 = 9223372036854775807. Proof. reflexivity. Qed.
Example Sscan_ex9 : fmt.Sscan "1_000" 0 = 1000. Proof. reflexivity. Qed.
Example Sscan_ex10 : fmt.Sscan "1__0" 0 = 0. Proof. reflexivity. Qed.
Example Sscan_ex11 : fmt.Sscan "-9223372036854775808" 0 = -9223372036854775808. Proof. reflexivity. Qed.
Example Sprint_ex1 : fmt.Sprint 123 = "123". Proof. reflexivity. Qed.
Example Sprint_ex2 : fmt.Sprint (-9223372036854775808) = "-9223372036854775808". Proof. reflexivity. Qed.
Example Sprint_ex3 : fmt.Sprint 0 = "0". Proof. reflexivity. Qed.
Example RelativeName_ex1 : libdns.RelativeName "abc.my.dynu.com" "dynu.com" = "abc.my".
Proof. reflexivity. Qed.
Example RelativeName_ex2 : libdns.RelativeName "dynu.com" "dynu.com" = "".
Proof. reflexivity. Qed.
Example RelativeName_ex3 : libdns.RelativeName "sub.example.com" "my.example.com" = "sub.example.com".
Proof. reflexivity. Qed.
Example AbsoluteName_ex1 : libdns.AbsoluteName "abc.my" "dynu.com" = "abc.my.dynu.com".
Proof. reflexivity. Qed.
Example AbsoluteName_ex2 : libdns.AbsoluteName "" "dynu.com" = "dynu.com".
Proof. reflexivity. Qed.
Example Seconds_ex1 : GoFloat.int_of_float64 (time.Seconds 120000000000) = 120.
Proof. reflexivity. Qed.
Example Seconds_ex2 : GoFloat.int_of_float64 (time.Seconds 1999999999) = 1.
Proof. reflexivity. Qed.
Example Seconds_ex3 : GoFloat.int_of_float64 (time.Seconds (-1999999999)) = -1.
Proof. reflexivity. Qed.
Example Seconds_ex4 : GoFloat.int_of_float64 (time.Seconds 16777216999999999) = 16777217.
Proof. reflexivity. Qed.
Example Seconds_ex5 : GoFloat.int_of_float64 (time.Seconds 8388608999999999) = 8388608.
Proof. reflexivity. Qed.
Example Seconds_ex6 : GoFloat.int_of_float64 (time.Seconds 16777215999999999) = 16777215.
Proof. reflexivity. Qed.

(** [path.Clean], [path.Join] and [URL.JoinPath] on cases of the tests of
    the Go library. *)
Example Clean_cases :
  map pathpkg.Clean
    [""; "abc"; "abc/def"; "a/b/c"; "."; ".."; "../.."; "../../abc"; "/abc"; "/";
     "abc/"; "abc/def/"; "a/b/c/"; "./"; "../"; "../../"; "/abc/";
     "abc//def//ghi"; "//abc"; "///abc"; "//abc//"; "abc//";
     "abc/./def"; "/./abc/def"; "abc/.";
     "abc/def/ghi/../jkl"; "abc/def/../ghi/../jkl"; "abc/def/.."; "abc/def/../..";
     "/abc/def/../.."; "abc/def/../../.."; "/abc/def/../../..";
     "abc/def/../../../ghi/jkl/../../../mno";
     "abc/./../def"; "abc//./../def"; "abc/../../././../def"]
  = ["."; "abc"; "abc/def"; "a/b/c"; "."; ".."; "../.."; "../../abc"; "/abc"; "/";
     "abc"; "abc/def"; "a/b/c"; "."; ".."; "../.."; "/abc";
     "abc/def/ghi"; "/abc"; "/abc"; "/abc"; "abc";
     "abc/def"; "/abc/def"; "abc";
     "abc/def/jkl"; "abc/jkl"; "abc"; ".";
     "/"; ".."; "/";
     "../../mno";
     "def"; "def"; "../../def"].
Proof. reflexivity. Qed.

Example Join_cases :
  map pathpkg.Join
    [[]; [""]; ["a"]; ["a"; "b"]; ["a"; ""]; [""; "b"]; ["/"; "a"]; ["/"; ""];
     ["a/"; "b"]; ["a/"; ""]; [""; ""]]
  = [""; ""; "a"; "a/b"; "a"; "b"; "/a"; "/"; "a/b"; "a"; ""].
Proof. reflexivity. Qed.

Example JoinPath_cases :
  map (fun be => url.String_
                   (url.JoinPath (url.mkURL "https" "go.googlesource.com" (fst be) "")
                      (snd be)))
    [("", ["go"]); ("/a/b/c", ["../../../go"]); ("/", ["../go"]); ("", ["../go"]);
     ("", ["../go"; "../../go"; "../../../go"]); ("/", ["./go"]); ("//", ["/go"]);
     ("//", ["/go"; "a"; "b"; "c"]); ("", ["go/"]); ("", ["go//"]); ("", []); ("/", []);
     ("/a/b", ["/go"])]
  = ["https://go.googlesource.com/go"; "https://go.googlesource.com/go";
     "https://go.googlesource.com/go"; "https://go.googlesource.com/go";
     "https://go.googlesource.com/go"; "https://go.googlesource.com/go";
     "https://go.googlesource.com/go"; "https://go.googlesource.com/go/a/b/c";
     "https://go.googlesource.com/go/"; "https://go.googlesource.com/go/";
     "https://go.googlesource.com/"; "https://go.googlesource.com/";
     "https://go.googlesource.com/a/b/go"].
Proof. reflexivity. Qed.

Example JoinPath_escaped :
  url.String_ (url.JoinPath (url.mkURL "https" "go.googlesource.com" "/a/b" "/a%2fb")
                 ["c%2fd"])
  = "https://go.googlesource.com/a%2fb/c%2fd".
Proof. reflexivity. Qed.

Example baseURL_String : url.String_ Client.baseURL = Client.defaultBaseURL.
Proof. reflexivity. Qed.

Example endpoint_cases :
  map Client.endpoint
    [["dns"; "getroot"; "example.com"]; ["dns"; "getroot"; ""];
     ["dns"; "100"; "record"; "12"]; ["dns"; "100"; "record"; ".."];
     ["dns"; "100"; "record"; "a b"]; ["dns"; "100"; "record"; "a/b"];
     ["dns"; "100"; "record"; "50%"]]
  = ["https://api.dynu.com/v2/dns/getroot/example.com";
     "https://api.dynu.com/v2/dns/getroot";
     "https://api.dynu.com/v2/dns/100/record/12";
     "https://api.dynu.com/v2/dns/100";
     "https://api.dynu.com/v2/dns/100/record/a%20b";
     "https://api.dynu.com/v2/dns/100/record/a/b";
     "https://api.dynu.com/v2"].
Proof. reflexivity. Qed.

(** The cases of [provider_test.go] that need no network. *)
Module TestCases.
Import Tests.

Example Test_dnsRecordToLibdnsRecord_Basic :
  dnsRecordToLibdnsRecord getBasicDnsRecord domain
  = libdns.mkRecord "123" "A" "abc.my" "" (120 * time.Second) 0.
Proof. reflexivity. Qed.

Example Test_dnsRecordToLibdnsRecord_EmptyNodeNameDomain :
  libdns.Name
    (dnsRecordToLibdnsRecord
       (DNSRecord.set_Hostname (DNSRecord.set_NodeName getBasicDnsRecord "") "dynu.com") domain)
  = "@".
Proof. reflexivity. Qed.

Example Test_dnsRecordToLibdnsRecord_EmptyNodeNameSubdomain :
  libdns.Name
    (dnsRecordToLibdnsRecord
       (DNSRecord.set_Hostname (DNSRecord.set_NodeName getBasicDnsRecord "") "my.dynu.com") domain)
  = "my".
Proof. reflexivity. Qed.

Example Test_dnsRecordToLibdnsRecord_PTR :
  let r := dnsRecordToLibdnsRecord
             (DNSRecord.mk 123 "PTR" 0 "my.dynu.com" "abc" "abc.my.dynu.com" false "" "" ""
                "10.207.160.216.in-addr.arpa" "" 120 0 0) domain in
  libdns.Name r = "10.207.160.216.in-addr.arpa" /\ libdns.Value r = "abc.my.dynu.com".
Proof. split; reflexivity. Qed.

Example Test_dnsRecordToLibdnsRecord_UNKNOWN :
  let r := dnsRecordToLibdnsRecord
             (DNSRecord.mk 123 "UNKNOWN" 0 "my.dynu.com" "abc" "abc.my.dynu.com" false "CONTENT"
                "" "" "" "" 120 0 0) domain in
  libdns.Type_ r = "UNKNOWN" /\ libdns.Name r = "abc.my" /\ libdns.Value r = "CONTENT".
Proof. repeat split; reflexivity. Qed.

Example Test_libdnsRecordToDnsRecord_Basic :
  libdnsRecordToDnsRecord getBasicLibDnsRecord domain ownDomain
  = (DNSRecord.mk 123 "A" 0 "" "abc" "" true "" "" "" "" "" 120 0 0, None).
Proof. reflexivity. Qed.

Example Test_libdnsRecordToDnsRecord_EmptyNodeNameDomain :
  DNSRecord.NodeName
    (fst (libdnsRecordToDnsRecord
            (libdns.mkRecord "123" "A" "@" "" (120 * time.Second) 0) domain domain))
  = "".
Proof. reflexivity. Qed.

Example Test_libdnsRecordToDnsRecord_EmptyNodeNameSubdomain :
  DNSRecord.NodeName
    (fst (libdnsRecordToDnsRecord
            (libdns.mkRecord "123" "A" "my" "" (120 * time.Second) 0) domain ownDomain))
  = "".
Proof. reflexivity. Qed.

Example Test_libdnsRecordToDnsRecord_MX :
  libdnsRecordToDnsRecord
    (libdns.mkRecord "123" "MX" "abc.my" "www.example.com" (120 * time.Second) 1)
    domain ownDomain
  = (DNSRecord.mk 123 "MX" 0 "" "abc" "" true "" "" "" "www.example.com" "" 120 1 0, None).
Proof. reflexivity. Qed.

Example Test_libdnsRecordToDnsRecord_PTR :
  libdnsRecordToDnsRecord
    (libdns.mkRecord "123" "PTR" "10.207.160.216.in-addr.arpa" "abc.my.dynu.com"
       (120 * time.Second) 0)
    domain ownDomain
  = (DNSRecord.mk 123 "PTR" 0 "" "abc" "" true "" "" "" "10.207.160.216.in-addr.arpa" ""
       120 0 0, None).
Proof. reflexivity. Qed.

Example Test_libdnsRecordToDnsRecord_UNKNOWN :
  snd (libdnsRecordToDnsRecord
         (libdns.mkRecord "123" "UNKNOWN" "abc.my" "CONTENT" (120 * time.Second) 0)
         domain ownDomain)
  <> None.
Proof. discriminate. Qed.

End TestCases.

(** ** Strings *)

Module StringFacts.
Import strings.

Lemma append_nil_r (s : string) : s ++ "" = s.
Proof. induction s as [|a s IH]; simpl; [reflexivity | now rewrite IH]. Qed.

Lemma append_assoc (a b c : string) : (a ++ b) ++ c = a ++ (b ++ c).
Proof. induction a as [|x a IH]; simpl; [reflexivity | now rewrite IH]. Qed.

Lemma length_append (a b : string) : length (a ++ b) = (length a + length b)%nat.
Proof. induction a as [|x a IH]; simpl; [reflexivity | now rewrite IH]. Qed.

Lemma length_zero (s : string) : length s = 0%nat -> s = "".
Proof. destruct s; simpl; [reflexivity | discriminate]. Qed.

Lemma substring_all (s : string) : substring 0 (length s) s = s.
Proof. induction s as [|a s IH]; simpl; [reflexivity | now rewrite IH]. Qed.

Lemma substring_zero (n : nat) (s : string) : substring n 0 s = "".
Proof.
  revert s; induction n as [|n IH]; intros [|a s]; simpl; auto.
Qed.

Lemma substring_prefix (a b : string) : substring 0 (length a) (a ++ b) = a.
Proof.
  induction a as [|x a IH]; simpl.
  - apply (substring_zero 0).
  - now rewrite IH.
Qed.

Lemma substring_suffix (a b : string) : substring (length a) (length b) (a ++ b) = b.
Proof.
  induction a as [|x a IH]; simpl; [apply substring_all | exact IH].
Qed.

(** Cutting a string in two and gluing the parts gives it back. *)
Lemma substring_split (n : nat) (s : string) :
  (n <= length s)%nat ->
  substring 0 n s ++ substring n (length s - n) s = s.
Proof.
  revert s; induction n as [|n IH]; intros s Hn.
  - rewrite (substring_zero 0), Nat.sub_0_r. simpl. apply substring_all.
  - destruct s as [|a s]; simpl in *; [lia|].
    rewrite IH by lia. reflexivity.
Qed.

Lemma HasSuffix_append (a b : string) : HasSuffix (a ++ b) b = true.
Proof.
  unfold HasSuffix. rewrite length_append.
  replace (length a + length b - length b)%nat with (length a) by lia.
  rewrite substring_suffix, String.eqb_refl, andb_true_r.
  apply Nat.leb_le; lia.
Qed.

Lemma HasSuffix_inv (s suf : string) :
  HasSuffix s suf = true -> s = substring 0 (length s - length suf) s ++ suf.
Proof.
  unfold HasSuffix. intros H. apply andb_prop in H as [Hlen Heq].
  apply Nat.leb_le in Hlen. apply String.eqb_eq in Heq.
  pose proof (substring_split (length s - length suf) s) as Hs.
  replace (length s - (length s - length suf))%nat with (length suf) in Hs by lia.
  rewrite Heq in Hs. symmetry. apply Hs. lia.
Qed.

Lemma HasSuffix_iff (s suf : string) :
  HasSuffix s suf = true <-> exists a, s = a ++ suf.
Proof.
  split.
  - intros H. eexists. apply HasSuffix_inv, H.
  - intros [a ->]. apply HasSuffix_append.
Qed.

Lemma TrimSuffix_append (a b : string) : TrimSuffix (a ++ b) b = a.
Proof.
  unfold TrimSuffix. rewrite HasSuffix_append, length_append.
  replace (length a + length b - length b)%nat with (length a) by lia.
  apply substring_prefix.
Qed.

Lemma TrimSuffix_self (s : string) : TrimSuffix s s = "".
Proof. exact (TrimSuffix_append "" s). Qed.

Lemma TrimSuffix_none (s suf : string) : HasSuffix s suf = false -> TrimSuffix s suf = s.
Proof. unfold TrimSuffix. now intros ->. Qed.

Lemma TrimSuffix_nil (suf : string) : TrimSuffix "" suf = "".
Proof. unfold TrimSuffix. destruct (HasSuffix "" suf); [apply (substring_zero 0) | reflexivity]. Qed.

Lemma last_append (a b : string) : b <> "" -> lastByte (a ++ b) = lastByte b.
Proof.
  intros Hb. induction a as [|x a IH]; simpl; [reflexivity|].
  rewrite IH. destruct (a ++ b) eqn:E; [|reflexivity].
  destruct a; simpl in E; [contradiction | discriminate].
Qed.

Lemma last_snoc (a : string) (c : ascii) : lastByte (a ++ String c "") = Some c.
Proof. rewrite last_append by discriminate. reflexivity. Qed.

Lemma last_inv (s : string) (c : ascii) :
  lastByte s = Some c -> exists a, s = a ++ String c "".
Proof.
  induction s as [|x s IH]; simpl; [discriminate|].
  destruct s as [|y s].
  - intros [= ->]. now exists "".
  - intros H. destruct (IH H) as [a Ha]. exists (String x a). simpl. now rewrite <- Ha.
Qed.

Lemma endsWithDot_last (s : string) : endsWithDot s = true <-> lastByte s = Some dot.
Proof.
  unfold endsWithDot. rewrite HasSuffix_iff. split.
  - intros [a ->]. apply last_snoc.
  - apply last_inv.
Qed.

Lemma endsWithDot_false_last (s : string) : endsWithDot s = false <-> lastByte s <> Some dot.
Proof.
  rewrite <- endsWithDot_last. destruct (endsWithDot s); split; congruence.
Qed.

Lemma endsWithDot_append (a b : string) :
  b <> "" -> endsWithDot (a ++ b) = endsWithDot b.
Proof.
  intros Hb. destruct (endsWithDot b) eqn:E.
  - apply endsWithDot_last. rewrite last_append by assumption. now apply endsWithDot_last.
  - apply endsWithDot_false_last. rewrite last_append by assumption.
    now apply endsWithDot_false_last.
Qed.

Lemma TrimRight_nil_inv (s : string) :
  TrimRight s dot = "" -> s = dots (length s).
Proof.
  induction s as [|a s IH]; simpl; [reflexivity|].
  destruct (TrimRight s dot) eqn:E.
  - destruct (Ascii.eqb_spec a dot) as [->|]; [|discriminate].
    intros _. now rewrite <- IH.
  - discriminate.
Qed.

(** [TrimRight] cuts a run of dots off the end... *)
Lemma TrimRight_dots (s : string) : exists n, s = TrimRight s dot ++ dots n.
Proof.
  induction s as [|a s [n IH]]; simpl.
  - now exists 0%nat.
  - destruct (TrimRight s dot) eqn:E.
    + destruct (Ascii.eqb_spec a dot) as [->|].
      * exists (S (length s)). simpl. f_equal. now apply TrimRight_nil_inv.
      * exists n. simpl in *. now rewrite <- IH.
    + exists n. simpl in *. now rewrite <- IH.
Qed.

(** ...and what is left does not end with a dot. *)
Lemma TrimRight_last (s : string) : lastByte (TrimRight s dot) <> Some dot.
Proof.
  induction s as [|a s IH]; simpl; [discriminate|].
  destruct (TrimRight s dot) eqn:E.
  - destruct (Ascii.eqb_spec a dot); simpl; congruence.
  - exact IH.
Qed.

Lemma TrimRight_fixed (s : string) : lastByte s <> Some dot -> TrimRight s dot = s.
Proof.
  induction s as [|a s IH]; simpl; [reflexivity|].
  destruct s as [|b s].
  - simpl. destruct (Ascii.eqb_spec a dot); congruence.
  - intros H. rewrite (IH H). reflexivity.
Qed.

Lemma TrimRight_only_dots (n : nat) : TrimRight (dots n) dot = "".
Proof.
  induction n as [|n IH]; [reflexivity|].
  change (dots (S n)) with (String dot (dots n)).
  cbn [TrimRight]. rewrite IH. reflexivity.
Qed.

Lemma TrimRight_append_dots (s : string) (n : nat) :
  lastByte s <> Some dot -> TrimRight (s ++ dots n) dot = s.
Proof.
  induction s as [|a s IH]; intros Hs.
  - apply TrimRight_only_dots.
  - destruct s as [|b s].
    + cbn [append TrimRight]. rewrite TrimRight_only_dots.
      destruct (Ascii.eqb_spec a dot) as [->|]; [|reflexivity].
      now elim Hs.
    + change ((String a (String b s)) ++ dots n) with (String a (String b s ++ dots n)).
      cbn [TrimRight]. rewrite IH by exact Hs. reflexivity.
Qed.

End StringFacts.

(** ** The zone handed to the translator *)

Section ZoneToFqdn.
Import strings StringFacts.

Example zoneToFqdn_one_dot : zoneToFqdn "example.com." = "example.com".
Proof. reflexivity. Qed.

(** C7, as stated, fails: of two trailing dots none is kept. *)
Lemma zoneToFqdn_two_dots :
  zoneToFqdn "example.com.." = "example.com"
  /\ stripOneDot "example.com.." = "example.com."
  /\ zoneToFqdn "example.com.." <> stripOneDot "example.com..".
Proof. repeat split. discriminate. Qed.

(** C7 (amended): [zoneToFqdn] removes every trailing dot of the zone: the
    zone is the result followed by dots only, the result does not end with
    a dot, and any number of dots put behind a result is removed again. *)
Theorem zoneToFqdn_trims_every_dot (zone : string) :
  (exists n, zone = zoneToFqdn zone ++ dots n)
  /\ endsWithDot (zoneToFqdn zone) = false
  /\ (forall n, zoneToFqdn (zoneToFqdn zone ++ dots n) = zoneToFqdn zone).
Proof.
  unfold zoneToFqdn. repeat split.
  - apply TrimRight_dots.
  - apply endsWithDot_false_last, TrimRight_last.
  - intros n. apply TrimRight_append_dots, TrimRight_last.
Qed.

End ZoneToFqdn.

(** ** The dispatch on the record type *)

Section TypeDispatch.

Lemma knownType_false (ty : string) :
  knownType ty = false ->
  (ty =? "A")%string = false /\ (ty =? "AAAA")%string = false
  /\ (ty =? "CNAME")%string = false /\ (ty =? "MX")%string = false
  /\ (ty =? "NS")%string = false /\ (ty =? "PTR")%string = false
  /\ (ty =? "SPF")%string = false /\ (ty =? "TXT")%string = false.
Proof.
  unfold knownType, knownTypes. cbn [existsb]. intros H.
  repeat (apply orb_false_elim in H as [? H]). tauto.
Qed.

(** C3: for a PTR record [libdnsRecordToDnsRecord] puts the caller's name,
    as it is, in [Host] and the caller's value, made relative to the owning
    domain, in [NodeName]; for a PTR record of the provider
    [dnsRecordToLibdnsRecord] takes the name from [Host] and the value from
    [Hostname]. *)
Theorem ptr_fields_swapped (record : libdns.record) (dnsRecord : DNSRecord.t)
    (domain ownDomain : string) :
  libdns.Type_ record = "PTR" ->
  DNSRecord.Type_ dnsRecord = "PTR" ->
  let out := libdnsRecordToDnsRecord record domain ownDomain in
  let back := dnsRecordToLibdnsRecord dnsRecord domain in
  DNSRecord.Host (fst out) = libdns.Name record
  /\ DNSRecord.NodeName (fst out) = libdns.RelativeName (libdns.Value record) ownDomain
  /\ snd out = None
  /\ libdns.Name back = DNSRecord.Host dnsRecord
  /\ libdns.Value back = DNSRecord.Hostname dnsRecord.
Proof.
  intros Hr Hd.
  unfold libdnsRecordToDnsRecord, dnsRecordToLibdnsRecord.
  rewrite Hr, Hd. cbn. repeat split.
Qed.

Lemma ptr_fields_swapped_witness :
  let record := libdns.mkRecord "" "PTR" "10.0.0.1.in-addr.arpa" "host.example.com" 0 0 in
  let dnsRecord :=
    DNSRecord.mk 7 "PTR" 0 "" "host" "host.example.com" true "" "" ""
      "10.0.0.1.in-addr.arpa" "" 0 0 200 in
  DNSRecord.Host (fst (libdnsRecordToDnsRecord record "example.com" "example.com"))
    = "10.0.0.1.in-addr.arpa"
  /\ DNSRecord.NodeName (fst (libdnsRecordToDnsRecord record "example.com" "example.com"))
    = "host"
  /\ libdns.Name (dnsRecordToLibdnsRecord dnsRecord "example.com") = "10.0.0.1.in-addr.arpa"
  /\ libdns.Value (dnsRecordToLibdnsRecord dnsRecord "example.com") = "host.example.com".
Proof.
  intros record dnsRecord.
  destruct (ptr_fields_swapped record dnsRecord "example.com" "example.com"
              eq_refl eq_refl) as (H1 & H2 & _ & H4 & H5).
  split; [exact H1 | split; [exact H2 | split; [exact H4 | exact H5]]].
Defined.

(** No known type is refused, every other type is. *)
Lemma libdnsRecordToDnsRecord_error (record : libdns.record) (domain ownDomain : string) :
  snd (libdnsRecordToDnsRecord record domain ownDomain)
  = (if knownType (libdns.Type_ record) then None else Some (NotImplemented record)).
Proof.
  unfold libdnsRecordToDnsRecord, knownType, knownTypes. cbn [existsb].
  repeat (destruct (String.eqb (libdns.Type_ record) _); [reflexivity|]).
  reflexivity.
Qed.

(** C5: a record whose type is not one of the eight known ones is refused
    by [libdnsRecordToDnsRecord] with the "record type not implemented"
    error carrying the record; [dnsRecordToLibdnsRecord] is a total
    function with no error result, and for a provider record whose type is
    not known it returns that type and, as value, the field [Content]. *)
Theorem type_handling_asymmetric (record : libdns.record) (dnsRecord : DNSRecord.t)
    (domain ownDomain : string) :
  knownType (libdns.Type_ record) = false ->
  knownType (DNSRecord.Type_ dnsRecord) = false ->
  snd (libdnsRecordToDnsRecord record domain ownDomain) = Some (NotImplemented record)
  /\ libdns.Type_ (dnsRecordToLibdnsRecord dnsRecord domain) = DNSRecord.Type_ dnsRecord
  /\ libdns.Value (dnsRecordToLibdnsRecord dnsRecord domain) = DNSRecord.Content dnsRecord.
Proof.
  intros Hr Hd. split.
  - rewrite libdnsRecordToDnsRecord_error, Hr. reflexivity.
  - apply knownType_false in Hd. destruct Hd as (E1 & E2 & E3 & E4 & E5 & E6 & E7 & E8).
    unfold dnsRecordToLibdnsRecord. rewrite E1, E2, E3, E4, E5, E6, E7, E8.
    split; reflexivity.
Qed.

Lemma type_handling_asymmetric_witness :
  let record := libdns.mkRecord "" "UNKNOWN" "abc" "x" 0 0 in
  let dnsRecord :=
    DNSRecord.mk 9 "UNKNOWN" 0 "" "abc" "abc.example.com" true "x" "" "" "" "" 0 0 200 in
  snd (libdnsRecordToDnsRecord record "example.com" "example.com")
  = Some (NotImplemented record)
  /\ libdns.Type_ (dnsRecordToLibdnsRecord dnsRecord "example.com") = "UNKNOWN"
  /\ libdns.Value (dnsRecordToLibdnsRecord dnsRecord "example.com") = "x".
Proof.
  intros record dnsRecord.
  exact (type_handling_asymmetric record dnsRecord "example.com" "example.com"
           eq_refl eq_refl).
Defined.

End TypeDispatch.

(** ** Batches *)

Lemma lefts_rights_length {A B : Type} (l : list (A + B)) :
  (List.length (lefts l) + List.length (rights l) = List.length l)%nat.
Proof. induction l as [|[a|b] l IH]; simpl; lia. Qed.


Section Batch.

Context {World Raw : Type}.
Variable T : Transport World Raw.
Variable p : Provider.t.


Lemma deleteLoop_forEach (hostnameId : Z)
    (records deleted : list libdns.record) (errs : list error) (w : World) :
  Provider.deleteLoop T p hostnameId records deleted errs w
  = let (outs, w') := forEach (deleteOne T p hostnameId) records w in
    (((deleted ++ rights outs)%list, (errs ++ lefts outs)%list), w').
Proof.
  revert deleted errs w.
  induction records as [|rec rest IH]; intros deleted errs w.
  - simpl. unfold ret. now rewrite !app_nil_r.
  - cbn [Provider.deleteLoop forEach]. unfold deleteOne at 1. unfold bind at 1 2 3.
    destruct (Client.DeleteRecord T _ hostnameId (libdns.ID rec) w) as [[err|] w1];
      unfold ret at 1; rewrite IH; unfold bind, ret;
      destruct (forEach _ rest w1) as [outs w']; simpl; now rewrite <- app_assoc.
Qed.

End Batch.

(** The spec's example of a batch: of three records the second has a type
    that is not known. *)
Example appendRecords_three :
  fst (Provider.AppendRecords (Mock.transport "example.com") Mock.provider "example.com."
         [Mock.recA; Mock.recUnknown; Mock.recTxt] [])
  = ([libdns.mkRecord "0" "A" "www" "192.0.2.1" (300 * time.Second) 0;
      libdns.mkRecord "12" "TXT" "@" "hello" (300 * time.Second) 0],
     Some (JoinError [NotImplemented Mock.recUnknown])).
Proof. reflexivity. Qed.

Section BatchTheorems.

Context {World Raw : Type}.
Variable T : Transport World Raw.
Variable p : Provider.t.


Lemma DeleteRecords_forEach (zone : string) (records : list libdns.record)
    (w w1 : World) (dnsHostName : DNSHostname.t) :
  Client.GetRootDomain T (Provider.APIToken p) (Provider.OwnDomain p) w
    = (inr dnsHostName, w1) ->
  let dels := forEach (deleteOne T p (DNSHostname.ID dnsHostName)) records w1 in
  Provider.DeleteRecords T p zone records w
  = ((rights (fst dels), errors.Join (lefts (fst dels))), snd dels).
Proof.
  intros Hroot dels.
  unfold Provider.DeleteRecords, bind. rewrite Hroot.
  rewrite deleteLoop_forEach. fold dels.
  destruct dels as [outs w2]. reflexivity.
Qed.



(** C9: once the root is resolved, the records [DeleteRecords] returns are
    the records of the input themselves, every field as the caller gave
    it: those, in order, whose [DeleteRecord] call returned nil. *)
Theorem deleted_records_verbatim (zone : string) (records : list libdns.record)
    (w w1 : World) (dnsHostName : DNSHostname.t) :
  Client.GetRootDomain T (Provider.APIToken p) (Provider.OwnDomain p) w
    = (inr dnsHostName, w1) ->
  let calls :=
    forEach (fun rec => Client.DeleteRecord T (Provider.APIToken p)
                          (DNSHostname.ID dnsHostName) (libdns.ID rec)) records w1 in
  fst (fst (Provider.DeleteRecords T p zone records w))
  = map fst (filter (fun re => match snd re with None => true | Some _ => false end)
               (combine records (fst calls)))
  /\ incl (fst (fst (Provider.DeleteRecords T p zone records w))) records.
Proof.
  intros Hroot calls.
  assert (Hdel : fst (fst (Provider.DeleteRecords T p zone records w))
                 = rights (fst (forEach (deleteOne T p (DNSHostname.ID dnsHostName)) records w1))).
  { now rewrite (DeleteRecords_forEach zone records w w1 dnsHostName Hroot). }
  assert (Hsel : rights (fst (forEach (deleteOne T p (DNSHostname.ID dnsHostName)) records w1))
                 = map fst (filter (fun re => match snd re with None => true | Some _ => false end)
                              (combine records (fst calls)))).
  { subst calls. generalize w1. clear.
    induction records as [|rec rest IH]; intros w1; [reflexivity|].
    cbn [forEach]. unfold deleteOne at 1. unfold bind.
    destruct (Client.DeleteRecord T _ _ (libdns.ID rec) w1) as [[err|] w2]; unfold ret at 1;
      specialize (IH w2);
      destruct (forEach (deleteOne T p _) rest w2) as [outs w3];
      destruct (forEach _ rest w2) as [es w4]; simpl in *; now rewrite IH. }
  split.
  - now rewrite Hdel, Hsel.
  - rewrite Hdel, Hsel. intros r Hr. apply in_map_iff in Hr as [[r' e] [<- Hr]].
    apply filter_In in Hr as [Hr _]. now apply in_combine_l in Hr.
Qed.

End BatchTheorems.


Lemma deleted_records_verbatim_witness :
  fst (fst (Provider.DeleteRecords (Mock.transport "example.com") Mock.provider "example.com."
              [Mock.recTxt; Mock.recZero; Mock.recA] []))
  = [Mock.recTxt; Mock.recA].
Proof.
  destruct (deleted_records_verbatim (Mock.transport "example.com") Mock.provider
              "example.com." [Mock.recTxt; Mock.recZero; Mock.recA] [] _ _ eq_refl) as (H & _).
  rewrite H. reflexivity.
Defined.

(** ** Names *)

Module NameFacts.
Import strings StringFacts.

Lemma RelativeName_self (s : string) : libdns.RelativeName s s = "".
Proof.
  unfold libdns.RelativeName. rewrite TrimSuffix_self. apply TrimSuffix_nil.
Qed.

Lemma AbsoluteName_nil (zone : string) : libdns.AbsoluteName "" zone = zone.
Proof.
  unfold libdns.AbsoluteName. destruct (String.eqb_spec zone "") as [->|]; reflexivity.
Qed.

(** A name that ends with the domain after a dot, made relative to it. *)
Lemma RelativeName_under (a ownDomain : string) :
  ownDomain <> "" -> endsWithDot ownDomain = false ->
  libdns.RelativeName (a ++ "." ++ ownDomain) ownDomain = a.
Proof.
  intros Hne Hdot. unfold libdns.RelativeName.
  assert (H1 : TrimSuffix ownDomain "." = ownDomain) by now apply TrimSuffix_none.
  assert (H2 : TrimSuffix (a ++ "." ++ ownDomain) "." = a ++ "." ++ ownDomain).
  { apply TrimSuffix_none. rewrite <- append_assoc.
    fold (endsWithDot ((a ++ ".") ++ ownDomain)).
    now rewrite endsWithDot_append. }
  rewrite H1, H2, <- append_assoc, TrimSuffix_append. apply TrimSuffix_append.
Qed.

(** A name that neither is empty nor ["@"] nor ends with a dot, made
    absolute in a zone that is not empty. *)
Lemma AbsoluteName_plain (name zone : string) :
  zone <> "" -> name <> "" -> name <> "@" -> endsWithDot name = false ->
  libdns.AbsoluteName name zone = name ++ "." ++ zone.
Proof.
  intros Hz Hn Hat Hdot. unfold libdns.AbsoluteName.
  apply String.eqb_neq in Hz, Hn, Hat. rewrite Hz, Hn, Hat. cbn [orb].
  fold (endsWithDot name). rewrite Hdot. now rewrite append_assoc.
Qed.

End NameFacts.

Section Apex.
Import NameFacts.

(** C4, as stated, fails. Under an owning domain that is not the zone the
    apex of the zone gets the zone's name as [nodeName]; and for a PTR
    record neither direction looks at the apex. *)
Lemma apex_lost :
  DNSRecord.NodeName
    (fst (libdnsRecordToDnsRecord (libdns.mkRecord "" "A" "@" "192.0.2.1" 0 0)
            "dynu.com" "my.dynu.com")) = "dynu.com"
  /\ DNSRecord.NodeName
       (fst (libdnsRecordToDnsRecord (libdns.mkRecord "" "PTR" "@" "host.dynu.com" 0 0)
               "dynu.com" "dynu.com")) = "host"
  /\ libdns.Name
       (dnsRecordToLibdnsRecord
          (DNSRecord.mk 5 "PTR" 0 "" "" "dynu.com" true "" "" "" "1.2.0.192.in-addr.arpa" ""
             0 0 200) "dynu.com") = "1.2.0.192.in-addr.arpa".
Proof. repeat split. Qed.

(** C4 (amended): when the owning domain is the zone domain, a record of
    any type but PTR whose name is ["@"] gets an empty [NodeName]; and a
    provider record of any type but PTR whose [Hostname] is the zone domain
    gets the name ["@"]. *)
Theorem apex_mapping (record : libdns.record) (dnsRecord : DNSRecord.t) (domain : string) :
  libdns.Type_ record <> "PTR" ->
  libdns.Name record = "@" ->
  DNSRecord.Type_ dnsRecord <> "PTR" ->
  DNSRecord.Hostname dnsRecord = domain ->
  DNSRecord.NodeName (fst (libdnsRecordToDnsRecord record domain domain)) = ""
  /\ libdns.Name (dnsRecordToLibdnsRecord dnsRecord domain) = "@".
Proof.
  intros Hty Hname Hty' Hhost. split.
  - unfold libdnsRecordToDnsRecord. rewrite Hname. cbn [String.eqb Ascii.eqb Bool.eqb].
    rewrite AbsoluteName_nil, RelativeName_self.
    apply String.eqb_neq in Hty. rewrite Hty. clear Hty.
    repeat (destruct (String.eqb (libdns.Type_ record) _); [reflexivity|]).
    reflexivity.
  - unfold dnsRecordToLibdnsRecord. rewrite Hhost, RelativeName_self.
    apply String.eqb_neq in Hty'. rewrite Hty'. clear Hty'.
    repeat (destruct (String.eqb (DNSRecord.Type_ dnsRecord) _); [reflexivity|]).
    reflexivity.
Qed.

Lemma apex_mapping_witness :
  DNSRecord.NodeName
    (fst (libdnsRecordToDnsRecord (libdns.mkRecord "" "TXT" "@" "hello" 0 0)
            "dynu.com" "dynu.com")) = ""
  /\ libdns.Name
       (dnsRecordToLibdnsRecord
          (DNSRecord.mk 5 "TXT" 0 "" "" "dynu.com" true "" "" "" "" "hello" 0 0 200)
          "dynu.com") = "@".
Proof.
  apply (apex_mapping (libdns.mkRecord "" "TXT" "@" "hello" 0 0)
           (DNSRecord.mk 5 "TXT" 0 "" "" "dynu.com" true "" "" "" "" "hello" 0 0 200)
           "dynu.com").
  - discriminate.
  - reflexivity.
  - discriminate.
  - reflexivity.
Defined.

End Apex.

(** ** The requests an operation sends *)

Section Logging.

Context {World Raw : Type}.
Variable T : Transport World Raw.

Variable tok : string.

Lemma doWithCustomError_log {R : Type} (decode : Raw -> error + R) (m : Method)
    (elems : list string) (reqBody : option DNSRecord.t) (w : World) (log : list Request) :
  exists r w',
    Client.doWithCustomError (logged T) tok decode m elems reqBody (w, log)
    = (r, (w', (log ++ [mkRequest m elems reqBody tok])%list)).
Proof.
  unfold Client.doWithCustomError, bind, ret. cbn [send logged fst snd].
  destruct (send T _ w) as [[err|raw] w']; [eauto|].
  destruct (decode raw); eauto.
Qed.

Lemma GetRootDomain_log (hostname : string) (w : World) (log : list Request) :
  exists r w',
    Client.GetRootDomain (logged T) tok hostname (w, log)
    = (r, (w', (log ++ [mkRequest MethodGet ["dns"; "getroot"; hostname] None tok])%list)).
Proof.
  unfold Client.GetRootDomain, bind.
  destruct (doWithCustomError_log (decodeHostname (logged T)) MethodGet
              ["dns"; "getroot"; hostname] None w log) as (r & w' & ->).
  destruct r as [err|[resp exn]]; unfold ret; [eauto|].
  destruct (negb _); eauto.
Qed.


Lemma AddOrUpdateRecord_log (hostnameId : Z) (record : DNSRecord.t) (ignoreRecordId : bool)
    (w : World) (log : list Request) :
  exists r w',
    Client.AddOrUpdateRecord (logged T) tok hostnameId record ignoreRecordId (w, log)
    = (r, (w', (log ++ [mkRequest MethodPost
                          (Client.urlPaths hostnameId record ignoreRecordId)
                          (Some record) tok])%list)).
Proof.
  unfold Client.AddOrUpdateRecord, bind.
  destruct (doWithCustomError_log (decodeRecord (logged T)) MethodPost
              (Client.urlPaths hostnameId record ignoreRecordId) (Some record) w log)
    as (r & w' & ->).
  destruct r as [err|[resp exn]]; unfold ret; [eauto|].
  destruct (negb _); eauto.
Qed.


End Logging.

Section OwnDomain.

Context {World Raw : Type}.
Variable T : Transport World Raw.
Variable p : Provider.t.



End OwnDomain.

Section OwnDomainTheorems.

Context {World Raw : Type}.
Variable T : Transport World Raw.
Variable p : Provider.t.



End OwnDomainTheorems.

(** ** Record identifiers *)

Module IdFacts.
Import strconv fmt StringFacts.

Lemma valueOf_append (s t : string) (acc : Z) :
  valueOf (s ++ t) acc = valueOf t (valueOf s acc).
Proof. revert acc; induction s as [|c s IH]; intros acc; simpl; [reflexivity | apply IH]. Qed.

Lemma allDecimal_append (s t : string) :
  allDecimal (s ++ t) = allDecimal s && allDecimal t.
Proof. induction s as [|c s IH]; simpl; [reflexivity | now rewrite IH, andb_assoc]. Qed.

Lemma byteVal_range (c : ascii) : 0 <= byteVal c < 256.
Proof.
  unfold byteVal. pose proof (N_ascii_bounded c) as H. lia.
Qed.

Lemma byteVal_byteOf (z : Z) : 0 <= z < 256 -> byteVal (byteOf z) = z.
Proof.
  intros H. unfold byteVal, byteOf. rewrite N_ascii_embedding by lia. lia.
Qed.

Lemma byteOf_byteVal (c : ascii) : byteOf (byteVal c) = c.
Proof. unfold byteVal, byteOf. rewrite N2Z.id. apply ascii_N_embedding. Qed.

Lemma isDecimal_digit (d : Z) : 0 <= d < 10 -> isDecimal (byteOf (48 + d)) = true.
Proof.
  intros H. unfold isDecimal. rewrite byteVal_byteOf by lia.
  apply andb_true_intro; split; apply Z.leb_le; lia.
Qed.

Lemma valueOf_ge (s : string) (acc : Z) :
  allDecimal s = true -> 0 <= acc -> acc <= valueOf s acc.
Proof.
  revert acc; induction s as [|c s IH]; intros acc Hs Hacc; simpl in *; [lia|].
  apply andb_prop in Hs as [Hc Hs]. unfold isDecimal in Hc.
  apply andb_prop in Hc as [H1 H2]. apply Z.leb_le in H1, H2.
  specialize (IH (acc * 10 + (byteVal c - 48)) Hs). lia.
Qed.

(** The digits [formatBits] writes: at least one, no leading zero but for
    zero itself, and they read back as [u]. *)
Lemma formatBits_digits (fuel : nat) (u : Z) (acc : string) :
  (0 < fuel)%nat -> 0 <= u < 10 ^ Z.of_nat fuel ->
  exists c r,
    formatBits fuel u acc = String c (r ++ acc)
    /\ isDecimal c = true /\ allDecimal r = true
    /\ (0 < u -> c <> "0"%char)
    /\ valueOf (String c r) 0 = u.
Proof.
  revert u acc. induction fuel as [|fuel IH]; intros u acc Hf Hu; [lia|].
  cbn [formatBits]. destruct (Z.leb_spec 10 u) as [Hge|Hlt].
  - rewrite Nat2Z.inj_succ, Z.pow_succ_r in Hu by lia.
    assert (Hfuel : (0 < fuel)%nat).
    { destruct fuel; [|lia]. change (10 ^ Z.of_nat 0) with 1 in Hu. lia. }
    assert (Hdiv : 0 <= u / 10 < 10 ^ Z.of_nat fuel).
    { split; [apply Z.div_pos; lia|].
      apply Z.div_lt_upper_bound; lia. }
    destruct (IH (u / 10) (String (byteOf (48 + u mod 10)) acc) Hfuel Hdiv)
      as (c & r & E & Hc & Hr & Hnz & Hval).
    exists c, (r ++ String (byteOf (48 + u mod 10)) "").
    pose proof (Z.mod_pos_bound u 10 ltac:(lia)) as Hmod.
    repeat split.
    + rewrite E, append_assoc. reflexivity.
    + exact Hc.
    + rewrite allDecimal_append, Hr. cbn [allDecimal].
      now rewrite isDecimal_digit.
    + intros _. apply Hnz. apply Z.div_str_pos. lia.
    + change (String c (r ++ String (byteOf (48 + u mod 10)) ""))
        with (String c r ++ String (byteOf (48 + u mod 10)) "").
      rewrite valueOf_append, Hval. cbn [valueOf].
      rewrite byteVal_byteOf by lia.
      pose proof (Z.div_mod u 10 ltac:(lia)). lia.
  - exists (byteOf (48 + u)), "". repeat split.
    + apply isDecimal_digit. lia.
    + intros Hpos E.
      assert (H : byteVal (byteOf (48 + u)) = byteVal "0"%char) by now rewrite E.
      rewrite byteVal_byteOf in H by lia.
      change (byteVal "0"%char) with 48 in H. lia.
    + cbn [valueOf]. rewrite byteVal_byteOf by lia. lia.
Qed.

End IdFacts.

Module ScanFacts.
Import strconv fmt StringFacts IdFacts.

(** What the scanner needs to know of a decimal digit. *)
Lemma decimal_byte (c : ascii) :
  isDecimal c = true ->
  indexRune digits_ c = true
  /\ indexRune sign c = false
  /\ isSign c = false
  /\ Ascii.eqb c underscore = false
  /\ Ascii.eqb c "-"%char = false
  /\ digitVal c = Some (byteVal c - 48)
  /\ 0 <= byteVal c - 48 < 10
  /\ (forall r, SkipSpace (String c r) = String c r).
Proof.
  intros H.
  assert (Hskip : isSpace1 c = false /\ (b c =? 194) = false /\ (b c =? 225) = false
                  /\ (b c =? 226) = false /\ (b c =? 227) = false).
  { ascii_cases c; vm_compute in H; try discriminate H; vm_compute; repeat split. }
  destruct Hskip as (S1 & S2 & S3 & S4 & S5).
  repeat split;
    try (ascii_cases c; vm_compute in H; try discriminate H; vm_compute; try reflexivity;
         intros; discriminate).
  intros r. cbn [SkipSpace]. rewrite S1. unfold isSpace2, isSpace3.
  rewrite S2, S3, S4, S5. cbn [andb orb].
  destruct r as [|c2 [|c3 r]]; reflexivity.
Qed.


Lemma acceptAll_decimal (r bf : string) :
  allDecimal r = true -> acceptAll digits_ bf r = mkSs (bf ++ r) "".
Proof.
  revert bf. induction r as [|c r IH]; intros bf Hr; cbn [acceptAll].
  - now rewrite append_nil_r.
  - cbn [allDecimal] in Hr. apply andb_prop in Hr as [Hc Hr].
    destruct (decimal_byte c Hc) as (-> & _).
    rewrite IH by exact Hr. now rewrite append_assoc.
Qed.

Lemma parseLoop_decimal (s : string) (n : Z) :
  allDecimal s = true -> 0 <= n -> valueOf s n <= 2 ^ 63 ->
  parseLoop 10 true s n false = Some (valueOf s n, false).
Proof.
  revert n. induction s as [|c s IH]; intros n Hs Hn Hv; cbn [parseLoop valueOf] in *.
  - reflexivity.
  - cbn [allDecimal] in Hs. apply andb_prop in Hs as [Hc Hs].
    destruct (decimal_byte c Hc) as (_ & _ & _ & -> & _ & -> & Hd & _).
    cbn [andb].
    assert (Hmono : n * 10 + (byteVal c - 48) <= valueOf s (n * 10 + (byteVal c - 48))).
    { apply valueOf_ge; [exact Hs | lia]. }
    destruct (Z.leb_spec 10 (byteVal c - 48)) as [|_]; [lia|].
    change (GoInt.maxUint64 / 10 + 1) with 1844674407370955162.
    destruct (Z.leb_spec 1844674407370955162 n) as [|_]; [lia|].
    change GoInt.maxUint64 with 18446744073709551615.
    destruct (Z.ltb_spec 18446744073709551615 (n * 10 + (byteVal c - 48))) as [|_]; [lia|].
    apply IH; [exact Hs | lia | exact Hv].
Qed.

(** Scanning a string of decimal digits with no leading zero. *)
Lemma scanToken_decimal (c : ascii) (r : string) :
  isDecimal c = true -> c <> "0"%char -> allDecimal r = true ->
  valueOf (String c r) 0 < 2 ^ 63 ->
  scanToken (String c r) = Some (valueOf (String c r) 0).
Proof.
  intros Hc Hnz Hr Hv.
  destruct (decimal_byte c Hc) as (Hin & Hsign & Hsg & Hus & Hminus & Hdv & Hd & _).
  apply Ascii.eqb_neq in Hnz.
  unfold scanToken, accept. cbn [rd buf]. rewrite Hsign. cbn [snd].
  unfold scanBasePrefix, peek. cbn [rd indexRune]. rewrite Ascii.eqb_sym, Hnz. cbn [orb negb].
  unfold scanNumber, accept. cbn [rd buf]. fold digits_. rewrite Hin. cbn [rd buf append].
  rewrite acceptAll_decimal by exact Hr. cbn [buf append].
  unfold ParseInt. rewrite Hminus, Hsg. unfold ParseUint. rewrite Hnz.
  rewrite parseLoop_decimal.
  - cbn [andb negb]. destruct (Z.leb_spec (2 ^ 63) (valueOf (String c r) 0)); [lia|].
    reflexivity.
  - cbn [allDecimal]. now rewrite Hc, Hr.
  - lia.
  - lia.
Qed.

(** The same behind a minus sign. *)
Lemma scanToken_minus_decimal (c : ascii) (r : string) :
  isDecimal c = true -> c <> "0"%char -> allDecimal r = true ->
  valueOf (String c r) 0 <= 2 ^ 63 ->
  scanToken (String "-" (String c r)) = Some (- valueOf (String c r) 0).
Proof.
  intros Hc Hnz Hr Hv.
  destruct (decimal_byte c Hc) as (Hin & Hsign & Hsg & Hus & Hminus & Hdv & Hd & _).
  apply Ascii.eqb_neq in Hnz.
  unfold scanToken, accept. cbn [rd buf indexRune sign Ascii.eqb Bool.eqb orb snd append].
  unfold scanBasePrefix, peek. cbn [rd indexRune]. rewrite Ascii.eqb_sym, Hnz. cbn [orb negb].
  unfold scanNumber, accept. cbn [rd buf]. fold digits_. rewrite Hin. cbn [rd buf append].
  rewrite acceptAll_decimal by exact Hr. cbn [buf append].
  unfold ParseInt. cbn [Ascii.eqb Bool.eqb isSign orb].
  unfold ParseUint. rewrite Hnz.
  rewrite parseLoop_decimal.
  - cbn [andb negb]. destruct (Z.ltb_spec (2 ^ 63) (valueOf (String c r) 0)); [lia|].
    reflexivity.
  - cbn [allDecimal]. now rewrite Hc, Hr.
  - lia.
  - exact Hv.
Qed.

(** [fmt.Sscan] reads back what [fmt.Sprint] writes. *)
Lemma Sscan_Sprint (n old : Z) : GoInt.inInt64 n -> Sscan (Sprint n) old = n.
Proof.
  unfold GoInt.inInt64, GoInt.minInt64, GoInt.maxInt64. intros Hn.
  unfold Sscan, Sprint, FormatInt.
  destruct (Z.ltb_spec n 0) as [Hneg|Hpos].
  - destruct (formatBits_digits 20 (- n) "") as (c & r & E & Hc & Hr & Hnz & Hv); [lia|lia|].
    rewrite E, append_nil_r. unfold scanInt. cbn [SkipSpace]. 
    change (isSpace1 "-") with false. cbv iota.
    replace (match r with _ => _ end) with (String "-" (String c r))
      by (unfold isSpace2, isSpace3; cbn; destruct r; reflexivity).
    rewrite (scanToken_minus_decimal c r Hc (Hnz ltac:(lia)) Hr ltac:(lia)).
    rewrite Hv. f_equal. lia.
  - destruct (Z.eq_dec n 0) as [->|Hn0]; [reflexivity|].
    destruct (formatBits_digits 20 n "") as (c & r & E & Hc & Hr & Hnz & Hv); [lia|lia|].
    rewrite E, append_nil_r. unfold scanInt.
    destruct (decimal_byte c Hc) as (_ & _ & _ & _ & _ & _ & _ & ->).
    rewrite (scanToken_decimal c r Hc (Hnz ltac:(lia)) Hr ltac:(lia)).
    now rewrite Hv.
Qed.







End ScanFacts.

Section RecordId.
Import IdFacts ScanFacts.


Lemma libdnsRecordToDnsRecord_ID (record : libdns.record) (domain ownDomain : string) :
  DNSRecord.ID (fst (libdnsRecordToDnsRecord record domain ownDomain))
  = fmt.Sscan (libdns.ID record) 0.
Proof.
  unfold libdnsRecordToDnsRecord.
  repeat (destruct (String.eqb (libdns.Type_ record) _); [reflexivity|]).
  reflexivity.
Qed.



End RecordId.

(** ** Durations in seconds *)

Module FloatFacts.
Import GoFloat time.

Lemma digits2_pos_size (p : positive) : digits2_pos p = Pos.size p.
Proof. induction p as [p IH|p IH|]; simpl; now rewrite ?IH. Qed.

(** [p] has [digits2_pos p] binary digits. *)
Lemma digits2_pos_bounds (p : positive) :
  2 ^ (Z.pos (digits2_pos p) - 1) <= Z.pos p < 2 ^ Z.pos (digits2_pos p).
Proof.
  rewrite digits2_pos_size. split.
  - pose proof (Pos.size_le p) as H.
    assert (H' : 2 ^ Z.pos (Pos.size p) <= 2 * Z.pos p).
    { rewrite <- Pos2Z.inj_pow. change 2 with (Z.pos 2) at 1. rewrite <- Pos2Z.inj_mul.
      apply Pos2Z.pos_le_pos. exact H. }
    replace (Z.pos (Pos.size p)) with (Z.succ (Z.pos (Pos.size p) - 1)) in H' by lia.
    rewrite Z.pow_succ_r in H' by lia. lia.
  - pose proof (Pos.size_gt p) as H.
    change 2 with (Z.pos 2). rewrite <- Pos2Z.inj_pow. apply Pos2Z.pos_lt_pos. exact H.
Qed.

(** The number of digits is fixed by the interval of powers of two. *)
Lemma digits2_pos_unique (p : positive) (d : Z) :
  2 ^ (d - 1) <= Z.pos p < 2 ^ d -> Z.pos (digits2_pos p) = d.
Proof.
  intros [Hlo Hhi]. pose proof (digits2_pos_bounds p) as [Blo Bhi].
  assert (Hd : 0 < d).
  { destruct (Z.ltb_spec 0 d); [assumption|].
    assert (2 ^ d <= 2 ^ 0) by (apply Z.pow_le_mono_r; lia).
    change (2 ^ 0) with 1 in *. lia. }
  destruct (Z.lt_trichotomy (Z.pos (digits2_pos p)) d) as [Hlt|[Heq|Hgt]]; [|exact Heq|].
  - assert (2 ^ Z.pos (digits2_pos p) <= 2 ^ (d - 1)) by (apply Z.pow_le_mono_r; lia). lia.
  - assert (2 ^ d <= 2 ^ (Z.pos (digits2_pos p) - 1)) by (apply Z.pow_le_mono_r; lia). lia.
Qed.

Lemma iter_xO (p k : positive) : Z.pos (Pos.iter xO p k) = Z.pos p * 2 ^ Z.pos k.
Proof.
  induction k as [|k IH] using Pos.peano_ind.
  - cbn [Pos.iter]. rewrite Pos2Z.inj_xO. change (2 ^ 1) with 2. lia.
  - rewrite Pos.iter_succ, Pos2Z.inj_xO, IH, Pos2Z.inj_succ, Z.pow_succ_r by lia. lia.
Qed.

(** [shl_align] towards a smaller exponent multiplies by the power of two. *)
Lemma shl_align_spec (mx : positive) (ex ex' : Z) :
  ex' <= ex ->
  exists mz, shl_align mx ex ex' = (mz, ex') /\ Z.pos mz = Z.pos mx * 2 ^ (ex - ex').
Proof.
  intros H. unfold shl_align.
  destruct (ex' - ex) as [|k|k] eqn:E; [|lia|].
  - exists mx. assert (ex' = ex) as -> by lia.
    rewrite Z.sub_diag. split; [reflexivity | simpl; lia].
  - exists (Pos.iter xO mx k). split; [reflexivity|].
    rewrite iter_xO. f_equal. f_equal. lia.
Qed.

(** A mantissa of 53 digits with an exponent in range is kept as it is. *)
Lemma binary_round_aux_canonical (sx : bool) (m : positive) (e : Z) :
  Z.pos (digits2_pos m) = 53 -> -1074 <= e <= 971 ->
  binary_round_aux prec emax sx (Z.pos m) e loc_Exact = S754_finite sx m e.
Proof.
  intros Hd He.
  assert (Hshift : fexp prec emax (Z.pos (digits2_pos m) + e) - e = 0).
  { unfold fexp, emin, prec, emax. rewrite Hd. lia. }
  unfold binary_round_aux, shr_fexp. cbn [Zdigits2 shr_record_of_loc].
  rewrite Hshift. cbn [shr shr_m loc_of_shr_record round_nearest_even].
  cbn [Zdigits2 shr_record_of_loc]. rewrite Hshift. cbn [shr shr_m].
  unfold prec, emax. destruct (Z.leb_spec e (1024 - 53)); [reflexivity | lia].
Qed.

(** *** Rounding *)

Lemma shr_1_m (mrs : shr_record) :
  0 <= shr_m mrs -> shr_m (shr_1 mrs) = Z.div2 (shr_m mrs).
Proof. destruct mrs as [[|[p|p|]|p] r s]; cbn [shr_m]; intros H; try reflexivity; lia. Qed.

Lemma pow2_xI (n : positive) : 2 ^ Z.pos n~1 = 2 * (2 ^ Z.pos n * 2 ^ Z.pos n).
Proof.
  replace (Z.pos n~1) with (Z.pos n + Z.pos n + 1) by lia.
  rewrite !Z.pow_add_r by lia. change (2 ^ 1) with 2. lia.
Qed.

Lemma pow2_xO (n : positive) : 2 ^ Z.pos n~0 = 2 ^ Z.pos n * 2 ^ Z.pos n.
Proof.
  replace (Z.pos n~0) with (Z.pos n + Z.pos n) by lia.
  now rewrite Z.pow_add_r by lia.
Qed.

Lemma iter_pos_shr_m (n : positive) (mrs : shr_record) :
  0 <= shr_m mrs -> shr_m (iter_pos shr_1 n mrs) = shr_m mrs / 2 ^ Z.pos n.
Proof.
  revert mrs. induction n as [n IH|n IH|]; intros mrs Hm; cbn [iter_pos].
  - assert (H1 : 0 <= shr_m (shr_1 mrs)).
    { rewrite shr_1_m, Z.div2_div by exact Hm. apply Z.div_pos; lia. }
    assert (H2 : 0 <= shr_m (iter_pos shr_1 n (shr_1 mrs))).
    { rewrite IH by exact H1. apply Z.div_pos; [exact H1 | apply Z.pow_pos_nonneg; lia]. }
    rewrite IH by exact H2. rewrite IH by exact H1.
    rewrite shr_1_m, Z.div2_div by exact Hm.
    assert (Hp : 0 < 2 ^ Z.pos n) by (apply Z.pow_pos_nonneg; lia).
    rewrite !Z.div_div by lia. now rewrite pow2_xI.
  - assert (H2 : 0 <= shr_m (iter_pos shr_1 n mrs)).
    { rewrite IH by exact Hm. apply Z.div_pos; [exact Hm | apply Z.pow_pos_nonneg; lia]. }
    rewrite IH by exact H2. rewrite IH by exact Hm.
    assert (Hp : 0 < 2 ^ Z.pos n) by (apply Z.pow_pos_nonneg; lia).
    rewrite !Z.div_div by lia. now rewrite pow2_xO.
  - rewrite shr_1_m, Z.div2_div by exact Hm. reflexivity.
Qed.

Lemma shr_record_of_loc_m (m : Z) (l : location) : shr_m (shr_record_of_loc m l) = m.
Proof. destruct l as [|[]]; reflexivity. Qed.

(** The round bit after a shift is the last digit shifted out. *)
Lemma shr_1_r (mrs : shr_record) :
  0 <= shr_m mrs -> shr_r (shr_1 mrs) = Z.testbit (shr_m mrs) 0.
Proof. destruct mrs as [[|[p|p|]|p] r s]; cbn [shr_m]; intros H; try reflexivity; lia. Qed.

Lemma iter_pos_shr_r (n : positive) (mrs : shr_record) :
  0 <= shr_m mrs ->
  shr_r (iter_pos shr_1 n mrs) = Z.testbit (shr_m mrs) (Z.pos n - 1).
Proof.
  revert mrs. induction n as [n IH|n IH|]; intros mrs Hm; cbn [iter_pos].
  - assert (H1 : 0 <= shr_m (shr_1 mrs)).
    { rewrite shr_1_m, Z.div2_div by exact Hm. apply Z.div_pos; lia. }
    assert (H2 : 0 <= shr_m (iter_pos shr_1 n (shr_1 mrs))).
    { rewrite iter_pos_shr_m by exact H1.
      apply Z.div_pos; [exact H1 | apply Z.pow_pos_nonneg; lia]. }
    rewrite IH by exact H2. rewrite iter_pos_shr_m by exact H1.
    rewrite shr_1_m, Z.div2_div by exact Hm.
    rewrite Z.div_pow2_bits by lia.
    replace (shr_m mrs / 2) with (shr_m mrs / 2 ^ 1) by reflexivity.
    rewrite Z.div_pow2_bits by lia. f_equal. lia.
  - assert (H2 : 0 <= shr_m (iter_pos shr_1 n mrs)).
    { rewrite iter_pos_shr_m by exact Hm.
      apply Z.div_pos; [exact Hm | apply Z.pow_pos_nonneg; lia]. }
    rewrite IH by exact H2. rewrite iter_pos_shr_m by exact Hm.
    rewrite Z.div_pow2_bits by lia. f_equal. lia.
  - now rewrite shr_1_r by exact Hm.
Qed.

(** Rounding to nearest goes up only when the round bit is set. *)
Lemma round_nearest_even_up (mrs : shr_record) (m : Z) :
  round_nearest_even m (loc_of_shr_record mrs) = m + 1 -> shr_r mrs = true.
Proof. destruct mrs as [m0 [] []]; cbn; intros H; try reflexivity; lia. Qed.

(** [shr_fexp] when the distance [k] to the exponent of the format is known. *)
Lemma shr_fexp_spec (m e k : Z) (l : location) :
  0 <= m -> fexp prec emax (Zdigits2 m + e) - e = k -> 0 <= k ->
  shr_m (fst (shr_fexp prec emax m e l)) = m / 2 ^ k
  /\ snd (shr_fexp prec emax m e l) = e + k.
Proof.
  intros Hm Hk Hk0. unfold shr_fexp. rewrite Hk. unfold shr.
  destruct k as [|q|q]; [| |lia]; cbn [fst snd].
  - rewrite shr_record_of_loc_m. change (2 ^ 0) with 1. rewrite Z.div_1_r. lia.
  - rewrite iter_pos_shr_m by (rewrite shr_record_of_loc_m; exact Hm).
    now rewrite shr_record_of_loc_m.
Qed.

Lemma shr_fexp_round_bit (m e k : Z) (l : location) :
  0 <= m -> fexp prec emax (Zdigits2 m + e) - e = k -> 0 < k ->
  shr_r (fst (shr_fexp prec emax m e l)) = Z.testbit m (k - 1).
Proof.
  intros Hm Hk Hk0. unfold shr_fexp. rewrite Hk. unfold shr.
  destruct k as [|q|q]; [lia| |lia]; cbn [fst snd].
  rewrite iter_pos_shr_r by (rewrite shr_record_of_loc_m; exact Hm).
  now rewrite shr_record_of_loc_m.
Qed.

Lemma round_nearest_even_cases (m : Z) (l : location) :
  round_nearest_even m l = m \/ round_nearest_even m l = m + 1.
Proof. destruct l as [|[]]; cbn; try destruct (Z.even m); auto. Qed.

(** Rounding a mantissa of [n >= 53] digits to the format: the last
    [n - 53] digits are cut off and the result is that or the next
    mantissa, the next one only when the first digit cut off is 1; when
    the next one is 2^53 it is renormalized. *)
Lemma binary_round_aux_cut (sx : bool) (mx : positive) (ex : Z) (lx : location) :
  let k := Z.pos (digits2_pos mx) - 53 in
  0 <= k -> -1074 <= ex + k -> ex + k + 1 <= 971 ->
  exists m e m1,
    binary_round_aux prec emax sx (Z.pos mx) ex lx = S754_finite sx m e
    /\ (m1 = Z.pos mx / 2 ^ k \/ m1 = Z.pos mx / 2 ^ k + 1)
    /\ 2 ^ 52 <= Z.pos mx / 2 ^ k < 2 ^ 53
    /\ ((e = ex + k /\ Z.pos m = m1 /\ m1 < 2 ^ 53)
        \/ (e = ex + k + 1 /\ Z.pos m = 2 ^ 52 /\ m1 = 2 ^ 53))
    /\ (0 < k -> m1 = Z.pos mx / 2 ^ k + 1 -> Z.testbit (Z.pos mx) (k - 1) = true).
Proof.
  intros k Hk Hlo Hhi.
  pose proof (digits2_pos_bounds mx) as [Blo Bhi].
  assert (Hpk : 0 < 2 ^ k) by (apply Z.pow_pos_nonneg; lia).
  assert (Hcut : 2 ^ 52 <= Z.pos mx / 2 ^ k < 2 ^ 53).
  { replace (Z.pos (digits2_pos mx) - 1) with (52 + k) in Blo by (unfold k; lia).
    replace (Z.pos (digits2_pos mx)) with (53 + k) in Bhi by (unfold k; lia).
    rewrite Z.pow_add_r in Blo, Bhi by lia. split.
    - apply Z.div_le_lower_bound; lia.
    - apply Z.div_lt_upper_bound; lia. }
  assert (Hk1 : fexp prec emax (Zdigits2 (Z.pos mx) + ex) - ex = k).
  { unfold fexp, emin, prec, emax, k. cbn [Zdigits2]. lia. }
  destruct (shr_fexp_spec (Z.pos mx) ex k lx ltac:(lia) Hk1 Hk) as [Hm' He'].
  assert (Hr : 0 < k -> shr_r (fst (shr_fexp prec emax (Z.pos mx) ex lx))
                        = Z.testbit (Z.pos mx) (k - 1)).
  { intros Hk0. apply shr_fexp_round_bit; [lia | exact Hk1 | exact Hk0]. }
  unfold binary_round_aux.
  destruct (shr_fexp prec emax (Z.pos mx) ex lx) as [mrs' e'].
  cbn [fst snd] in Hm', He', Hr. subst e'.
  set (m1 := round_nearest_even (shr_m mrs') (loc_of_shr_record mrs')).
  assert (Hm1 : m1 = Z.pos mx / 2 ^ k \/ m1 = Z.pos mx / 2 ^ k + 1).
  { unfold m1. rewrite <- Hm'. apply round_nearest_even_cases. }
  assert (Hup : 0 < k -> m1 = Z.pos mx / 2 ^ k + 1
                -> Z.testbit (Z.pos mx) (k - 1) = true).
  { intros Hk0 Hm1up. rewrite <- (Hr Hk0).
    apply (round_nearest_even_up mrs' (shr_m mrs')).
    rewrite <- Hm' in Hm1up. exact Hm1up. }
  assert (Hm1r : 2 ^ 52 <= m1 <= 2 ^ 53) by lia.
  destruct m1 as [|p1|p1] eqn:Ep1; [lia| |lia].
  destruct (Z.eq_dec (Z.pos p1) (2 ^ 53)) as [Hmax|Hnmax].
  - assert (Hp1 : p1 = 9007199254740992%positive) by (apply Pos2Z.inj; exact Hmax).
    subst p1.
    assert (Hk2 : fexp prec emax (Zdigits2 9007199254740992 + (ex + k)) - (ex + k) = 1).
    { unfold fexp, emin, prec, emax. cbn [Zdigits2 digits2_pos Pos.succ]. lia. }
    unfold shr_fexp. rewrite Hk2. cbn [shr shr_record_of_loc iter_pos shr_1 shr_m].
    unfold prec, emax. destruct (Z.leb_spec (ex + k + 1) (1024 - 53)); [|lia].
    exists 4503599627370496%positive, (ex + k + 1), 9007199254740992.
    split; [reflexivity|]. split; [lia|]. split; [lia|]. split; [lia | exact Hup].
  - assert (Hd1 : Z.pos (digits2_pos p1) = 53) by (apply digits2_pos_unique; lia).
    assert (Hk2 : fexp prec emax (Zdigits2 (Z.pos p1) + (ex + k)) - (ex + k) = 0).
    { unfold fexp, emin, prec, emax. cbn [Zdigits2]. lia. }
    unfold shr_fexp. rewrite Hk2. cbn [shr shr_record_of_loc shr_m].
    unfold prec, emax. destruct (Z.leb_spec (ex + k) (1024 - 53)); [|lia].
    exists p1, (ex + k), (Z.pos p1).
    split; [reflexivity|]. split; [lia|]. split; [lia|]. split; [lia | exact Hup].
Qed.

(** *** Integers *)

(** An integer below 2^53 is a [float64]: its conversion has the sign of
    the integer, a mantissa of 53 digits and the exponent that makes the
    value the integer. *)
Lemma binary_round_int (sx : bool) (p : positive) :
  Z.pos p < 2 ^ 53 ->
  exists m e,
    binary_round prec emax sx p 0 = S754_finite sx m e
    /\ -52 <= e <= 0 /\ Z.pos m = Z.pos p * 2 ^ (- e)
    /\ Z.pos (digits2_pos m) = 53.
Proof.
  intros Hp. pose proof (digits2_pos_bounds p) as [Blo Bhi].
  set (d := Z.pos (digits2_pos p)) in *.
  assert (Hd : 1 <= d <= 53).
  { split; [unfold d; lia|].
    destruct (Z.leb_spec d 53); [assumption|].
    assert (2 ^ 53 <= 2 ^ (d - 1)) by (apply Z.pow_le_mono_r; lia). lia. }
  assert (Hfexp : fexp prec emax (d + 0) = d - 53).
  { unfold fexp, emin, prec, emax. lia. }
  unfold binary_round. fold d. rewrite Hfexp.
  destruct (shl_align_spec p 0 (d - 53) ltac:(lia)) as (mz & -> & Hmz).
  replace (0 - (d - 53)) with (53 - d) in Hmz by lia.
  assert (Hdz : Z.pos (digits2_pos mz) = 53).
  { apply digits2_pos_unique. rewrite Hmz. split.
    - replace (53 - 1) with ((d - 1) + (53 - d)) by lia.
      rewrite Z.pow_add_r by lia. apply Z.mul_le_mono_nonneg_r; [apply Z.pow_nonneg|]; lia.
    - replace 53 with (d + (53 - d)) at 2 by lia.
      rewrite Z.pow_add_r by lia. apply Z.mul_lt_mono_pos_r; [apply Z.pow_pos_nonneg|]; lia. }
  exists mz, (d - 53). split; [apply binary_round_aux_canonical; [exact Hdz | lia]|].
  repeat split; try lia. rewrite Hmz. f_equal. f_equal. lia.
Qed.

Lemma int_of_float64_exact (sx : bool) (m : positive) (e z : Z) :
  e <= 0 -> Z.pos m = z * 2 ^ (- e) ->
  int_of_float64 (S754_finite sx m e) = cond_Zopp sx z.
Proof.
  intros He Hm. unfold int_of_float64. f_equal.
  destruct e as [|q|q]; [|lia|].
  - simpl in *. lia.
  - rewrite Hm. change (- Z.neg q) with (Z.pos q).
    apply Z.div_mul. apply Z.pow_nonzero; lia.
Qed.

(** The seconds of a whole number of seconds. *)
Lemma Seconds_whole (sec : Z) :
  - 2 ^ 53 < sec < 2 ^ 53 ->
  int_of_float64 (Seconds (sec * Second)) = sec.
Proof.
  intros Hsec. unfold Seconds.
  rewrite Z.quot_mul, Z.rem_mul by discriminate.
  change (SFdiv prec emax (float64_of_int 0) (float64_of_int 1000000000))
    with (S754_zero false).
  unfold float64_of_int, binary_normalize.
  destruct sec as [|p|p].
  - reflexivity.
  - destruct (binary_round_int false p ltac:(lia)) as (m & e & -> & He & Hm & _).
    cbn [SFadd]. now rewrite (int_of_float64_exact false m e (Z.pos p)) by lia.
  - destruct (binary_round_int true p ltac:(lia)) as (m & e & -> & He & Hm & _).
    cbn [SFadd]. now rewrite (int_of_float64_exact true m e (Z.pos p)) by lia.
Qed.

(** *** The fraction of a second *)

Lemma float64_of_int_nine :
  float64_of_int 1000000000 = S754_finite false m9 (-23).
Proof. reflexivity. Qed.

Lemma SFdiv_core_nine (mn : positive) (en : Z) :
  Z.pos (digits2_pos mn) = 53 -> -52 <= en <= 0 ->
  SFdiv_core_binary prec emax (Z.pos mn) en (Z.pos m9) (-23)
  = (Z.pos mn * 2 ^ 53 / Z.pos m9, en - 30,
     new_location (Z.pos m9) (Z.pos mn * 2 ^ 53 mod Z.pos m9)).
Proof.
  intros Hd He. unfold SFdiv_core_binary. cbn [Zdigits2]. rewrite Hd.
  change (Z.pos (digits2_pos m9)) with 53.
  assert (He' : Z.min (fexp prec emax (53 + en - (53 + -23))) (en - -23) = en - 30).
  { unfold fexp, emin, prec, emax. lia. }
  rewrite He'. replace (en - -23 - (en - 30)) with 53 by lia. cbv iota.
  rewrite Z.shiftl_mul_pow2 by lia.
  unfold Z.div, Z.modulo.
  destruct (Z.div_eucl (Z.pos mn * 2 ^ 53) (Z.pos m9)) as [q r]. reflexivity.
Qed.

(** The quotient [float64(nsec)/1e9] for [0 < nsec < 10^9], with either
    sign: a mantissa of at least 52 digits, and a value that exceeds
    [nsec/10^9] by 2^-52 at most. The value is stated on the scale 2^83. *)
Lemma fraction_of_second (sx : bool) (p : positive) :
  Z.pos p <= 999999999 ->
  exists mq eq,
    SFdiv prec emax (binary_round prec emax sx p 0) (float64_of_int 1000000000)
    = S754_finite sx mq eq
    /\ -82 <= eq /\ 2 ^ 52 <= Z.pos mq
    /\ Z.pos mq * 2 ^ (eq + 83) * 10 ^ 9 <= (10 ^ 9 - 1) * 2 ^ 83 + 2 ^ 31 * 10 ^ 9.
Proof.
  intros Hp.
  destruct (binary_round_int sx p) as (mn & en & -> & Hen & Hmn & Hdn).
  { assert (999999999 < 2 ^ 53) by reflexivity. lia. }
  pose proof (digits2_pos_bounds mn) as [Bnlo Bnhi]. rewrite Hdn in Bnlo, Bnhi.
  change (53 - 1) with 52 in Bnlo.
  (* the exponent of nsec: it has 30 digits at most *)
  assert (Hen' : en <= -23).
  { destruct (Z.leb_spec en (-23)) as [|Hgt]; [assumption|].
    assert (H30 : 2 ^ 30 <= 2 ^ 52 / 2 ^ (- en)).
    { replace 52 with (- en + (52 + en)) by lia.
      rewrite Z.pow_add_r, Z.mul_comm, Z.div_mul by (try apply Z.pow_nonzero; lia).
      apply Z.pow_le_mono_r; lia. }
    assert (Hpn : 0 < 2 ^ (- en)) by (apply Z.pow_pos_nonneg; lia).
    assert (2 ^ 52 / 2 ^ (- en) <= Z.pos p).
    { apply Z.div_le_upper_bound; [lia|]. rewrite Z.mul_comm, <- Hmn. lia. }
    assert (2 ^ 30 = 1073741824) by reflexivity. lia. }
  rewrite float64_of_int_nine. cbn [SFdiv].
  rewrite (SFdiv_core_nine mn en Hdn Hen). rewrite xorb_false_r.
  set (Q := Z.pos mn * 2 ^ 53 / Z.pos m9).
  assert (Hm9 : Z.pos m9 = 10 ^ 9 * 2 ^ 23) by reflexivity.
  assert (Hm9r : 2 ^ 52 <= Z.pos m9 < 2 ^ 53) by (split; [discriminate | reflexivity]).
  assert (HQlo : 2 ^ 52 <= Q).
  { apply Z.div_le_lower_bound; [lia|]. nia. }
  assert (HQhi : Q < 2 ^ 54).
  { apply Z.div_lt_upper_bound; [lia|]. change (2 ^ 54) with (2 * 2 ^ 53). nia. }
  assert (HQmul : Q * Z.pos m9 <= Z.pos mn * 2 ^ 53).
  { unfold Q. rewrite Z.mul_comm. apply Z.mul_div_le. lia. }
  destruct Q as [|pq|pq] eqn:EQ; [lia| |lia].
  assert (Hdq : 53 <= Z.pos (digits2_pos pq) <= 54).
  { pose proof (digits2_pos_bounds pq) as [Blo Bhi]. split.
    - destruct (Z.leb_spec 53 (Z.pos (digits2_pos pq))); [assumption|].
      assert (2 ^ Z.pos (digits2_pos pq) <= 2 ^ 52) by (apply Z.pow_le_mono_r; lia). lia.
    - destruct (Z.leb_spec (Z.pos (digits2_pos pq)) 54); [assumption|].
      assert (2 ^ 54 <= 2 ^ (Z.pos (digits2_pos pq) - 1)) by (apply Z.pow_le_mono_r; lia).
      lia. }
  destruct (binary_round_aux_cut sx pq (en - 30)
              (new_location (Z.pos m9) (Z.pos mn * 2 ^ 53 mod Z.pos m9)))
    as (mq & eq & m1 & -> & Hm1 & Hcut & Hres & _); [lia|lia|lia|].
  set (k := Z.pos (digits2_pos pq) - 53) in *.
  exists mq, eq. split; [reflexivity|].
  assert (Hk : k = 0 \/ k = 1) by lia.
  (* the value on the scale of the quotient: within 2 of Q *)
  assert (Hval : exists j, 0 <= j /\ eq = en - 30 + j /\ Z.pos mq * 2 ^ j <= Z.pos pq + 2).
  { assert (Hdiv : Z.pos pq / 2 ^ k * 2 ^ k <= Z.pos pq).
    { rewrite Z.mul_comm. apply Z.mul_div_le. apply Z.pow_pos_nonneg; lia. }
    destruct Hk as [Hk|Hk]; rewrite Hk in *;
      [change (2 ^ 0) with 1 in * | change (2 ^ 1) with 2 in *].
    - destruct Hres as [(-> & Hm & _)|(-> & Hm & Hmax)].
      + exists 0. change (2 ^ 0) with 1. lia.
      + exists 1. change (2 ^ 1) with 2. change (2 ^ 52) with 4503599627370496 in Hm.
        change (2 ^ 53) with 9007199254740992 in Hmax. lia.
    - destruct Hres as [(-> & Hm & _)|(-> & Hm & Hmax)].
      + exists 1. change (2 ^ 1) with 2. lia.
      + exists 2. change (2 ^ 2) with 4. change (2 ^ 52) with 4503599627370496 in Hm.
        change (2 ^ 53) with 9007199254740992 in Hmax. lia. }
  destruct Hval as (j & Hj & -> & Hval).
  split; [lia|]. split.
  { destruct Hres as [(_ & Hm & _)|(_ & Hm & _)]; lia. }
  (* Q * 10^9 <= nsec * 2^(30 - en) *)
  set (L := 30 - en).
  assert (HL : 53 <= L <= 82) by (unfold L; lia).
  assert (HQ9 : Z.pos pq * 10 ^ 9 <= Z.pos p * 2 ^ L).
  { rewrite Hmn, Hm9 in HQmul.
    assert (Hpow : 2 ^ (- en) * 2 ^ 53 = 2 ^ L * 2 ^ 23).
    { rewrite <- !Z.pow_add_r by lia. f_equal. unfold L. lia. }
    assert (H23 : 0 < 2 ^ 23) by reflexivity.
    apply (Z.mul_le_mono_pos_r _ _ (2 ^ 23) H23).
    rewrite <- !Z.mul_assoc, <- Hpow. lia. }
  replace (en - 30 + j + 83) with (j + (83 - L)) by (unfold L; lia).
  rewrite Z.pow_add_r by lia.
  assert (H83 : 2 ^ 83 = 2 ^ (83 - L) * 2 ^ L).
  { rewrite <- Z.pow_add_r by lia. f_equal. lia. }
  assert (Hsmall : 2 * 2 ^ (83 - L) <= 2 ^ 31).
  { change (2 ^ 31) with (2 * 2 ^ 30). apply Z.mul_le_mono_nonneg_l; [lia|].
    apply Z.pow_le_mono_r; lia. }
  assert (Hpos : 0 < 2 ^ (83 - L)) by (apply Z.pow_pos_nonneg; lia).
  rewrite H83.
  assert (Hn9 : 10 ^ 9 = 1000000000) by reflexivity. rewrite Hn9 in *.
  nia.
Qed.

(** The fraction is below 1 by 2^-30 at least: put on the scale of its own
    exponent, [mq + 2^53 * 2^-(eq + 83) < 2^-eq]. *)
Lemma fraction_below_one (mq : positive) (eq : Z) :
  -82 <= eq -> 2 ^ 52 <= Z.pos mq ->
  Z.pos mq * 2 ^ (eq + 83) * 10 ^ 9 <= (10 ^ 9 - 1) * 2 ^ 83 + 2 ^ 31 * 10 ^ 9 ->
  eq <= -53 /\ Z.pos mq * 2 ^ (eq + 83) + 2 ^ 53 < 2 ^ 83.
Proof.
  intros Heq Hmq Hval.
  assert (Hnum : 2 ^ 31 * 10 ^ 9 + 2 ^ 53 * 10 ^ 9 < 2 ^ 83) by reflexivity.
  assert (H9 : 10 ^ 9 = 1000000000) by reflexivity.
  assert (Hlt : Z.pos mq * 2 ^ (eq + 83) + 2 ^ 53 < 2 ^ 83) by (rewrite H9 in *; lia).
  split; [|exact Hlt].
  destruct (Z.leb_spec eq (-53)) as [|Hgt]; [assumption|].
  assert (Hp : 2 ^ 31 <= 2 ^ (eq + 83)) by (apply Z.pow_le_mono_r; lia).
  assert (H : 2 ^ 52 * 2 ^ 31 <= Z.pos mq * 2 ^ (eq + 83)).
  { apply Z.mul_le_mono_nonneg; lia. }
  change (2 ^ 52 * 2 ^ 31) with (2 ^ 83) in H. change (2 ^ 53) with 9007199254740992 in Hlt.
  lia.
Qed.

(** The seconds of less than a second, with either sign. *)
Lemma Seconds_fraction (sx : bool) (pn : positive) :
  Z.pos pn <= 999999999 ->
  int_of_float64
    (SFadd prec emax (S754_zero false)
       (SFdiv prec emax (binary_round prec emax sx pn 0) (float64_of_int 1000000000)))
  = 0.
Proof.
  intros Hpn.
  destruct (fraction_of_second sx pn Hpn) as (mq & eq & -> & Heq & Hmq & Hval).
  destruct (fraction_below_one mq eq Heq Hmq Hval) as [Heq' Hlt].
  cbn [SFadd]. unfold int_of_float64.
  destruct eq as [|q|q]; [lia|lia|].
  assert (Hsmall : Z.pos mq < 2 ^ Z.pos q).
  { assert (Hp : 0 < 2 ^ (Z.neg q + 83)) by (apply Z.pow_pos_nonneg; lia).
    assert (H83 : 2 ^ 83 = 2 ^ Z.pos q * 2 ^ (Z.neg q + 83)).
    { rewrite <- Z.pow_add_r by lia. f_equal. lia. }
    rewrite H83 in Hlt. change (2 ^ 53) with 9007199254740992 in Hlt. nia. }
  rewrite Z.div_small by lia. now destruct sx.
Qed.

(** The seconds of [ps] seconds and [pn] nanoseconds, with either sign,
    below 2^24 seconds. *)
Lemma Seconds_sum (sx : bool) (ps pn : positive) :
  Z.pos ps < 2 ^ 24 -> Z.pos pn <= 999999999 ->
  int_of_float64
    (SFadd prec emax (binary_round prec emax sx ps 0)
       (SFdiv prec emax (binary_round prec emax sx pn 0) (float64_of_int 1000000000)))
  = cond_Zopp sx (Z.pos ps).
Proof.
  intros Hps Hpn.
  destruct (fraction_of_second sx pn Hpn) as (mq & eq & -> & Heq & Hmq & Hval).
  destruct (fraction_below_one mq eq Heq Hmq Hval) as [Heq' Hlt].
  destruct (binary_round_int sx ps) as (m1 & e1 & -> & He1 & Hm1 & Hd1).
  { assert (2 ^ 24 < 2 ^ 53) by reflexivity. lia. }
  pose proof (digits2_pos_bounds m1) as [B1lo B1hi]. rewrite Hd1 in B1lo, B1hi.
  change (53 - 1) with 52 in B1lo.
  assert (Hpe1 : 0 < 2 ^ (- e1)) by (apply Z.pow_pos_nonneg; lia).
  (* 24 digits at most: the exponent is -29 at most *)
  assert (He1' : e1 <= -29).
  { destruct (Z.leb_spec e1 (-29)) as [|Hgt]; [assumption|].
    assert (2 ^ (- e1) <= 2 ^ 28) by (apply Z.pow_le_mono_r; lia).
    assert (2 ^ 24 * 2 ^ 28 = 2 ^ 52) by reflexivity. nia. }
  set (k := e1 - eq).
  assert (Hk : 0 < k) by (unfold k; lia).
  assert (Hpk : 0 < 2 ^ k) by (apply Z.pow_pos_nonneg; lia).
  assert (Hph : 0 < 2 ^ (k - 1)) by (apply Z.pow_pos_nonneg; lia).
  assert (Hhalf : 2 ^ k = 2 ^ (k - 1) * 2).
  { change 2 with (2 ^ 1) at 3. rewrite <- Z.pow_add_r by lia. f_equal. lia. }
  (* the fraction on the scale of its exponent *)
  assert (Hscale : 2 ^ (- eq) = 2 ^ k * 2 ^ (- e1)).
  { rewrite <- Z.pow_add_r by lia. f_equal. unfold k. lia. }
  assert (Hfrac : Z.pos mq + 2 ^ (k - 1) < 2 ^ k * 2 ^ (- e1)).
  { rewrite <- Hscale.
    assert (Hp : 0 < 2 ^ (eq + 83)) by (apply Z.pow_pos_nonneg; lia).
    assert (H83 : 2 ^ 83 = 2 ^ (- eq) * 2 ^ (eq + 83)).
    { rewrite <- Z.pow_add_r by lia. f_equal. lia. }
    assert (Hk53 : 2 ^ (k - 1) * 2 ^ (eq + 83) <= 2 ^ 53).
    { rewrite <- Z.pow_add_r by lia. apply Z.pow_le_mono_r; unfold k; lia. }
    rewrite H83 in Hlt.
    apply (Z.mul_lt_mono_pos_r (2 ^ (eq + 83))); [exact Hp|]. lia. }
  (* the next integer is still a float of the same exponent *)
  assert (Hnext : Z.pos m1 + 2 ^ (- e1) <= 2 ^ 53).
  { assert (Hds : 2 ^ 53 = 2 ^ (53 + e1) * 2 ^ (- e1)).
    { rewrite <- Z.pow_add_r by lia. f_equal. lia. }
    assert (Hpslt : Z.pos ps < 2 ^ (53 + e1)) by nia.
    rewrite Hm1, Hds. nia. }
  cbn [SFadd]. rewrite Z.min_r by lia.
  destruct (shl_align_spec m1 e1 eq ltac:(lia)) as (M1 & -> & HM1). fold k in HM1.
  destruct (shl_align_spec mq eq eq ltac:(lia)) as (Mq & -> & HMq).
  rewrite Z.sub_diag in HMq. change (2 ^ 0) with 1 in HMq. rewrite Z.mul_1_r in HMq.
  cbn [fst].
  assert (Hnorm : binary_normalize prec emax
                    (cond_Zopp sx (Z.pos M1) + cond_Zopp sx (Z.pos Mq)) eq false
                  = binary_round prec emax sx (M1 + Mq) eq).
  { destruct sx; reflexivity. }
  rewrite Hnorm. clear Hnorm.
  set (M := (M1 + Mq)%positive).
  assert (HM : Z.pos M = Z.pos m1 * 2 ^ k + Z.pos mq).
  { unfold M. rewrite Pos2Z.inj_add, HM1, HMq. reflexivity. }
  assert (HdM : Z.pos (digits2_pos M) = 53 + k).
  { apply digits2_pos_unique. replace (53 + k - 1) with (52 + k) by lia.
    rewrite !Z.pow_add_r by lia. nia. }
  unfold binary_round.
  assert (Hfexp : fexp prec emax (Z.pos (digits2_pos M) + eq) = e1).
  { unfold fexp, emin, prec, emax. rewrite HdM. unfold k. lia. }
  rewrite Hfexp. unfold shl_align.
  destruct (e1 - eq) as [|kk|kk] eqn:Ekk; [lia| |lia].
  destruct (binary_round_aux_cut sx M eq loc_Exact)
    as (m & e & m' & -> & Hm' & _ & Hres & Hup); [lia|lia|lia|].
  replace (Z.pos (digits2_pos M) - 53) with k in * by lia.
  assert (Hcut : Z.pos M / 2 ^ k = Z.pos m1 + Z.pos mq / 2 ^ k).
  { rewrite HM. apply Z.div_add_l. lia. }
  (* the fraction in halves of the last place: fewer than 2 * 2^-e1 - 1,
     and an odd number of them when the sum is rounded up *)
  set (u := Z.pos mq / 2 ^ (k - 1)).
  assert (Hu : 0 <= u <= 2 * 2 ^ (- e1) - 2).
  { split; [apply Z.div_pos; lia|].
    assert (u < 2 * 2 ^ (- e1) - 1); [|lia].
    apply Z.div_lt_upper_bound; [lia|]. rewrite Hhalf in Hfrac. lia. }
  assert (Htu : Z.pos mq / 2 ^ k = u / 2).
  { unfold u. rewrite Hhalf, Z.div_div by lia. reflexivity. }
  assert (Hodd : m' = Z.pos M / 2 ^ k + 1 -> u mod 2 = 1).
  { intros Hm1up. pose proof (Hup Hk Hm1up) as Hbit.
    apply Z.testbit_true in Hbit; [|lia].
    replace (Z.pos M / 2 ^ (k - 1)) with (Z.pos m1 * 2 + u) in Hbit.
    - rewrite Z.add_comm, Z.mod_add in Hbit by lia. exact Hbit.
    - rewrite HM.
      replace (Z.pos m1 * 2 ^ k) with (Z.pos m1 * 2 * 2 ^ (k - 1)) by (rewrite Hhalf; ring).
      unfold u. symmetry. apply Z.div_add_l. lia. }
  assert (Hbound : Z.pos m1 <= m' <= Z.pos m1 + 2 ^ (- e1) - 1).
  { pose proof (Z.div_mod u 2 ltac:(lia)) as Hdm.
    pose proof (Z.mod_pos_bound u 2 ltac:(lia)) as Hmb.
    rewrite Hcut, Htu in Hm', Hodd.
    destruct Hm' as [Hm'|Hm']; [lia|].
    pose proof (Hodd Hm'). lia. }
  clear Hm' Hodd Hup.
  destruct Hres as [(-> & Hm & _)|(_ & _ & Hmax)]; [|lia].
  replace (eq + k) with e1 by (unfold k; lia).
  unfold int_of_float64. destruct e1 as [|q|q] eqn:Ee1; [lia|lia|].
  change (- Z.neg q) with (Z.pos q) in *.
  f_equal. rewrite Hm.
  symmetry. apply Z.div_unique_pos with (r := m' - Z.pos ps * 2 ^ Z.pos q); lia.
Qed.

(** [Seconds] of a duration of magnitude [x] below 2^24 seconds, with the
    sign [sx]: the fraction of a second is cut off. *)
Lemma Seconds_signed (sx : bool) (x : Z) :
  0 <= x < 2 ^ 24 * Second ->
  int_of_float64 (Seconds (cond_Zopp sx x)) = cond_Zopp sx (Z.quot x Second).
Proof.
  intros Hx. unfold Seconds.
  assert (HS : 0 < Second) by reflexivity.
  assert (Hq : Z.quot (cond_Zopp sx x) Second = cond_Zopp sx (Z.quot x Second)).
  { destruct sx; cbn [cond_Zopp]; [apply Z.quot_opp_l; discriminate | reflexivity]. }
  assert (Hr : Z.rem (cond_Zopp sx x) Second = cond_Zopp sx (Z.rem x Second)).
  { destruct sx; cbn [cond_Zopp]; [apply Z.rem_opp_l; discriminate | reflexivity]. }
  rewrite Hq, Hr.
  pose proof (Z.rem_bound_pos x Second ltac:(lia) HS) as Hrem.
  pose proof (Z.quot_pos x Second ltac:(lia) HS) as Hquot.
  assert (Hqlt : Z.quot x Second < 2 ^ 24).
  { apply Z.quot_lt_upper_bound; lia. }
  remember (Z.quot x Second) as a eqn:Ea. remember (Z.rem x Second) as b eqn:Eb.
  clear Ea Eb Hq Hr. unfold Second in Hrem.
  destruct a as [|pa|pa]; [| |lia]; destruct b as [|pb|pb]; try lia.
  - destruct sx; reflexivity.
  - replace (float64_of_int (cond_Zopp sx 0)) with (S754_zero false) by now destruct sx.
    replace (float64_of_int (cond_Zopp sx (Z.pos pb))) with (binary_round prec emax sx pb 0)
      by now destruct sx.
    rewrite Seconds_fraction by lia. now destruct sx.
  - replace (float64_of_int (cond_Zopp sx 0)) with (S754_zero false) by now destruct sx.
    replace (float64_of_int (cond_Zopp sx (Z.pos pa))) with (binary_round prec emax sx pa 0)
      by now destruct sx.
    change (SFdiv prec emax (S754_zero false) (float64_of_int 1000000000))
      with (S754_zero false).
    destruct (binary_round_int sx pa) as (m & e & -> & He & Hm & _).
    { assert (2 ^ 24 < 2 ^ 53) by reflexivity. lia. }
    cbn [SFadd]. apply int_of_float64_exact; [lia | exact Hm].
  - replace (float64_of_int (cond_Zopp sx (Z.pos pa))) with (binary_round prec emax sx pa 0)
      by now destruct sx.
    replace (float64_of_int (cond_Zopp sx (Z.pos pb))) with (binary_round prec emax sx pb 0)
      by now destruct sx.
    apply Seconds_sum; lia.
Qed.

(** Below 2^24 seconds, [int(d.Seconds())] is [d / Second], the division of
    Go, which truncates toward zero. *)
Lemma Seconds_truncates (d : Duration) :
  - (2 ^ 24 * Second) < d < 2 ^ 24 * Second ->
  int_of_float64 (Seconds d) = Z.quot d Second.
Proof.
  intros Hd. destruct (Z.ltb_spec d 0) as [Hneg|Hpos].
  - pose proof (Seconds_signed true (- d) ltac:(lia)) as H.
    cbn [cond_Zopp] in H. rewrite Z.opp_involutive in H. rewrite H.
    rewrite Z.quot_opp_l by discriminate. lia.
  - exact (Seconds_signed false d ltac:(lia)).
Qed.

End FloatFacts.

(** ** The TTL *)

Section TTL.
Import FloatFacts.

Lemma wrapInt64_small (z : Z) : GoInt.inInt64 z -> GoInt.wrapInt64 z = z.
Proof.
  unfold GoInt.inInt64, GoInt.minInt64, GoInt.maxInt64, GoInt.wrapInt64. intros H.
  rewrite Z.mod_small; [lia|].
  assert (2 ^ 64 = 2 * 2 ^ 63) by reflexivity. lia.
Qed.

Lemma libdnsRecordToDnsRecord_TTL (record : libdns.record) (domain ownDomain : string) :
  DNSRecord.TTL (fst (libdnsRecordToDnsRecord record domain ownDomain))
  = GoFloat.int_of_float64 (time.Seconds (libdns.TTL record)).
Proof.
  unfold libdnsRecordToDnsRecord.
  repeat (destruct (String.eqb (libdns.Type_ record) _); [reflexivity|]).
  reflexivity.
Qed.

Lemma dnsRecordToLibdnsRecord_TTL (dnsRecord : DNSRecord.t) (domain : string) :
  libdns.TTL (dnsRecordToLibdnsRecord dnsRecord domain)
  = GoInt.wrapInt64 (DNSRecord.TTL dnsRecord * time.Second).
Proof.
  unfold dnsRecordToLibdnsRecord.
  repeat (destruct (String.eqb (DNSRecord.Type_ dnsRecord) _); [reflexivity|]).
  reflexivity.
Qed.

Lemma roundTrip_TTL (r : libdns.record) (domain ownDomain : string) :
  libdns.TTL (roundTrip r domain ownDomain)
  = GoInt.wrapInt64 (GoFloat.int_of_float64 (time.Seconds (libdns.TTL r)) * time.Second).
Proof.
  unfold roundTrip. rewrite dnsRecordToLibdnsRecord_TTL. unfold providerEcho.
  cbn [DNSRecord.TTL DNSRecord.set_Hostname]. now rewrite libdnsRecordToDnsRecord_TTL.
Qed.

(** A whole number of seconds comes back as it was. *)
Lemma roundTrip_TTL_whole (r : libdns.record) (domain ownDomain : string) :
  GoInt.inInt64 (libdns.TTL r) -> Z.rem (libdns.TTL r) time.Second = 0 ->
  GoFloat.int_of_float64 (time.Seconds (libdns.TTL r)) = Z.quot (libdns.TTL r) time.Second
  /\ libdns.TTL (roundTrip r domain ownDomain) = libdns.TTL r.
Proof.
  intros Hin Hrem.
  pose proof (Z.quot_rem' (libdns.TTL r) time.Second) as Hqr. rewrite Hrem in Hqr.
  assert (Hsec : - 2 ^ 53 < Z.quot (libdns.TTL r) time.Second < 2 ^ 53).
  { unfold GoInt.inInt64, GoInt.minInt64, GoInt.maxInt64, time.Second in *.
    assert (2 ^ 63 < 2 ^ 53 * 1000000000) by reflexivity. lia. }
  assert (Hint : GoFloat.int_of_float64 (time.Seconds (libdns.TTL r))
                 = Z.quot (libdns.TTL r) time.Second).
  { rewrite Hqr at 1. rewrite Z.add_0_r, Z.mul_comm. now apply Seconds_whole. }
  split; [exact Hint|].
  rewrite roundTrip_TTL, Hint.
  replace (Z.quot (libdns.TTL r) time.Second * time.Second) with (libdns.TTL r) by lia.
  now apply wrapInt64_small.
Qed.

(** C10, as stated, fails: [int(TTL.Seconds())] goes through [float64],
    and from 2^24 seconds on the sum of the seconds and the fraction can
    round up to the next second. *)
Lemma ttl_rounded_up :
  DNSRecord.TTL
    (fst (libdnsRecordToDnsRecord
            (libdns.mkRecord "" "A" "www" "192.0.2.1" 16777216999999999 0)
            "example.com" "example.com")) = 16777217
  /\ Z.quot 16777216999999999 time.Second = 16777216.
Proof. split; reflexivity. Qed.

(** C10 (amended): [libdnsRecordToDnsRecord] sets the TTL to
    [int(TTL.Seconds())]. For a duration shorter than 2^24 seconds that is
    the duration in whole seconds, truncated toward zero, so that the TTL
    comes back the same exactly when it is a whole number of seconds; for
    a whole number of seconds, of any size, it is that number and the TTL
    comes back the same. [dnsRecordToLibdnsRecord] multiplies the
    provider's seconds by [time.Second], in [int64]. *)
Theorem ttl_whole_seconds (record whole : libdns.record) (dnsRecord : DNSRecord.t)
    (domain ownDomain : string) :
  - (2 ^ 24 * time.Second) < libdns.TTL record < 2 ^ 24 * time.Second ->
  GoInt.inInt64 (libdns.TTL whole) ->
  Z.rem (libdns.TTL whole) time.Second = 0 ->
  DNSRecord.TTL (fst (libdnsRecordToDnsRecord record domain ownDomain))
  = Z.quot (libdns.TTL record) time.Second
  /\ (libdns.TTL (roundTrip record domain ownDomain) = libdns.TTL record
      <-> Z.rem (libdns.TTL record) time.Second = 0)
  /\ DNSRecord.TTL (fst (libdnsRecordToDnsRecord whole domain ownDomain))
     = Z.quot (libdns.TTL whole) time.Second
  /\ libdns.TTL (roundTrip whole domain ownDomain) = libdns.TTL whole
  /\ libdns.TTL (dnsRecordToLibdnsRecord dnsRecord domain)
     = GoInt.wrapInt64 (DNSRecord.TTL dnsRecord * time.Second).
Proof.
  intros Hshort Hin Hrem.
  pose proof (Seconds_truncates (libdns.TTL record) Hshort) as Htrunc.
  destruct (roundTrip_TTL_whole whole domain ownDomain Hin Hrem) as [Hw1 Hw2].
  split; [now rewrite libdnsRecordToDnsRecord_TTL|].
  split; [|split; [now rewrite libdnsRecordToDnsRecord_TTL|
                   split; [exact Hw2 | apply dnsRecordToLibdnsRecord_TTL]]].
  rewrite roundTrip_TTL, Htrunc.
  pose proof (Z.quot_rem' (libdns.TTL record) time.Second) as Hqr.
  assert (Hsmall : GoInt.inInt64 (Z.quot (libdns.TTL record) time.Second * time.Second)).
  { assert (HS : 0 < time.Second) by reflexivity.
    assert (Hq : - 2 ^ 24 < Z.quot (libdns.TTL record) time.Second < 2 ^ 24).
    { split.
      - destruct (Z.ltb_spec (libdns.TTL record) 0) as [Hneg|Hpos].
        + assert (Z.quot (- libdns.TTL record) time.Second < 2 ^ 24)
            by (apply Z.quot_lt_upper_bound; lia).
          rewrite Z.quot_opp_l in * by discriminate. lia.
        + pose proof (Z.quot_pos (libdns.TTL record) time.Second Hpos HS). lia.
      - destruct (Z.ltb_spec (libdns.TTL record) 0) as [Hneg|Hpos].
        + pose proof (Z.quot_pos (- libdns.TTL record) time.Second ltac:(lia) HS) as H.
          rewrite Z.quot_opp_l in H by discriminate. lia.
        + apply Z.quot_lt_upper_bound; lia. }
    unfold GoInt.inInt64, GoInt.minInt64, GoInt.maxInt64, time.Second in *.
    assert (2 ^ 24 * 1000000000 < 2 ^ 63) by reflexivity. lia. }
  rewrite wrapInt64_small by exact Hsmall. lia.
Qed.

Lemma ttl_whole_seconds_witness :
  DNSRecord.TTL
    (fst (libdnsRecordToDnsRecord (libdns.mkRecord "" "A" "www" "192.0.2.1" 1500000000 0)
            "example.com" "example.com")) = 1
  /\ libdns.TTL
       (roundTrip (libdns.mkRecord "" "A" "www" "192.0.2.1" (120 * time.Second) 0)
          "example.com" "example.com") = 120 * time.Second.
Proof.
  destruct (ttl_whole_seconds
              (libdns.mkRecord "" "A" "www" "192.0.2.1" 1500000000 0)
              (libdns.mkRecord "" "A" "www" "192.0.2.1" (120 * time.Second) 0)
              DNSRecord.zero "example.com" "example.com")
    as (H1 & _ & _ & H4 & _).
  - split; reflexivity.
  - split; discriminate.
  - reflexivity.
  - split; [exact H1 | exact H4].
Defined.

End TTL.

(** ** The round trip *)

Section RoundTrip.
Import strings StringFacts NameFacts.

#[local] Arguments libdns.RelativeName : simpl never.
#[local] Arguments libdns.AbsoluteName : simpl never.
#[local] Arguments append : simpl never.
#[local] Arguments fmt.Sscan : simpl never.
#[local] Arguments fmt.Sprint : simpl never.
#[local] Arguments time.Seconds : simpl never.
#[local] Arguments GoFloat.int_of_float64 : simpl never.
#[local] Arguments GoInt.wrapInt64 : simpl never.
#[local] Arguments GoInt.wrapUint64 : simpl never.
#[local] Arguments Z.mul : simpl never.

(** The provider puts back together a name under its domain. *)
Lemma echo_hostname (name ownDomain : string) :
  ownDomain <> "" -> endsWithDot ownDomain = false -> underDomain name ownDomain ->
  (if (libdns.RelativeName name ownDomain =? "")%string then ownDomain
   else libdns.RelativeName name ownDomain ++ "." ++ ownDomain) = name.
Proof.
  intros Hne Hdot [->|(a & Ha & ->)].
  - now rewrite RelativeName_self.
  - rewrite RelativeName_under by assumption.
    apply String.eqb_neq in Ha. now rewrite Ha.
Qed.

(** A relative name, made absolute in the zone and relative to it again. *)
Lemma relative_absolute (name domain : string) :
  domain <> "" -> endsWithDot domain = false ->
  name <> "" -> endsWithDot name = false ->
  (let r := libdns.RelativeName
              (libdns.AbsoluteName (if (name =? "@")%string then "" else name) domain)
              domain in
   if (r =? "")%string then "@" else r) = name.
Proof.
  intros Hd Hddot Hn Hndot. cbv zeta.
  destruct (String.eqb_spec name "@") as [->|Hat].
  - now rewrite AbsoluteName_nil, RelativeName_self.
  - rewrite AbsoluteName_plain, RelativeName_under by assumption.
    apply String.eqb_neq in Hn. now rewrite Hn.
Qed.

Lemma knownType_cases (ty : string) :
  knownType ty = true ->
  ty = "A" \/ ty = "AAAA" \/ ty = "CNAME" \/ ty = "MX" \/ ty = "NS" \/ ty = "PTR"
  \/ ty = "SPF" \/ ty = "TXT".
Proof.
  unfold knownType, knownTypes. cbn [existsb]. intros H.
  repeat (apply orb_prop in H as [H|H]; [apply String.eqb_eq in H; tauto|]).
  discriminate.
Qed.

(** C2, as stated, fails: a fraction of a second is lost, and a name of
    the zone that is not below the owning domain comes back as another
    name. *)
Lemma round_trip_lost :
  libdns.TTL
    (roundTrip (libdns.mkRecord "" "A" "www" "192.0.2.1" 1500000000 0)
       "example.com" "example.com") = 1000000000
  /\ libdns.Name
       (roundTrip (libdns.mkRecord "" "A" "sub" "192.0.2.1" 0 0)
          "example.com" "my.example.com") = "sub.example.com.my"
  /\ libdns.Value
       (roundTrip (libdns.mkRecord "" "PTR" "1.2.0.192.in-addr.arpa" "host.example.org" 0 0)
          "example.com" "example.com") = "host.example.org.example.com".
Proof. repeat split. Qed.

(** C2 (amended): for a record of one of the eight known types whose TTL is
    a whole number of seconds, a zone domain and an owning domain that are
    not empty and do not end with a dot, the round trip gives back the
    name, the type, the value and the TTL, provided that: for PTR, the
    value is the owning domain or a name below it; for any other type, the
    name is not empty, does not end with a dot, and its absolute name in
    the zone is the owning domain or a name below it. *)
Theorem round_trip (r : libdns.record) (domain ownDomain : string) :
  knownType (libdns.Type_ r) = true ->
  domain <> "" -> endsWithDot domain = false ->
  ownDomain <> "" -> endsWithDot ownDomain = false ->
  GoInt.inInt64 (libdns.TTL r) -> Z.rem (libdns.TTL r) time.Second = 0 ->
  (if (libdns.Type_ r =? "PTR")%string then underDomain (libdns.Value r) ownDomain
   else libdns.Name r <> "" /\ endsWithDot (libdns.Name r) = false
        /\ underDomain
             (libdns.AbsoluteName
                (if (libdns.Name r =? "@")%string then "" else libdns.Name r) domain)
             ownDomain) ->
  let back := roundTrip r domain ownDomain in
  libdns.Name back = libdns.Name r /\ libdns.Type_ back = libdns.Type_ r
  /\ libdns.Value back = libdns.Value r /\ libdns.TTL back = libdns.TTL r.
Proof.
  intros Hty Hd Hddot Ho Hodot Hin Hrem Hname back.
  destruct (roundTrip_TTL_whole r domain ownDomain Hin Hrem) as [_ Httl].
  split; [|split; [|split; [|exact Httl]]]; clear Httl Hin Hrem;
    unfold back, roundTrip, libdnsRecordToDnsRecord, dnsRecordToLibdnsRecord, providerEcho;
    destruct r as [id ty name value ttl prio]; cbn [libdns.Type_ libdns.Name libdns.Value] in *;
    apply knownType_cases in Hty;
    destruct Hty as [->|[->|[->|[->|[->|[->|[->| ->]]]]]]];
    simpl in *;
    try reflexivity;
    try (destruct Hname as (Hn & Hndot & Hunder);
         rewrite (echo_hostname _ ownDomain Ho Hodot Hunder);
         exact (relative_absolute name domain Hd Hddot Hn Hndot));
    try exact (echo_hostname _ ownDomain Ho Hodot Hname).
Qed.

Lemma round_trip_witness :
  let r := libdns.mkRecord "123" "A" "abc.my" "1.2.3.4" (120 * time.Second) 0 in
  libdns.Name (roundTrip r "dynu.com" "my.dynu.com") = "abc.my"
  /\ libdns.Type_ (roundTrip r "dynu.com" "my.dynu.com") = "A"
  /\ libdns.Value (roundTrip r "dynu.com" "my.dynu.com") = "1.2.3.4"
  /\ libdns.TTL (roundTrip r "dynu.com" "my.dynu.com") = 120 * time.Second.
Proof.
  intros r. apply (round_trip r "dynu.com" "my.dynu.com").
  - reflexivity.
  - discriminate.
  - reflexivity.
  - discriminate.
  - reflexivity.
  - split; discriminate.
  - reflexivity.
  - split; [discriminate | split; [reflexivity|]].
    right. exists "abc". split; [discriminate | reflexivity].
Defined.

End RoundTrip.

(** * Further properties *)

(** ** The translators: round trips and ranges *)

Section Translators.
Import FloatFacts.

Lemma dnsRecordToLibdnsRecord_ID (dnsRecord : DNSRecord.t) (domain : string) :
  libdns.ID (dnsRecordToLibdnsRecord dnsRecord domain) = fmt.Sprint (DNSRecord.ID dnsRecord).
Proof.
  unfold dnsRecordToLibdnsRecord.
  repeat (destruct (String.eqb (DNSRecord.Type_ dnsRecord) _); [reflexivity|]).
  reflexivity.
Qed.

Lemma wrapInt64_wrapUint64 (z : Z) :
  GoInt.inInt64 z -> GoInt.wrapInt64 (GoInt.wrapUint64 z) = z.
Proof.
  unfold GoInt.inInt64, GoInt.minInt64, GoInt.maxInt64, GoInt.wrapInt64, GoInt.wrapUint64.
  intros H. assert (E : 2 ^ 64 = 2 * 2 ^ 63) by reflexivity.
  rewrite Zplus_mod_idemp_l. rewrite Z.mod_small; lia.
Qed.

Lemma wrapUint64_wrapInt64 (u : Z) :
  0 <= u <= GoInt.maxUint64 -> GoInt.wrapUint64 (GoInt.wrapInt64 u) = u.
Proof.
  unfold GoInt.maxUint64, GoInt.wrapInt64, GoInt.wrapUint64.
  intros H. assert (E : 2 ^ 64 = 2 * 2 ^ 63) by reflexivity.
  rewrite Zminus_mod_idemp_l.
  replace (u + 2 ^ 63 - 2 ^ 63) with u by lia. apply Z.mod_small. lia.
Qed.

Lemma formatBits_nonempty (fuel : nat) (u : Z) (acc : string) :
  acc <> "" \/ (0 < fuel)%nat -> strconv.formatBits fuel u acc <> "".
Proof.
  revert u acc. induction fuel as [|fuel IH]; intros u acc H; simpl.
  - destruct H; [assumption | lia].
  - destruct (10 <=? u); [|discriminate]. apply IH. left. discriminate.
Qed.

Lemma Sprint_nonempty (i : Z) : (fmt.Sprint i =? "")%string = false.
Proof.
  apply String.eqb_neq. unfold fmt.Sprint, strconv.FormatInt.
  destruct (i <? 0); [discriminate|]. apply formatBits_nonempty. right. lia.
Qed.

Ltac by_type ty :=
  repeat (destruct (String.eqb ty _); [reflexivity|]); reflexivity.

Lemma libdnsRecordToDnsRecord_Type (record : libdns.record) (domain ownDomain : string) :
  DNSRecord.Type_ (fst (libdnsRecordToDnsRecord record domain ownDomain))
  = libdns.Type_ record.
Proof. unfold libdnsRecordToDnsRecord. by_type (libdns.Type_ record). Qed.

Lemma dnsRecordToLibdnsRecord_Type (dnsRecord : DNSRecord.t) (domain : string) :
  libdns.Type_ (dnsRecordToLibdnsRecord dnsRecord domain) = DNSRecord.Type_ dnsRecord.
Proof. unfold dnsRecordToLibdnsRecord. by_type (DNSRecord.Type_ dnsRecord). Qed.

Lemma libdnsRecordToDnsRecord_State (record : libdns.record) (domain ownDomain : string) :
  DNSRecord.State (fst (libdnsRecordToDnsRecord record domain ownDomain)) = true.
Proof. unfold libdnsRecordToDnsRecord. by_type (libdns.Type_ record). Qed.

Lemma libdnsRecordToDnsRecord_Priority (record : libdns.record) (domain ownDomain : string) :
  DNSRecord.Priority (fst (libdnsRecordToDnsRecord record domain ownDomain))
  = (if (libdns.Type_ record =? "MX")%string
     then GoInt.wrapInt64 (libdns.Priority record) else 0).
Proof.
  unfold libdnsRecordToDnsRecord.
  destruct (libdns.Type_ record =? "MX")%string eqn:E.
  - apply String.eqb_eq in E. rewrite E. reflexivity.
  - clear E. by_type (libdns.Type_ record).
Qed.

Lemma dnsRecordToLibdnsRecord_Priority (dnsRecord : DNSRecord.t) (domain : string) :
  libdns.Priority (dnsRecordToLibdnsRecord dnsRecord domain)
  = (if (DNSRecord.Type_ dnsRecord =? "MX")%string
     then GoInt.wrapUint64 (DNSRecord.Priority dnsRecord) else 0).
Proof.
  unfold dnsRecordToLibdnsRecord.
  destruct (DNSRecord.Type_ dnsRecord =? "MX")%string eqn:E.
  - apply String.eqb_eq in E. rewrite E. reflexivity.
  - clear E. by_type (DNSRecord.Type_ dnsRecord).
Qed.

(** What [libdnsRecordToDnsRecord] puts in the field of the type. *)
Lemma libdnsRecordToDnsRecord_typedField (record : libdns.record)
    (domain ownDomain : string) :
  typedField (fst (libdnsRecordToDnsRecord record domain ownDomain))
  = (if (libdns.Type_ record =? "PTR")%string then libdns.Name record
     else if knownType (libdns.Type_ record) then libdns.Value record
     else "").
Proof.
  unfold typedField. rewrite libdnsRecordToDnsRecord_Type.
  unfold libdnsRecordToDnsRecord, knownType, knownTypes. cbn [existsb].
  repeat (match goal with
          | |- context [(libdns.Type_ record =? ?s)%string] =>
              let E := fresh "E" in
              destruct (libdns.Type_ record =? s)%string eqn:E;
              [apply String.eqb_eq in E; rewrite E; reflexivity|]
          end).
  reflexivity.
Qed.

(** What [dnsRecordToLibdnsRecord] reads from the field of the type. *)
Lemma dnsRecordToLibdnsRecord_typedField (dnsRecord : DNSRecord.t) (domain : string) :
  typedField dnsRecord
  = (if (DNSRecord.Type_ dnsRecord =? "PTR")%string
     then libdns.Name (dnsRecordToLibdnsRecord dnsRecord domain)
     else if knownType (DNSRecord.Type_ dnsRecord)
     then libdns.Value (dnsRecordToLibdnsRecord dnsRecord domain)
     else "").
Proof.
  unfold typedField, dnsRecordToLibdnsRecord, knownType, knownTypes. cbn [existsb].
  repeat (match goal with
          | |- context [(DNSRecord.Type_ dnsRecord =? ?s)%string] =>
              let E := fresh "E" in
              destruct (DNSRecord.Type_ dnsRecord =? s)%string eqn:E;
              [apply String.eqb_eq in E; rewrite E; reflexivity|]
          end).
  reflexivity.
Qed.






End Translators.

Section TranslatorTheorems.
Import FloatFacts.

#[local] Arguments libdns.RelativeName : simpl never.
#[local] Arguments libdns.AbsoluteName : simpl never.
#[local] Arguments fmt.Sscan : simpl never.
#[local] Arguments fmt.Sprint : simpl never.
#[local] Arguments time.Seconds : simpl never.
#[local] Arguments GoFloat.int_of_float64 : simpl never.
#[local] Arguments GoInt.wrapInt64 : simpl never.
#[local] Arguments GoInt.wrapUint64 : simpl never.
#[local] Arguments Z.mul : simpl never.

(** X1: A record of the provider, translated and translated back, has the
    identifier, the type, the TTL and the field of its type it had, and
    for MX the priority; [State] is set. *)
Theorem provider_round_trip (d : DNSRecord.t) (domain ownDomain : string) :
  GoInt.inInt64 (DNSRecord.ID d) ->
  GoInt.inInt64 (DNSRecord.TTL d * time.Second) ->
  GoInt.inInt64 (DNSRecord.Priority d) ->
  let back := fst (libdnsRecordToDnsRecord (dnsRecordToLibdnsRecord d domain)
                     domain ownDomain) in
  DNSRecord.ID back = DNSRecord.ID d
  /\ DNSRecord.Type_ back = DNSRecord.Type_ d
  /\ DNSRecord.TTL back = DNSRecord.TTL d
  /\ typedField back = typedField d
  /\ DNSRecord.Priority back
     = (if (DNSRecord.Type_ d =? "MX")%string then DNSRecord.Priority d else 0)
  /\ DNSRecord.State back = true.
Proof.
  intros Hid Httl Hprio back.
  assert (Hsec : GoFloat.int_of_float64
                   (time.Seconds (GoInt.wrapInt64 (DNSRecord.TTL d * time.Second)))
                 = DNSRecord.TTL d).
  { rewrite wrapInt64_small by exact Httl. apply Seconds_whole.
    unfold GoInt.inInt64, GoInt.minInt64, GoInt.maxInt64, time.Second in Httl.
    assert (2 ^ 63 < 2 ^ 53 * 1000000000) by reflexivity. lia. }
  assert (Hscan : fmt.Sscan (fmt.Sprint (DNSRecord.ID d)) 0 = DNSRecord.ID d)
    by now apply ScanFacts.Sscan_Sprint.
  assert (Hp : GoInt.wrapInt64 (GoInt.wrapUint64 (DNSRecord.Priority d))
               = DNSRecord.Priority d) by now apply wrapInt64_wrapUint64.
  subst back.
  split; [now rewrite libdnsRecordToDnsRecord_ID, dnsRecordToLibdnsRecord_ID|].
  split; [now rewrite libdnsRecordToDnsRecord_Type, dnsRecordToLibdnsRecord_Type|].
  split; [now rewrite libdnsRecordToDnsRecord_TTL, dnsRecordToLibdnsRecord_TTL|].
  split.
  { rewrite libdnsRecordToDnsRecord_typedField, dnsRecordToLibdnsRecord_Type.
    symmetry. apply dnsRecordToLibdnsRecord_typedField. }
  split; [|apply libdnsRecordToDnsRecord_State].
  rewrite libdnsRecordToDnsRecord_Priority, dnsRecordToLibdnsRecord_Type,
    dnsRecordToLibdnsRecord_Priority.
  destruct (DNSRecord.Type_ d =? "MX")%string; [exact Hp | reflexivity].
Qed.

(** X2: The priority is carried for MX only, as an [int] at the provider and
    as a [uint] in the normalized record; it comes back the same for every
    [uint], and for another type it is dropped. *)
Theorem priority_only_for_MX (record : libdns.record) (dnsRecord : DNSRecord.t)
    (domain ownDomain : string) :
  0 <= libdns.Priority record <= GoInt.maxUint64 ->
  DNSRecord.Priority (fst (libdnsRecordToDnsRecord record domain ownDomain))
    = (if (libdns.Type_ record =? "MX")%string
       then GoInt.wrapInt64 (libdns.Priority record) else 0)
  /\ libdns.Priority (dnsRecordToLibdnsRecord dnsRecord domain)
      = (if (DNSRecord.Type_ dnsRecord =? "MX")%string
         then GoInt.wrapUint64 (DNSRecord.Priority dnsRecord) else 0)
  /\ libdns.Priority (roundTrip record domain ownDomain)
      = (if (libdns.Type_ record =? "MX")%string then libdns.Priority record else 0).
Proof.
  intros Hp.
  split; [apply libdnsRecordToDnsRecord_Priority|].
  split; [apply dnsRecordToLibdnsRecord_Priority|].
  unfold roundTrip. rewrite dnsRecordToLibdnsRecord_Priority.
  unfold providerEcho. cbn [DNSRecord.set_Hostname DNSRecord.Type_ DNSRecord.Priority].
  rewrite libdnsRecordToDnsRecord_Type, libdnsRecordToDnsRecord_Priority.
  destruct (libdns.Type_ record =? "MX")%string; [|reflexivity].
  now apply wrapUint64_wrapInt64.
Qed.

(** X3: [dnsRecordToLibdnsRecord] never returns an empty identifier, and an
    empty name only for a PTR record whose [Host] is empty. *)
Theorem normalized_never_empty (dnsRecord : DNSRecord.t) (domain : string) :
  let rec := dnsRecordToLibdnsRecord dnsRecord domain in
  (libdns.ID rec =? "")%string = false
  /\ (libdns.Name rec =? "")%string
      = (DNSRecord.Type_ dnsRecord =? "PTR")%string
        && (DNSRecord.Host dnsRecord =? "")%string.
Proof.
  intros rec. subst rec. split.
  - rewrite dnsRecordToLibdnsRecord_ID. apply Sprint_nonempty.
  - unfold dnsRecordToLibdnsRecord.
    assert (Hrel : ((if (libdns.RelativeName (DNSRecord.Hostname dnsRecord) domain =? "")%string
                     then "@"
                     else libdns.RelativeName (DNSRecord.Hostname dnsRecord) domain) =? "")%string
                   = false).
    { destruct (libdns.RelativeName (DNSRecord.Hostname dnsRecord) domain =? "")%string eqn:E;
        [reflexivity | exact E]. }
    destruct (DNSRecord.Type_ dnsRecord =? "PTR")%string eqn:EPTR.
    + apply String.eqb_eq in EPTR. rewrite EPTR. reflexivity.
    + repeat (match goal with
              | |- context [(DNSRecord.Type_ dnsRecord =? ?s)%string] =>
                  destruct (DNSRecord.Type_ dnsRecord =? s)%string
              end);
        cbn [libdns.Name andb]; exact Hrel.
Qed.


End TranslatorTheorems.

Lemma provider_round_trip_witness :
  let back := fst (libdnsRecordToDnsRecord
                     (dnsRecordToLibdnsRecord Tests.getBasicDnsRecord Tests.domain)
                     Tests.domain Tests.ownDomain) in
  DNSRecord.ID back = 123 /\ DNSRecord.Type_ back = "A" /\ DNSRecord.TTL back = 120
  /\ typedField back = "" /\ DNSRecord.Priority back = 0 /\ DNSRecord.State back = true.
Proof.
  apply (provider_round_trip Tests.getBasicDnsRecord Tests.domain Tests.ownDomain);
    split; discriminate.
Defined.

Lemma priority_only_for_MX_witness :
  DNSRecord.Priority
    (fst (libdnsRecordToDnsRecord
            (libdns.mkRecord "" "MX" "@" "mail.example.com" 0 18446744073709551615)
            "example.com" "example.com")) = -1
  /\ libdns.Priority
       (dnsRecordToLibdnsRecord
          (DNSRecord.mk 5 "MX" 0 "" "" "example.com" true "" "" "" "mail.example.com" ""
             300 (-1) 200) "example.com") = 18446744073709551615
  /\ libdns.Priority
       (roundTrip (libdns.mkRecord "" "MX" "@" "mail.example.com" 0 18446744073709551615)
          "example.com" "example.com") = 18446744073709551615.
Proof.
  apply (priority_only_for_MX
           (libdns.mkRecord "" "MX" "@" "mail.example.com" 0 18446744073709551615)
           (DNSRecord.mk 5 "MX" 0 "" "" "example.com" true "" "" "" "mail.example.com" ""
              300 (-1) 200) "example.com" "example.com").
  split; discriminate.
Defined.

(** ** The facade: requests and results *)

Section Facade.
Import strings StringFacts.

Context {World Raw : Type}.
Variable T : Transport World Raw.
Variable p : Provider.t.

Lemma dots_app (m n : nat) : dots m ++ dots n = dots (m + n).
Proof. induction m as [|m IH]; simpl; [reflexivity | now rewrite IH]. Qed.

Lemma zoneToFqdn_dots (zone : string) (n : nat) :
  zoneToFqdn (zone ++ dots n) = zoneToFqdn zone.
Proof.
  unfold zoneToFqdn. destruct (TrimRight_dots zone) as [m Hm].
  rewrite Hm at 1. rewrite append_assoc, dots_app.
  apply TrimRight_append_dots, TrimRight_last.
Qed.

Lemma appendOrSetLoop_exact (domain : string) (hostnameId : Z) (ignoreRecordId : bool)
    (records updated : list libdns.record) (errs : list error)
    (w : World) (log : list Request) :
  logOf (Provider.appendOrSetLoop (logged T) p domain hostnameId ignoreRecordId
           records updated errs (w, log))
  = (log ++ map (postRequest p domain hostnameId ignoreRecordId) (translatable records))%list.
Proof.
  revert updated errs w log.
  induction records as [|rec rest IH]; intros updated errs w log.
  - simpl. now rewrite app_nil_r.
  - cbn [Provider.appendOrSetLoop translatable filter]. fold (translatable rest).
    pose proof (libdnsRecordToDnsRecord_error rec domain (Provider.OwnDomain p)) as Herr.
    destruct (libdnsRecordToDnsRecord rec domain (Provider.OwnDomain p)) as [d o] eqn:E.
    cbn [snd] in Herr. destruct (knownType (libdns.Type_ rec)); subst o.
    + unfold bind.
      destruct (AddOrUpdateRecord_log T (Provider.APIToken p) hostnameId d ignoreRecordId w log)
        as (r & w1 & ->).
      assert (Hpost : postRequest p domain hostnameId ignoreRecordId rec
                      = mkRequest MethodPost (Client.urlPaths hostnameId d ignoreRecordId)
                          (Some d) (Provider.APIToken p)).
      { unfold postRequest. now rewrite E. }
      rewrite <- Hpost. cbn [map].
      destruct r as [err|resp]; rewrite IH; now rewrite <- app_assoc.
    + apply IH.
Qed.

Lemma deleteLoop_by_id (hostnameId : Z) (records : list libdns.record) :
  forall (records' deleted deleted' : list libdns.record) (errs : list error) (w : World),
    map libdns.ID records = map libdns.ID records' ->
    map libdns.ID deleted = map libdns.ID deleted' ->
    let r := Provider.deleteLoop T p hostnameId records deleted errs w in
    let r' := Provider.deleteLoop T p hostnameId records' deleted' errs w in
    snd r = snd r' /\ snd (fst r) = snd (fst r')
    /\ map libdns.ID (fst (fst r)) = map libdns.ID (fst (fst r')).
Proof.
  induction records as [|rec rest IH]; intros records' deleted deleted' errs w Hrec Hdel.
  - destruct records'; [|discriminate]. simpl. auto.
  - destruct records' as [|rec' rest']; [discriminate|].
    cbn [map] in Hrec. injection Hrec as Hid Hrest.
    cbn [Provider.deleteLoop]. unfold bind. rewrite <- Hid.
    destruct (Client.DeleteRecord T _ hostnameId (libdns.ID rec) w) as [[err|] w1].
    + now apply IH.
    + apply IH; [exact Hrest|]. rewrite !map_app. cbn [map]. now rewrite Hdel, Hid.
Qed.






End Facade.

Section FacadeTheorems.
Import strings StringFacts.

Context {World Raw : Type}.
Variable T : Transport World Raw.
Variable p : Provider.t.

(** X5: When root resolution fails, every operation returns its error and no
    records, and does nothing else. *)
Theorem root_failure_aborts (zone : string) (records : list libdns.record)
    (ignoreRecordId : bool) (w w1 : World) (err : error) :
  Client.GetRootDomain T (Provider.APIToken p) (Provider.OwnDomain p) w = (inl err, w1) ->
  Provider.GetRecords T p zone w = (([], Some err), w1)
  /\ Provider.appendOrSetRecords T p zone records ignoreRecordId w = (([], Some err), w1)
  /\ Provider.DeleteRecords T p zone records w = (([], Some err), w1).
Proof.
  intros H.
  unfold Provider.GetRecords, Provider.appendOrSetRecords, Provider.DeleteRecords, bind.
  rewrite H. repeat split.
Qed.

(** X6: [GetRecords] returns an error and no records, or, without an error,
    one record for each record of the provider, in the provider's order. *)
Theorem GetRecords_all_or_nothing (zone : string) (w : World) :
  (exists err, fst (Provider.GetRecords T p zone w) = ([], Some err))
  \/ (exists dnsHostName w1 dnsRecords w2,
         Client.GetRootDomain T (Provider.APIToken p) (Provider.OwnDomain p) w
           = (inr dnsHostName, w1)
         /\ Client.GetRecords T (Provider.APIToken p) (DNSHostname.ID dnsHostName) w1
           = (inr dnsRecords, w2)
         /\ Provider.GetRecords T p zone w
           = ((map (fun d => dnsRecordToLibdnsRecord d (zoneToFqdn zone)) dnsRecords, None),
              w2)).
Proof.
  unfold Provider.GetRecords, bind.
  destruct (Client.GetRootDomain T _ _ w) as [[err|h] w1]; [left; now exists err|].
  destruct (Client.GetRecords T _ _ w1) as [[err|ds] w2] eqn:E; [left; now exists err|].
  right. exists h, w1, ds, w2. repeat split. exact E.
Qed.


(** X8: Dots at the end of the zone change nothing. *)
Theorem zone_dots_ignored (zone : string) (n : nat) (records : list libdns.record)
    (ignoreRecordId : bool) (w : World) :
  Provider.GetRecords T p (zone ++ dots n) w = Provider.GetRecords T p zone w
  /\ Provider.appendOrSetRecords T p (zone ++ dots n) records ignoreRecordId w
     = Provider.appendOrSetRecords T p zone records ignoreRecordId w.
Proof.
  unfold Provider.GetRecords, Provider.appendOrSetRecords.
  now rewrite zoneToFqdn_dots.
Qed.

(** X9: [appendOrSetRecords] sends, after the request of root resolution, one
    request for each record of a known type, in the order of the batch, and
    none for a record of another type. *)
Theorem unknown_types_never_sent (zone : string) (records : list libdns.record)
    (ignoreRecordId : bool) (w : World) (dnsHostName : DNSHostname.t)
    (wl : World * list Request) :
  Client.GetRootDomain (logged T) (Provider.APIToken p) (Provider.OwnDomain p) (w, [])
    = (inr dnsHostName, wl) ->
  logOf (Provider.appendOrSetRecords (logged T) p zone records ignoreRecordId (w, []))
  = rootRequest p (Provider.OwnDomain p)
    :: map (postRequest p (zoneToFqdn zone) (DNSHostname.ID dnsHostName) ignoreRecordId)
         (translatable records).
Proof.
  intros Hroot.
  destruct (GetRootDomain_log T (Provider.APIToken p) (Provider.OwnDomain p) w [])
    as (r & w1 & Hlog).
  rewrite Hlog in Hroot. injection Hroot as -> <-.
  unfold Provider.appendOrSetRecords, bind. rewrite Hlog.
  pose proof (appendOrSetLoop_exact T p (zoneToFqdn zone) (DNSHostname.ID dnsHostName)
                ignoreRecordId records [] [] w1
                ([] ++ [mkRequest MethodGet ["dns"; "getroot"; Provider.OwnDomain p] None
                          (Provider.APIToken p)])) as E.
  unfold logOf in *.
  destruct (Provider.appendOrSetLoop _ _ _ _ _ _ _ _ _) as [out wl]. exact E.
Qed.

(** X10: [DeleteRecords] reads nothing but the identifiers of the records: with
    another zone and with records that have the same identifiers, it
    leaves the provider as it does with these, returns the same error and
    deletes the records at the same places of the batch. *)
Theorem DeleteRecords_by_id (zone zone' : string) (records records' : list libdns.record)
    (w : World) :
  map libdns.ID records = map libdns.ID records' ->
  let r := Provider.DeleteRecords T p zone records w in
  let r' := Provider.DeleteRecords T p zone' records' w in
  snd r = snd r' /\ snd (fst r) = snd (fst r')
  /\ map libdns.ID (fst (fst r)) = map libdns.ID (fst (fst r')).
Proof.
  intros Hid. unfold Provider.DeleteRecords, bind.
  destruct (Client.GetRootDomain T _ _ w) as [[err|h] w1]; [simpl; auto|].
  pose proof (deleteLoop_by_id T p (DNSHostname.ID h) records records' [] [] [] w1 Hid eq_refl)
    as H.
  cbv zeta in H.
  destruct (Provider.deleteLoop T p _ records [] [] w1) as [[del errs] w2].
  destruct (Provider.deleteLoop T p _ records' [] [] w1) as [[del' errs'] w2'].
  cbn [fst snd] in *. destruct H as (-> & -> & Hdel). unfold ret. cbn [fst snd]. auto.
Qed.

(** X11: [AppendRecords] sends every record to the collection of the domain,
    whatever its identifier: it never addresses a record that exists. *)
Theorem AppendRecords_posts_to_collection (zone : string) (records : list libdns.record)
    (w : World) (dnsHostName : DNSHostname.t) (wl : World * list Request) :
  Client.GetRootDomain (logged T) (Provider.APIToken p) (Provider.OwnDomain p) (w, [])
    = (inr dnsHostName, wl) ->
  exists rest,
    logOf (Provider.AppendRecords (logged T) p zone records (w, []))
    = rootRequest p (Provider.OwnDomain p) :: rest
    /\ List.length rest = List.length (translatable records)
    /\ Forall (fun req =>
                 method req = MethodPost
                 /\ path req = ["dns"; fmt.Sprint (DNSHostname.ID dnsHostName); "record"])
         rest.
Proof.
  intros Hroot.
  destruct (GetRootDomain_log T (Provider.APIToken p) (Provider.OwnDomain p) w [])
    as (r & w1 & Hlog).
  rewrite Hlog in Hroot. injection Hroot as -> <-.
  unfold Provider.AppendRecords, Provider.appendOrSetRecords, bind. rewrite Hlog.
  pose proof (appendOrSetLoop_exact T p (zoneToFqdn zone) (DNSHostname.ID dnsHostName)
                true records [] [] w1
                ([] ++ [mkRequest MethodGet ["dns"; "getroot"; Provider.OwnDomain p] None
                          (Provider.APIToken p)])) as E.
  eexists. split; [|split].
  - unfold logOf in *.
    destruct (Provider.appendOrSetLoop _ _ _ _ _ _ _ _ _) as [out wl]. exact E.
  - apply length_map.
  - apply Forall_forall. intros req Hreq. apply in_map_iff in Hreq as (rec & <- & _).
    unfold postRequest, Client.urlPaths. cbn [method path]. rewrite andb_false_r.
    split; reflexivity.
Qed.




End FacadeTheorems.

Lemma root_failure_aborts_witness :
  Provider.GetRecords (Mock.transport "example.com") (Provider.mk "token" "down")
    "example.com." []
  = (([], Some (TransportError "no route to host")),
     [mkRequest MethodGet ["dns"; "getroot"; "down"] None "token"])
  /\ Provider.appendOrSetRecords (Mock.transport "example.com") (Provider.mk "token" "down")
       "example.com." [Mock.recA] false []
     = (([], Some (TransportError "no route to host")),
        [mkRequest MethodGet ["dns"; "getroot"; "down"] None "token"])
  /\ Provider.DeleteRecords (Mock.transport "example.com") (Provider.mk "token" "down")
       "example.com." [Mock.recA] []
     = (([], Some (TransportError "no route to host")),
        [mkRequest MethodGet ["dns"; "getroot"; "down"] None "token"]).
Proof.
  apply (root_failure_aborts (Mock.transport "example.com") (Provider.mk "token" "down")
           "example.com." [Mock.recA] false []).
  reflexivity.
Defined.

Lemma unknown_types_never_sent_witness :
  logOf (Provider.appendOrSetRecords (logged (Mock.transport "example.com")) Mock.provider
           "example.com." [Mock.recA; Mock.recUnknown; Mock.recTxt] false ([], []))
  = [rootRequest Mock.provider "example.com";
     postRequest Mock.provider "example.com" 100 false Mock.recA;
     postRequest Mock.provider "example.com" 100 false Mock.recTxt].
Proof.
  apply (unknown_types_never_sent (Mock.transport "example.com") Mock.provider "example.com."
           [Mock.recA; Mock.recUnknown; Mock.recTxt] false []
           (DNSHostname.mk 200 100 "example.com" "example.com" "")
           ([mkRequest MethodGet ["dns"; "getroot"; "example.com"] None "token"],
            [mkRequest MethodGet ["dns"; "getroot"; "example.com"] None "token"])).
  reflexivity.
Defined.

Lemma DeleteRecords_by_id_witness :
  Provider.DeleteRecords (Mock.transport "example.com") Mock.provider "example.com."
    [Mock.recTxt] []
  = (([Mock.recTxt], None),
     [mkRequest MethodGet ["dns"; "getroot"; "example.com"] None "token";
      mkRequest MethodDelete ["dns"; "100"; "record"; "12"] None "token"])
  /\ snd (Provider.DeleteRecords (Mock.transport "example.com") Mock.provider "other.org"
            [libdns.mkRecord "12" "A" "x" "192.0.2.7" 0 0] [])
     = [mkRequest MethodGet ["dns"; "getroot"; "example.com"] None "token";
        mkRequest MethodDelete ["dns"; "100"; "record"; "12"] None "token"].
Proof.
  split; [reflexivity|].
  destruct (DeleteRecords_by_id (Mock.transport "example.com") Mock.provider
              "example.com." "other.org" [Mock.recTxt]
              [libdns.mkRecord "12" "A" "x" "192.0.2.7" 0 0] [] eq_refl) as (H & _).
  rewrite <- H. reflexivity.
Defined.

Lemma AppendRecords_posts_to_collection_witness :
  exists rest,
    logOf (Provider.AppendRecords (logged (Mock.transport "example.com")) Mock.provider
             "example.com." [Mock.recTxt] ([], []))
    = rootRequest Mock.provider "example.com" :: rest
    /\ List.length rest = 1%nat
    /\ Forall (fun req => method req = MethodPost /\ path req = ["dns"; "100"; "record"]) rest.
Proof.
  apply (AppendRecords_posts_to_collection (Mock.transport "example.com") Mock.provider
           "example.com." [Mock.recTxt] []
           (DNSHostname.mk 200 100 "example.com" "example.com" "")
           ([mkRequest MethodGet ["dns"; "getroot"; "example.com"] None "token"],
            [mkRequest MethodGet ["dns"; "getroot"; "example.com"] None "token"])).
  reflexivity.
Defined.


(** ** Paths and URLs *)

Module PathFacts.
Import pathpkg StringFacts.

Lemma string_of_list_ascii_app (a b : list ascii) :
  string_of_list_ascii (a ++ b) = string_of_list_ascii a ++ string_of_list_ascii b.
Proof. induction a as [|c a IH]; simpl; [reflexivity | now rewrite IH]. Qed.

Lemma bufString_cons (c : ascii) (out : lazybuf) :
  bufString (c :: out) = bufString out ++ String c "".
Proof. unfold bufString. simpl. now rewrite string_of_list_ascii_app. Qed.

Lemma atEnd_app (t suf : string) : atEnd suf = true -> atEnd (t ++ suf) = atEnd t.
Proof. destruct t; simpl; auto. Qed.

Lemma copyElement_length (rest : string) (out : lazybuf) :
  (String.length (fst (copyElement rest out)) <= String.length rest)%nat.
Proof.
  revert out. induction rest as [|c t IH]; intros out; simpl; [lia|].
  destruct (Ascii.eqb c slash); simpl; [lia|]. specialize (IH (c :: out)). lia.
Qed.

Lemma copyElement_app (a suf : string) (out : lazybuf) :
  atEnd suf = true ->
  copyElement (a ++ suf) out
  = (fst (copyElement a out) ++ suf, snd (copyElement a out)).
Proof.
  intros Hsuf. revert out. induction a as [|c t IH]; intros out; simpl.
  - destruct suf as [|c s]; simpl in *; [reflexivity|]. now rewrite Hsuf.
  - destruct (Ascii.eqb c slash); simpl; [reflexivity|]. apply IH.
Qed.

(** Enough fuel: more of it changes nothing. *)
Lemma cleanLoop_fuel (n : nat) :
  forall (rest : string) (f1 f2 : nat) (rooted : bool) (out : lazybuf) (dotdot : nat),
    (String.length rest <= n)%nat ->
    (String.length rest <= f1)%nat -> (String.length rest <= f2)%nat ->
    cleanLoop f1 rooted rest out dotdot = cleanLoop f2 rooted rest out dotdot.
Proof.
  induction n as [|n IH]; intros rest f1 f2 rooted out dotdot Hn H1 H2.
  - destruct rest; [|simpl in Hn; lia]. destruct f1, f2; reflexivity.
  - destruct rest as [|c t]; [destruct f1, f2; reflexivity|].
    simpl in Hn, H1, H2.
    destruct f1 as [|f1]; [lia|]. destruct f2 as [|f2]; [lia|].
    cbn [cleanLoop copyElement].
    destruct (Ascii.eqb c slash); [apply IH; lia|].
    destruct (Ascii.eqb c strings.dot && atEnd t); [apply IH; lia|].
    destruct (Ascii.eqb c strings.dot && _).
    + assert (Ht1 : (String.length (match t with String _ t1 => t1 | EmptyString => EmptyString end)
                     <= String.length t)%nat) by (destruct t; simpl; lia).
      destruct (dotdot <? List.length out)%nat.
      * destruct out; apply IH; lia.
      * destruct (negb rooted); apply IH; lia.
    + match goal with
      | |- context [copyElement t ?o] =>
          pose proof (copyElement_length t o) as Hlen; destruct (copyElement t o) as [rest' out2]
      end.
      cbn [fst] in Hlen. apply IH; lia.
Qed.

Lemma run_fuel (fuel : nat) (rest : string) (out : lazybuf) :
  (String.length rest <= fuel)%nat -> cleanLoop fuel true rest out 1 = run rest out.
Proof. intros H. apply (cleanLoop_fuel (String.length rest)); lia. Qed.

Lemma run_nil (out : lazybuf) : run "" out = out.
Proof. reflexivity. Qed.

(** One round of the loop. *)
Lemma run_step (c : ascii) (t : string) (out : lazybuf) :
  run (String c t) out
  = if Ascii.eqb c slash then run t out
    else if Ascii.eqb c strings.dot && atEnd t then run t out
    else if Ascii.eqb c strings.dot
            && match t with
               | String c1 t1 => Ascii.eqb c1 strings.dot && atEnd t1
               | EmptyString => false
               end then
      let t1 := match t with String _ t1 => t1 | EmptyString => EmptyString end in
      if (1 <? List.length out)%nat then
        match out with
        | popped :: out' => run t1 (backUp popped out' 1)
        | [] => run t1 out
        end
      else run t1 out
    else
      let out1 := if negb (List.length out =? 1)%nat then slash :: out else out in
      run (fst (copyElement t (c :: out1))) (snd (copyElement t (c :: out1))).
Proof.
  unfold run at 1. cbn [String.length cleanLoop copyElement].
  destruct (Ascii.eqb c slash); [now apply run_fuel|].
  destruct (Ascii.eqb c strings.dot && atEnd t); [now apply run_fuel|].
  destruct (Ascii.eqb c strings.dot && _).
  - assert (Ht1 : (String.length (match t with String _ t1 => t1 | EmptyString => EmptyString end)
                   <= String.length t)%nat) by (destruct t; simpl; lia).
    cbn zeta. destruct (1 <? List.length out)%nat.
    + destruct out; now apply run_fuel.
    + cbn [negb]. now apply run_fuel.
  - cbn [andb negb]. rewrite orb_false_r. cbn zeta.
    match goal with
    | |- context [copyElement t ?o] =>
        pose proof (copyElement_length t o) as Hlen; destruct (copyElement t o) as [rest' out2]
    end.
    cbn [fst snd] in *. now apply run_fuel.
Qed.

(** The loop on a path in two parts, when the second begins a new element. *)
Lemma run_app (n : nat) :
  forall (a suf : string) (out : lazybuf),
    (String.length a <= n)%nat -> atEnd suf = true ->
    run (a ++ suf) out = run suf (run a out).
Proof.
  induction n as [|n IH]; intros a suf out Hn Hsuf.
  - destruct a; [reflexivity | simpl in Hn; lia].
  - destruct a as [|c t]; [reflexivity|]. simpl in Hn.
    change (String c t ++ suf) with (String c (t ++ suf)).
    rewrite !run_step. rewrite (atEnd_app t suf Hsuf).
    destruct (Ascii.eqb c slash); [apply IH; [lia | exact Hsuf]|].
    destruct (Ascii.eqb c strings.dot && atEnd t); [apply IH; [lia | exact Hsuf]|].
    assert (Hdd : match t ++ suf with
                  | String c1 t1 => Ascii.eqb c1 strings.dot && atEnd t1
                  | EmptyString => false
                  end
                  = match t with
                    | String c1 t1 => Ascii.eqb c1 strings.dot && atEnd t1
                    | EmptyString => false
                    end).
    { destruct t as [|c1 t1]; simpl.
      - destruct suf as [|c1 s1]; [reflexivity|]. simpl in Hsuf.
        apply Ascii.eqb_eq in Hsuf. subst c1. reflexivity.
      - now rewrite (atEnd_app t1 suf Hsuf). }
    rewrite Hdd.
    destruct (Ascii.eqb c strings.dot && _) eqn:Edd.
    + destruct t as [|c1 t1]; [rewrite andb_false_r in Edd; discriminate|].
      cbn zeta. change (String c1 t1 ++ suf) with (String c1 (t1 ++ suf)). cbn iota.
      simpl in Hn.
      destruct (1 <? List.length out)%nat; [destruct out|]; apply IH; try lia; exact Hsuf.
    + cbn zeta. rewrite copyElement_app by exact Hsuf. cbn [fst snd].
      apply IH; [|exact Hsuf].
      match goal with
      | |- context [copyElement t ?o] => pose proof (copyElement_length t o)
      end. lia.
Qed.

Lemma rootedBuf_cons (c : ascii) (out : lazybuf) : rootedBuf out -> rootedBuf (c :: out).
Proof. intros [l ->]. now exists (c :: l). Qed.

Lemma rootedBuf_length (out : lazybuf) : rootedBuf out -> (1 <= List.length out)%nat.
Proof. intros [l ->]. rewrite length_app. simpl. lia. Qed.

Lemma rootedBuf_one (out : lazybuf) :
  rootedBuf out -> List.length out = 1%nat -> out = [slash].
Proof.
  intros [l ->] H. rewrite length_app in H. simpl in H.
  destruct l; [reflexivity | simpl in H; lia].
Qed.

Lemma rootedBuf_tail (c : ascii) (out : lazybuf) :
  rootedBuf (c :: out) -> (1 <= List.length out)%nat -> rootedBuf out.
Proof.
  intros [l E] H. destruct l as [|c' l]; simpl in E.
  - injection E as _ ->. simpl in H. lia.
  - injection E as _ ->. now exists l.
Qed.

Lemma backUp_rooted (out : lazybuf) :
  forall popped, rootedBuf out -> rootedBuf (backUp popped out 1).
Proof.
  induction out as [|c out IH]; intros popped H; [exact H|].
  cbn [backUp].
  destruct ((1 <? List.length (c :: out))%nat && negb (Ascii.eqb popped slash)) eqn:E;
    [|exact H].
  apply andb_prop in E as [E _]. apply Nat.ltb_lt in E. simpl in E.
  apply IH. apply (rootedBuf_tail c); [exact H | lia].
Qed.

Lemma copyElement_rooted (rest : string) :
  forall out, rootedBuf out -> rootedBuf (snd (copyElement rest out)).
Proof.
  induction rest as [|c t IH]; intros out H; simpl; [exact H|].
  destruct (Ascii.eqb c slash); [exact H|]. apply IH. now apply rootedBuf_cons.
Qed.

(** The loop keeps the slash a rooted path begins with. *)
Lemma run_rooted (n : nat) :
  forall (rest : string) (out : lazybuf),
    (String.length rest <= n)%nat -> rootedBuf out -> rootedBuf (run rest out).
Proof.
  induction n as [|n IH]; intros rest out Hn H.
  - destruct rest; [exact H | simpl in Hn; lia].
  - destruct rest as [|c t]; [exact H|]. simpl in Hn. rewrite run_step.
    destruct (Ascii.eqb c slash); [apply IH; [lia | exact H]|].
    destruct (Ascii.eqb c strings.dot && atEnd t); [apply IH; [lia | exact H]|].
    destruct (Ascii.eqb c strings.dot && _).
    + assert (Ht1 : (String.length (match t with String _ t1 => t1 | EmptyString => EmptyString end)
                     <= String.length t)%nat) by (destruct t; simpl; lia).
      cbn zeta. destruct (1 <? List.length out)%nat eqn:E; [|apply IH; [lia | exact H]].
      destruct out as [|popped out']; [apply IH; [lia | exact H]|].
      apply Nat.ltb_lt in E. simpl in E.
      apply IH; [lia|]. apply backUp_rooted. apply (rootedBuf_tail popped); [exact H | lia].
    + cbn zeta.
      match goal with
      | |- context [copyElement t ?o] =>
          pose proof (copyElement_length t o); pose proof (copyElement_rooted t o) as Hr
      end.
      apply IH; [lia|]. apply Hr. apply rootedBuf_cons.
      destruct (negb _); [now apply rootedBuf_cons | exact H].
Qed.

Lemma bufString_rooted (out : lazybuf) :
  rootedBuf out -> exists s, bufString out = String slash s.
Proof.
  intros [l ->]. unfold bufString. rewrite rev_app_distr. simpl. eauto.
Qed.

(** [Clean] of a rooted path is what the loop leaves in the buffer. *)
Lemma Clean_rooted (t : string) :
  Clean (String slash t) = bufString (run (String slash t) [slash])
  /\ rootedBuf (run (String slash t) [slash]).
Proof.
  assert (Hr : rootedBuf (run (String slash t) [slash])).
  { apply (run_rooted (String.length (String slash t))); [lia | now exists []]. }
  split; [|exact Hr].
  rewrite run_step in *. rewrite Ascii.eqb_refl in *.
  unfold Clean. rewrite Ascii.eqb_refl. cbn zeta iota. fold (run t [slash]).
  destruct (run t [slash]) eqn:E; [|reflexivity].
  apply rootedBuf_length in Hr. simpl in Hr. lia.
Qed.

(** *** Elements that are kept *)

Lemma allBytes_copyElement (e : string) (out : lazybuf) :
  allBytes (fun c => negb (Ascii.eqb c slash)) e = true ->
  copyElement e out = ("", (rev (list_ascii_of_string e) ++ out)%list).
Proof.
  revert out. induction e as [|c t IH]; intros out H; simpl in *; [reflexivity|].
  apply andb_prop in H as [Hc Ht]. apply negb_true_iff in Hc. rewrite Hc.
  rewrite IH by exact Ht. now rewrite <- app_assoc.
Qed.

Lemma segment_inv (e : string) :
  segment e = true ->
  exists c t, e = String c t /\ Ascii.eqb c slash = false
    /\ allBytes (fun c => negb (Ascii.eqb c slash)) t = true
    /\ (Ascii.eqb c strings.dot && atEnd t = false)
    /\ (Ascii.eqb c strings.dot
        && match t with
           | String c1 t1 => Ascii.eqb c1 strings.dot && atEnd t1
           | EmptyString => false
           end = false).
Proof.
  unfold segment. intros H.
  apply andb_prop in H as [H Hall]. apply andb_prop in H as [H Hdd].
  apply andb_prop in H as [Hne Hd].
  destruct e as [|c t]; [discriminate|]. exists c, t.
  simpl in Hall. apply andb_prop in Hall as [Hc Ht]. apply negb_true_iff in Hc.
  split; [reflexivity|]. split; [exact Hc|]. split; [exact Ht|].
  split.
  - destruct (Ascii.eqb c strings.dot) eqn:Ec; [|reflexivity].
    apply Ascii.eqb_eq in Ec. subst c.
    destruct t as [|c1 t1]; [discriminate|]. simpl in *.
    apply andb_prop in Ht as [Hc1 _]. apply negb_true_iff in Hc1. exact Hc1.
  - destruct (Ascii.eqb c strings.dot) eqn:Ec; [|reflexivity].
    apply Ascii.eqb_eq in Ec. subst c.
    destruct t as [|c1 t1]; [reflexivity|]. simpl in *.
    destruct (Ascii.eqb c1 strings.dot) eqn:Ec1; [|reflexivity].
    apply Ascii.eqb_eq in Ec1. subst c1.
    destruct t1 as [|c2 t2]; [discriminate|]. simpl in *.
    apply andb_prop in Ht as [Hc2 _].
    apply negb_true_iff in Hc2. exact Hc2.
Qed.

Lemma run_segment (e : string) (out : lazybuf) :
  segment e = true ->
  run (String slash e) out = (rev (list_ascii_of_string e) ++ withSlash out)%list.
Proof.
  intros H. destruct (segment_inv e H) as (c & t & -> & Hc & Ht & Hd & Hdd).
  rewrite run_step, Ascii.eqb_refl. rewrite run_step, Hc, Hd, Hdd. cbn zeta.
  fold (withSlash out). rewrite allBytes_copyElement by exact Ht. cbn [fst snd].
  rewrite run_nil. simpl. now rewrite <- app_assoc.
Qed.

Lemma atEnd_slashed (elem : list string) : atEnd (slashed elem) = true.
Proof. destruct elem; reflexivity. Qed.

Lemma bufString_app (l out : lazybuf) :
  bufString (l ++ out)%list = bufString out ++ string_of_list_ascii (rev l).
Proof. unfold bufString. now rewrite rev_app_distr, string_of_list_ascii_app. Qed.

Lemma bufString_rev (e : string) (out : lazybuf) :
  bufString (rev (list_ascii_of_string e) ++ out)%list = bufString out ++ e.
Proof. now rewrite bufString_app, rev_involutive, string_of_list_ascii_of_string. Qed.

Lemma bufString_withSlash (out : lazybuf) :
  rootedBuf out -> bufString (withSlash out) = written out ++ "/".
Proof.
  intros H. unfold withSlash, written.
  destruct (List.length out =? 1)%nat eqn:E; cbn [negb].
  - apply Nat.eqb_eq in E. now rewrite (rootedBuf_one out H E).
  - apply bufString_cons.
Qed.

(** The loop on elements that are all kept: they are written one after the
    other, each after a slash. *)
Lemma run_slashed (elem : list string) :
  forall out : lazybuf,
    Forall (fun e => segment e = true) elem -> elem <> [] -> rootedBuf out ->
    bufString (run (slashed elem) out) = written out ++ slashed elem.
Proof.
  induction elem as [|e rest IH]; intros out Hall Hne Hout; [congruence|].
  inversion Hall as [|? ? He Hrest]; subst.
  cbn [slashed].
  change ("/" ++ e ++ slashed rest) with (String slash (e ++ slashed rest)).
  change (String slash (e ++ slashed rest)) with (String slash e ++ slashed rest).
  rewrite (run_app (String.length (String slash e))) by (try lia; apply atEnd_slashed).
  rewrite run_segment by exact He.
  set (out' := (rev (list_ascii_of_string e) ++ withSlash out)%list).
  assert (Hs : bufString out' = written out ++ String slash e).
  { unfold out'. rewrite bufString_rev, bufString_withSlash by exact Hout.
    now rewrite append_assoc. }
  destruct rest as [|e' rest'].
  - cbn [slashed]. rewrite run_nil, Hs. simpl.
    f_equal. f_equal. clear. induction e; simpl; [reflexivity | now rewrite <- IHe].
  - assert (Hout' : rootedBuf out').
    { unfold out'. destruct Hout as [l ->]. unfold withSlash.
      destruct (negb _).
      - exists (rev (list_ascii_of_string e) ++ slash :: l)%list.
        now rewrite <- app_assoc.
      - exists (rev (list_ascii_of_string e) ++ l)%list. now rewrite <- app_assoc. }
    rewrite IH; [|exact Hrest | discriminate | exact Hout'].
    assert (Hlen : (List.length out' =? 1)%nat = false).
    { apply Nat.eqb_neq. unfold out'. rewrite length_app, length_rev.
      destruct (segment_inv e He) as (c & t & -> & _).
      pose proof (rootedBuf_length out Hout). unfold withSlash.
      destruct (negb _); simpl; lia. }
    unfold written at 1. rewrite Hlen, Hs.
    rewrite !append_assoc. reflexivity.
Qed.

(** A slash at the end of a path changes nothing. *)
Lemma run_trailing_slash (a : string) (out : lazybuf) :
  run (a ++ "/") out = run a out.
Proof.
  rewrite (run_app (String.length a)) by (try lia; reflexivity).
  now rewrite run_step, Ascii.eqb_refl, run_nil.
Qed.

Lemma backUp_segment (l : lazybuf) :
  forall (popped : ascii) (out : lazybuf),
    Forall (fun c => Ascii.eqb c slash = false) l -> Ascii.eqb popped slash = false ->
    rootedBuf out ->
    backUp popped (l ++ withSlash out)%list 1 = out.
Proof.
  induction l as [|c l IH]; intros popped out Hl Hp Hout.
  - cbn [app]. unfold withSlash.
    destruct (List.length out =? 1)%nat eqn:E; cbn [negb].
    + apply Nat.eqb_eq in E. rewrite (rootedBuf_one out Hout E). reflexivity.
    + apply Nat.eqb_neq in E. pose proof (rootedBuf_length out Hout) as Hlen.
      cbn [backUp]. rewrite Hp. cbn [negb]. rewrite andb_true_r.
      destruct (1 <? List.length (slash :: out))%nat eqn:E1;
        [|apply Nat.ltb_ge in E1; simpl in E1; lia].
      destruct out as [|c' out']; [simpl in Hlen; lia|].
      cbn [backUp]. rewrite Ascii.eqb_refl. cbn [negb]. now rewrite andb_false_r.
  - inversion Hl as [|? ? Hc Hl']; subst.
    change ((c :: l) ++ withSlash out)%list with (c :: (l ++ withSlash out))%list.
    cbn [backUp]. rewrite Hp. cbn [negb]. rewrite andb_true_r.
    destruct (1 <? List.length (c :: (l ++ withSlash out)%list))%nat eqn:E1.
    + now apply IH.
    + apply Nat.ltb_ge in E1. simpl in E1. rewrite length_app in E1.
      pose proof (rootedBuf_length out Hout). unfold withSlash in E1.
      destruct (negb _); simpl in E1; lia.
Qed.

Lemma allBytes_Forall (f : ascii -> bool) (s : string) :
  allBytes f s = true -> Forall (fun c => f c = true) (list_ascii_of_string s).
Proof.
  induction s as [|c t IH]; simpl; intros H; [constructor|].
  apply andb_prop in H as [Hc Ht]. constructor; auto.
Qed.

(** The element [..] takes back the element before it. *)
Lemma run_dotdot (e : string) (out : lazybuf) :
  segment e = true -> rootedBuf out ->
  run (String slash "..") (run (String slash e) out) = out.
Proof.
  intros He Hout. rewrite (run_segment e out He).
  rewrite run_step, Ascii.eqb_refl. rewrite run_step. cbn zeta.
  change (Ascii.eqb "."%char slash) with false.
  change (Ascii.eqb "."%char strings.dot) with true. cbn [andb atEnd].
  change (Ascii.eqb "."%char slash) with false. cbn iota.
  destruct (segment_inv e He) as (c & t & -> & Hc & Ht & _).
  assert (Hall : Forall (fun c => Ascii.eqb c slash = false)
                   (rev (list_ascii_of_string (String c t)))).
  { apply Forall_rev. constructor; [exact Hc|].
    apply allBytes_Forall in Ht. revert Ht. apply Forall_impl.
    intros a Ha. now apply negb_true_iff in Ha. }
  destruct (rev (list_ascii_of_string (String c t))) as [|p l] eqn:E.
  { apply (f_equal (@List.length ascii)) in E. rewrite length_rev in E. simpl in E. lia. }
  inversion Hall as [|? ? Hp Hl]; subst.
  assert (Hlen : (1 <? List.length ((p :: l) ++ withSlash out)%list)%nat = true).
  { apply Nat.ltb_lt. simpl. rewrite length_app.
    pose proof (rootedBuf_length out Hout). unfold withSlash.
    destruct (negb _); simpl; lia. }
  rewrite Hlen. cbn [app]. rewrite run_nil. now apply backUp_segment.
Qed.

(** *** [Join] *)

Lemma slashed_app (a b : list string) : slashed (a ++ b) = slashed a ++ slashed b.
Proof.
  induction a as [|e a IH]; simpl; [reflexivity|]. rewrite IH.
  now rewrite append_assoc.
Qed.

Lemma joinLoop_slashed (elem : list string) :
  forall buf, buf <> "" -> joinLoop elem buf = buf ++ slashed elem.
Proof.
  induction elem as [|e rest IH]; intros buf Hbuf; cbn [joinLoop slashed].
  - clear. induction buf; simpl; [reflexivity | now rewrite <- IHbuf].
  - assert (E : (buf =? "")%string = false) by now apply String.eqb_neq.
    rewrite E. cbn [negb orb]. rewrite IH.
    + rewrite !append_assoc. reflexivity.
    + destruct buf; [congruence | discriminate].
Qed.

Lemma fold_left_size (elem : list string) :
  forall n, (n <= fold_left (fun n e => (n + String.length e)%nat) elem n)%nat.
Proof.
  induction elem as [|e rest IH]; intros n; simpl; [lia|].
  specialize (IH (n + String.length e)%nat). lia.
Qed.

(** [Join] when the first element is not empty. *)
Lemma Join_cons (first : string) (elem : list string) :
  first <> "" -> Join (first :: elem) = Clean (first ++ slashed elem).
Proof.
  intros H. unfold Join. cbn [fold_left joinLoop]. cbn [String.eqb negb orb].
  assert (E : (first =? "")%string = false) by now apply String.eqb_neq.
  rewrite E. cbn [negb orb].
  pose proof (fold_left_size elem (0 + String.length first)) as Hsize.
  destruct (_ =? 0)%nat eqn:E0.
  - apply Nat.eqb_eq in E0. rewrite E0 in Hsize.
    destruct first; [congruence | simpl in Hsize; lia].
  - now rewrite joinLoop_slashed.
Qed.

(** [Clean] of a rooted path followed by its elements. *)
Lemma Clean_trailing_slash (t : string) :
  Clean (String slash t ++ "/") = Clean (String slash t).
Proof.
  change (String slash t ++ "/") with (String slash (t ++ "/")).
  rewrite (proj1 (Clean_rooted (t ++ "/"))), (proj1 (Clean_rooted t)).
  change (String slash (t ++ "/")) with (String slash t ++ "/").
  now rewrite run_trailing_slash.
Qed.

Lemma Clean_dotdot (t e : string) :
  segment e = true ->
  Clean (String slash t ++ slashed [e; ".."]) = Clean (String slash t).
Proof.
  intros He.
  change (String slash t ++ slashed [e; ".."])
    with (String slash (t ++ slashed [e; ".."])).
  rewrite (proj1 (Clean_rooted (t ++ slashed [e; ".."]))).
  destruct (Clean_rooted t) as [-> Hr].
  change (String slash (t ++ slashed [e; ".."]))
    with (String slash t ++ slashed [e; ".."]).
  rewrite (run_app (String.length (String slash t))) by (try lia; reflexivity).
  cbn [slashed].
  change ("/" ++ e ++ "/" ++ ".." ++ "") with (String slash e ++ String slash (".." ++ "")).
  change (".." ++ "") with "..".
  rewrite (run_app (String.length (String slash e))) by (try lia; reflexivity).
  now rewrite run_dotdot.
Qed.

Lemma Clean_segments (elem : list string) :
  Forall (fun e => segment e = true) elem -> elem <> [] ->
  Clean (slashed elem) = slashed elem.
Proof.
  intros Hall Hne. destruct elem as [|e rest]; [congruence|].
  cbn [slashed]. change ("/" ++ e ++ slashed rest) with (String slash (e ++ slashed rest)).
  rewrite (proj1 (Clean_rooted _)).
  change (String slash (e ++ slashed rest)) with (slashed (e :: rest)).
  rewrite run_slashed; [reflexivity | exact Hall | discriminate | now exists []].
Qed.

End PathFacts.

Module UrlFacts.
Import pathpkg url PathFacts strings StringFacts.

Lemma clear_not_percent (c : ascii) :
  negb (shouldEscape c encodePath) = true -> Ascii.eqb c percent = false.
Proof.
  intros H. destruct (Ascii.eqb c percent) eqn:E; [|reflexivity].
  apply Ascii.eqb_eq in E. subst c. discriminate.
Qed.

Lemma countEscapes_clear (s : string) :
  allBytes (fun c => negb (shouldEscape c encodePath)) s = true ->
  countEscapes s = Some 0%nat.
Proof.
  induction s as [|c t IH]; simpl; intros H; [reflexivity|].
  apply andb_prop in H as [Hc Ht]. rewrite (clear_not_percent c Hc). now apply IH.
Qed.

Lemma hexCount_clear (s : string) :
  allBytes (fun c => negb (shouldEscape c encodePath)) s = true ->
  hexCount s encodePath = 0%nat.
Proof.
  induction s as [|c t IH]; simpl; intros H; [reflexivity|].
  apply andb_prop in H as [Hc Ht]. apply negb_true_iff in Hc. rewrite Hc.
  now rewrite IH.
Qed.

Lemma escape_clear (s : string) :
  allBytes (fun c => negb (shouldEscape c encodePath)) s = true ->
  escape s encodePath = s.
Proof. intros H. unfold escape. now rewrite hexCount_clear. Qed.

Lemma unescape_clear (s : string) :
  allBytes (fun c => negb (shouldEscape c encodePath)) s = true ->
  unescape s = Some s.
Proof. intros H. unfold unescape. now rewrite countEscapes_clear. Qed.

Lemma unescape_rooted (t r : string) :
  unescape (String slash t) = Some r -> exists r', r = String slash r'.
Proof.
  unfold unescape. cbn [countEscapes decode].
  change (Ascii.eqb slash percent) with false. cbn iota.
  destruct (countEscapes t) as [[|n]|]; intros H; [| |discriminate];
    injection H as <-; eauto.
Qed.

Lemma escape_rooted (t : string) :
  exists r, escape (String slash t) encodePath = String slash r.
Proof.
  unfold escape. destruct (_ =? 0)%nat; [eauto|].
  cbn [encode]. change (shouldEscape slash encodePath) with false. cbn iota. eauto.
Qed.

Lemma EscapedPath_rooted (u : URL) :
  (exists t, Path u = String slash t) ->
  RawPath u = "" \/ (exists t, RawPath u = String slash t) ->
  exists r, EscapedPath u = String slash r.
Proof.
  intros [t Ht] Hraw. unfold EscapedPath.
  destruct (negb (RawPath u =? "")%string && _ && _) eqn:E.
  - destruct Hraw as [Hraw|[t' Hraw]]; [|eauto].
    rewrite Hraw in E. discriminate.
  - rewrite Ht. change (String slash t =? "*")%string with false. cbn iota.
    apply escape_rooted.
Qed.

Lemma last_cons {A : Type} (l : list A) :
  forall a d : A, List.last (a :: l) d = List.last l a.
Proof.
  induction l as [|e rest IH]; intros a d; [reflexivity|].
  change (List.last (a :: e :: rest) d) with (List.last (e :: rest) d).
  now rewrite !IH.
Qed.

Lemma joinUrlPath_joinedPath (elem : list string) :
  Client.joinUrlPath elem = setPath Client.baseURL (joinedPath elem).
Proof.
  unfold Client.joinUrlPath, JoinPath, joinedPath.
  change (EscapedPath Client.baseURL) with "/v2".
  change (HasPrefix "/v2" "/") with true. cbn [negb]. cbv zeta.
  rewrite Join_cons by discriminate.
  now rewrite last_cons.
Qed.

Lemma joinedPath_rooted (elem : list string) : exists t, joinedPath elem = String slash t.
Proof.
  unfold joinedPath. change ("/v2" ++ slashed elem) with (String slash ("v2" ++ slashed elem)).
  destruct (Clean_rooted ("v2" ++ slashed elem)) as [-> Hr].
  destruct (bufString_rooted _ Hr) as [s ->].
  destruct (_ && _); simpl; eauto.
Qed.

(** The URL of a rooted path after the base URL. *)
Lemma String_setPath_rooted (p : string) :
  (exists t, p = String slash t) ->
  exists rest, String_ (setPath Client.baseURL p) = "https://api.dynu.com/" ++ rest.
Proof.
  intros [t ->]. unfold setPath.
  destruct (unescape (String slash t)) as [r|] eqn:E.
  - destruct (unescape_rooted t r E) as [r' ->].
    set (u := mkURL _ _ _ _).
    assert (Hu : exists x, EscapedPath u = String slash x).
    { apply EscapedPath_rooted; [now exists r'|].
      unfold u. cbn [RawPath]. destruct (_ =? _)%string; eauto. }
    destruct Hu as [x Hx]. unfold String_. rewrite Hx. exists x. reflexivity.
  - now exists "v2".
Qed.

Lemma String_setPath_clear (p : string) :
  (exists t, p = String slash t) ->
  allBytes (fun c => negb (shouldEscape c encodePath)) p = true ->
  String_ (setPath Client.baseURL p) = "https://api.dynu.com" ++ p.
Proof.
  intros [t ->] H. unfold setPath. rewrite unescape_clear by exact H.
  rewrite escape_clear by exact H. rewrite String.eqb_refl.
  unfold String_, EscapedPath. cbn [Scheme Host Path RawPath].
  cbn [String.eqb negb andb].
  change (String slash t =? "*")%string with false. cbn iota.
  rewrite escape_clear by exact H. reflexivity.
Qed.

Lemma allBytes_app (f : ascii -> bool) (a b : string) :
  allBytes f (a ++ b) = allBytes f a && allBytes f b.
Proof. induction a as [|c a IH]; simpl; [reflexivity|]. now rewrite IH, andb_assoc. Qed.

Lemma noSlash_HasSuffix (e : string) :
  allBytes (fun c => negb (Ascii.eqb c slash)) e = true -> HasSuffix e "/" = false.
Proof.
  intros H. destruct (HasSuffix e "/") eqn:E; [|reflexivity].
  apply HasSuffix_iff in E as [a ->]. rewrite allBytes_app in H.
  apply andb_prop in H as [_ H]. discriminate.
Qed.

Lemma segment_noSlash (e : string) :
  segment e = true -> allBytes (fun c => negb (Ascii.eqb c slash)) e = true.
Proof. unfold segment. intros H. now apply andb_prop in H as [_ H]. Qed.

Lemma last_Forall {A : Type} (P : A -> Prop) (l : list A) (d : A) :
  Forall P l -> P d -> P (List.last l d).
Proof.
  induction l as [|a l IH]; intros Hl Hd; [exact Hd|].
  inversion Hl; subst. destruct l; [assumption|]. now apply IH.
Qed.

(** The path of elements that are all kept. *)
Lemma joinedPath_segments (elem : list string) :
  Forall (fun e => segment e = true) elem ->
  joinedPath elem = "/v2" ++ slashed elem.
Proof.
  intros Hall. unfold joinedPath.
  assert (Hlast : HasSuffix (List.last elem "/v2") "/" = false).
  { apply (last_Forall (fun e => HasSuffix e "/" = false)); [|reflexivity].
    revert Hall. apply Forall_impl. intros e He.
    now apply noSlash_HasSuffix, segment_noSlash. }
  rewrite Hlast. cbn [andb].
  change ("/v2" ++ slashed elem) with (slashed ("v2" :: elem)).
  apply Clean_segments; [|discriminate]. constructor; [reflexivity | exact Hall].
Qed.

Lemma slashed_clear (elem : list string) :
  Forall (fun e => plainSegment e = true) elem ->
  allBytes (fun c => negb (shouldEscape c encodePath)) (slashed elem) = true.
Proof.
  induction 1 as [|e rest He _ IH]; [reflexivity|].
  cbn [slashed]. change ("/" ++ e ++ slashed rest) with (String slash (e ++ slashed rest)).
  cbn [allBytes]. rewrite allBytes_app, IH.
  unfold plainSegment in He. apply andb_prop in He as [_ He]. now rewrite He.
Qed.

Lemma joinedPath_trailing_empty (elem : list string) (e : string) :
  HasSuffix e "/" = false ->
  joinedPath (elem ++ [e; ""]) = joinedPath (elem ++ [e]).
Proof.
  intros He. unfold joinedPath.
  change (elem ++ [e; ""])%list with (elem ++ [e] ++ [""])%list.
  rewrite app_assoc, !last_last, He. cbn [andb].
  rewrite slashed_app.
  change (slashed [""]) with "/".
  change ("/v2" ++ slashed (elem ++ [e]) ++ "/")
    with (String slash ("v2" ++ slashed (elem ++ [e]) ++ "/")).
  replace ("v2" ++ slashed (elem ++ [e]) ++ "/")
    with (("v2" ++ slashed (elem ++ [e])) ++ "/") by apply append_assoc.
  apply Clean_trailing_slash.
Qed.

Lemma joinedPath_dotdot (elem : list string) (e' e : string) :
  HasSuffix e' "/" = false -> segment e = true ->
  joinedPath (elem ++ [e'; e; ".."]) = joinedPath (elem ++ [e']).
Proof.
  intros He' He. unfold joinedPath.
  change (elem ++ [e'; e; ".."])%list with (elem ++ [e'] ++ [e] ++ [".."])%list.
  rewrite !app_assoc, !last_last, He'. cbn [andb].
  rewrite <- (app_assoc (elem ++ [e'])%list). rewrite slashed_app.
  change ([e] ++ [".."])%list with [e; ".."].
  change ("/v2" ++ slashed (elem ++ [e']) ++ slashed [e; ".."])
    with (String slash ("v2" ++ slashed (elem ++ [e']) ++ slashed [e; ".."])).
  replace ("v2" ++ slashed (elem ++ [e']) ++ slashed [e; ".."])
    with (("v2" ++ slashed (elem ++ [e'])) ++ slashed [e; ".."]) by apply append_assoc.
  now apply Clean_dotdot.
Qed.

(** *** Escapes that are not well formed *)

Lemma badEscape_app (b rest : string) :
  badEscape b = true -> atEnd rest = true -> badEscape (b ++ rest) = true.
Proof.
  intros Hb Hrest. destruct b as [|h1 [|h2 b]].
  - destruct rest as [|c [|h2 r]]; [reflexivity | reflexivity|].
    simpl in Hrest. apply Ascii.eqb_eq in Hrest. subst c. reflexivity.
  - destruct rest as [|c r]; [reflexivity|].
    simpl in Hrest. apply Ascii.eqb_eq in Hrest. subst c.
    simpl. change (ishex slash) with false. now rewrite andb_false_r.
  - exact Hb.
Qed.

Lemma countEscapes_bad (n : nat) :
  forall a b : string,
    (String.length a <= n)%nat -> badEscape b = true ->
    countEscapes (a ++ String percent b) = None.
Proof.
  induction n as [|n IH]; intros a b Hn Hb.
  - destruct a; [|simpl in Hn; lia]. cbn [append countEscapes].
    rewrite Ascii.eqb_refl. destruct b as [|h1 [|h2 b]]; try reflexivity.
    simpl in Hb. apply negb_true_iff in Hb. now rewrite Hb.
  - destruct a as [|c a]; [apply (IH ""); [simpl; lia | exact Hb]|].
    simpl in Hn. cbn [append countEscapes].
    destruct (Ascii.eqb c percent); [|apply IH; [lia | exact Hb]].
    destruct a as [|h1 [|h2 a]].
    + cbn [append]. destruct b; reflexivity.
    + cbn [append]. change (ishex percent) with false. now rewrite andb_false_r.
    + cbn [append]. destruct (ishex h1 && ishex h2); [|reflexivity].
      rewrite IH; [reflexivity | simpl in Hn; lia | exact Hb].
Qed.

Lemma wellEscaped_false (n : nat) :
  forall e : string,
    (String.length e <= n)%nat -> wellEscaped e = false ->
    exists a b, e = a ++ String percent b /\ badEscape b = true.
Proof.
  unfold wellEscaped.
  induction n as [|n IH]; intros e Hn He.
  - destruct e; [discriminate | simpl in Hn; lia].
  - destruct e as [|c e]; [discriminate|]. simpl in Hn. cbn [countEscapes] in He.
    destruct (Ascii.eqb c percent) eqn:Ec.
    + apply Ascii.eqb_eq in Ec. subst c.
      destruct e as [|h1 [|h2 e]]; [now exists "", "" | now exists "", (String h1 "")|].
      destruct (ishex h1 && ishex h2) eqn:Eh.
      * destruct (IH e) as (a & b & -> & Hb).
        { simpl in Hn. lia. }
        { destruct (countEscapes e); [discriminate | reflexivity]. }
        exists (String percent (String h1 (String h2 a))), b. split; [reflexivity | exact Hb].
      * exists "", (String h1 (String h2 e)). split; [reflexivity|].
        simpl. now rewrite Eh.
    + destruct (IH e) as (a & b & -> & Hb); [lia | exact He|].
      exists (String c a), b. split; [reflexivity | exact Hb].
Qed.

Lemma slashed_bad (elem : list string) :
  existsb (fun e => negb (wellEscaped e)) elem = true ->
  forall prefix : string, countEscapes (prefix ++ slashed elem) = None.
Proof.
  induction elem as [|e rest IH]; intros H prefix; [discriminate|].
  cbn [existsb] in H. cbn [slashed].
  destruct (wellEscaped e) eqn:Ee; cbn [negb orb] in H.
  - replace (prefix ++ "/" ++ e ++ slashed rest) with ((prefix ++ "/" ++ e) ++ slashed rest)
      by now rewrite !append_assoc.
    now apply IH.
  - destruct (wellEscaped_false (String.length e) e (le_n _) Ee) as (a & b & -> & Hb).
    replace (prefix ++ "/" ++ (a ++ String percent b) ++ slashed rest)
      with ((prefix ++ "/" ++ a) ++ String percent (b ++ slashed rest)).
    + apply (countEscapes_bad (String.length (prefix ++ "/" ++ a))); [lia|].
      apply badEscape_app; [exact Hb | apply atEnd_slashed].
    + rewrite !append_assoc. reflexivity.
Qed.

End UrlFacts.

Section SprintFacts.
Import pathpkg url strconv IdFacts.

(** A decimal digit or the minus sign. *)
Lemma formatBits_decimal (fuel : nat) :
  forall (u : Z) (acc : string),
    0 <= u -> allDecimal acc = true -> allDecimal (formatBits fuel u acc) = true.
Proof.
  induction fuel as [|fuel IH]; intros u acc Hu Hacc; cbn [formatBits]; [exact Hacc|].
  destruct (10 <=? u) eqn:E.
  - apply IH; [apply Z.div_pos; lia|]. cbn [allDecimal]. rewrite Hacc, andb_true_r.
    apply isDecimal_digit. apply Z.mod_pos_bound. lia.
  - apply Z.leb_gt in E. cbn [allDecimal]. rewrite Hacc, andb_true_r.
    apply isDecimal_digit. lia.
Qed.

Lemma formatBits_cons (fuel : nat) :
  forall (u : Z) (acc : string),
    (0 < fuel)%nat \/ acc <> "" ->
    exists c r, formatBits fuel u acc = String c r.
Proof.
  induction fuel as [|fuel IH]; intros u acc H; cbn [formatBits].
  - destruct H as [H|H]; [lia|]. destruct acc; [congruence | eauto].
  - destruct (10 <=? u); [|eauto]. apply IH. right. discriminate.
Qed.

Lemma decimal_plain (c : ascii) :
  isDecimal c = true ->
  negb (Ascii.eqb c slash) = true /\ negb (shouldEscape c encodePath) = true
  /\ Ascii.eqb c strings.dot = false.
Proof.
  intros H. unfold isDecimal in H. apply andb_prop in H as [H1 H2].
  split; [|split].
  - destruct (Ascii.eqb c slash) eqn:E; [|reflexivity].
    apply Ascii.eqb_eq in E. subst c. discriminate.
  - unfold shouldEscape, isAlnum. cbv zeta. rewrite H1, H2. cbn [andb].
    now rewrite orb_true_r.
  - destruct (Ascii.eqb c strings.dot) eqn:E; [|reflexivity].
    apply Ascii.eqb_eq in E. subst c. discriminate.
Qed.

Lemma allDecimal_plain (s : string) :
  allDecimal s = true ->
  allBytes (fun c => negb (Ascii.eqb c slash)) s = true
  /\ allBytes (fun c => negb (shouldEscape c encodePath)) s = true.
Proof.
  induction s as [|c t IH]; cbn [allDecimal allBytes]; intros H; [split; reflexivity|].
  apply andb_prop in H as [Hc Ht]. destruct (decimal_plain c Hc) as (H1 & H2 & _).
  destruct (IH Ht) as [IH1 IH2]. now rewrite H1, H2, IH1, IH2.
Qed.

(** The decimal text of an integer is a path element that is kept and
    needs no escaping. *)
Lemma Sprint_plainSegment (i : Z) : plainSegment (fmt.Sprint i) = true.
Proof.
  unfold fmt.Sprint, FormatInt.
  assert (Hseg : forall c r, Ascii.eqb c strings.dot = false ->
                   allBytes (fun c => negb (Ascii.eqb c slash)) (String c r) = true ->
                   allBytes (fun c => negb (shouldEscape c encodePath)) (String c r) = true ->
                   plainSegment (String c r) = true).
  { intros c r Hdot H1 H2. unfold plainSegment, segment. rewrite H1, H2.
    unfold strings.dot in Hdot. cbn [String.eqb]. rewrite Hdot. reflexivity. }
  destruct (i <? 0) eqn:E.
  - apply Z.ltb_lt in E.
    assert (Hd : allDecimal (formatBits 20 (- i) "") = true)
      by (apply formatBits_decimal; [lia | reflexivity]).
    destruct (allDecimal_plain _ Hd) as [H1 H2].
    apply Hseg; [reflexivity | cbn [allBytes]; now rewrite H1 | cbn [allBytes]; now rewrite H2].
  - apply Z.ltb_ge in E.
    assert (Hd : allDecimal (formatBits 20 i "") = true)
      by (apply formatBits_decimal; [lia | reflexivity]).
    destruct (formatBits_cons 20 i "") as (c & r & Hcr); [left; lia|].
    rewrite Hcr in *. destruct (allDecimal_plain _ Hd) as [H1 H2].
    cbn [allDecimal] in Hd. apply andb_prop in Hd as [Hc _].
    apply Hseg; [apply (decimal_plain c Hc) | exact H1 | exact H2].
Qed.

End SprintFacts.

Ltac all_plain :=
  repeat (apply Forall_cons; [first [assumption | reflexivity]|]); apply Forall_nil.

Section EndpointTheorems.
Import pathpkg url PathFacts UrlFacts strings.

(** X15: Whatever the elements, the URL is one of the provider's host, over
    https. *)
Theorem endpoint_same_host (elem : list string) :
  exists rest, Client.endpoint elem = "https://api.dynu.com/" ++ rest.
Proof.
  unfold Client.endpoint. rewrite joinUrlPath_joinedPath.
  apply String_setPath_rooted, joinedPath_rooted.
Qed.

Lemma endpoint_segments (elem : list string) :
  Forall (fun e => plainSegment e = true) elem ->
  Client.endpoint elem = Client.defaultBaseURL ++ slashed elem.
Proof.
  intros Hall. unfold Client.endpoint. rewrite joinUrlPath_joinedPath.
  rewrite joinedPath_segments.
  - rewrite String_setPath_clear; [reflexivity | now exists ("v2" ++ slashed elem)|].
    change ("/v2" ++ slashed elem) with (String slash (String "v" (String "2" (slashed elem)))).
    cbn [allBytes]. now rewrite slashed_clear.
  - revert Hall. apply Forall_impl. intros e He. unfold plainSegment in He.
    now apply andb_prop in He as [He _].
Qed.

(** X16: Elements that [Clean] keeps and that need no escaping follow the base
    URL, each after a slash. *)
Theorem endpoint_of_segments (elem : list string) :
  Forall (fun e => plainSegment e = true) elem ->
  Client.endpoint elem = Client.defaultBaseURL ++ slashed elem.
Proof. exact (endpoint_segments elem). Qed.

Lemma endpoint_of_segments_witness :
  Client.endpoint ["dns"; "getroot"; "example.com"]
  = "https://api.dynu.com/v2/dns/getroot/example.com".
Proof.
  apply (endpoint_of_segments ["dns"; "getroot"; "example.com"]).
  repeat constructor.
Defined.

(** X17: An empty element at the end is dropped. *)
Theorem endpoint_trailing_empty (elem : list string) (e : string) :
  HasSuffix e "/" = false ->
  Client.endpoint (elem ++ [e; ""]) = Client.endpoint (elem ++ [e]).
Proof.
  intros He. unfold Client.endpoint. rewrite !joinUrlPath_joinedPath.
  now rewrite joinedPath_trailing_empty.
Qed.

(** X18: An element [..] at the end removes the element before it: for the
    record identifier [..], [DeleteRecord] addresses the domain itself. *)
Theorem endpoint_dot_dot (elem : list string) (e' e : string) :
  HasSuffix e' "/" = false -> segment e = true ->
  Client.endpoint (elem ++ [e'; e; ".."]) = Client.endpoint (elem ++ [e']).
Proof.
  intros He' He. unfold Client.endpoint. rewrite !joinUrlPath_joinedPath.
  now rewrite joinedPath_dotdot.
Qed.

(** X19: When an element has a percent sign that does not start an escape,
    [setPath] fails, [JoinPath] ignores that, and the URL is the base URL:
    none of the elements is in it. *)
Theorem endpoint_bad_escape (elem : list string) :
  Forall (fun e => segment e = true) elem ->
  existsb (fun e => negb (wellEscaped e)) elem = true ->
  Client.endpoint elem = Client.defaultBaseURL.
Proof.
  intros Hseg Hbad. unfold Client.endpoint. rewrite joinUrlPath_joinedPath.
  rewrite joinedPath_segments by exact Hseg.
  unfold setPath, unescape. now rewrite (slashed_bad elem Hbad "/v2").
Qed.

(** X20: The URLs of the client for the identifiers it writes itself: the
    collection of the records of a domain, the record that
    [AddOrUpdateRecord] addresses, and the record [DeleteRecord] is given
    by its number. *)
Theorem record_endpoints (hostnameId n : Z) (record : DNSRecord.t) (ignoreRecordId : bool) :
  Client.endpoint ["dns"; fmt.Sprint hostnameId; "record"]
    = Client.defaultBaseURL ++ "/dns/" ++ fmt.Sprint hostnameId ++ "/record"
  /\ Client.endpoint (Client.urlPaths hostnameId record ignoreRecordId)
      = Client.defaultBaseURL ++ "/dns/" ++ fmt.Sprint hostnameId ++ "/record"
        ++ (if negb (DNSRecord.ID record =? 0) && negb ignoreRecordId
            then "/" ++ fmt.Sprint (DNSRecord.ID record) else "")
  /\ Client.endpoint ["dns"; fmt.Sprint hostnameId; "record"; fmt.Sprint n]
      = Client.defaultBaseURL ++ "/dns/" ++ fmt.Sprint hostnameId ++ "/record/"
        ++ fmt.Sprint n.
Proof.
  assert (Hh := Sprint_plainSegment hostnameId).
  assert (Hn := Sprint_plainSegment n).
  assert (Hid := Sprint_plainSegment (DNSRecord.ID record)).
  split; [|split].
  - rewrite endpoint_segments by all_plain.
    unfold Client.defaultBaseURL. cbn [slashed append]. reflexivity.
  - unfold Client.urlPaths.
    destruct (negb (DNSRecord.ID record =? 0) && negb ignoreRecordId);
      cbn [app]; rewrite endpoint_segments by all_plain;
      unfold Client.defaultBaseURL; cbn [slashed append];
      rewrite ?StringFacts.append_nil_r; reflexivity.
  - rewrite endpoint_segments by all_plain.
    unfold Client.defaultBaseURL. cbn [slashed append].
    rewrite StringFacts.append_nil_r. reflexivity.
Qed.

End EndpointTheorems.

Lemma endpoint_trailing_empty_witness :
  Client.endpoint ["dns"; "100"; "record"; ""] = "https://api.dynu.com/v2/dns/100/record".
Proof.
  pose proof (endpoint_trailing_empty ["dns"; "100"] "record") as H.
  cbn [app] in H. rewrite H; reflexivity.
Defined.

Lemma endpoint_dot_dot_witness :
  Client.endpoint ["dns"; "100"; "record"; ".."] = "https://api.dynu.com/v2/dns/100".
Proof.
  pose proof (endpoint_dot_dot ["dns"] "100" "record") as H.
  cbn [app] in H. rewrite H; reflexivity.
Defined.

Lemma endpoint_bad_escape_witness :
  Client.endpoint ["dns"; "100"; "record"; "50%"] = "https://api.dynu.com/v2".
Proof.
  apply (endpoint_bad_escape ["dns"; "100"; "record"; "50%"]).
  - repeat constructor.
  - reflexivity.
Defined.

(** ** The provider before [OwnDomain] *)

Section PreviousFacts.
Import strings StringFacts NameFacts.

(** A name made absolute in the zone and relative to it again. *)
Lemma relative_absolute_name (name domain : string) :
  domain <> "" -> endsWithDot domain = false -> endsWithDot name = false ->
  libdns.RelativeName
    (libdns.AbsoluteName (if (name =? "@")%string then "" else name) domain) domain
  = (if (name =? "@")%string then "" else name).
Proof.
  intros Hd Hddot Hndot.
  destruct (String.eqb_spec name "@") as [->|Hat].
  - now rewrite AbsoluteName_nil, RelativeName_self.
  - destruct (String.eqb_spec name "") as [->|Hn].
    + now rewrite AbsoluteName_nil, RelativeName_self.
    + now rewrite AbsoluteName_plain, RelativeName_under.
Qed.

Context {World Raw : Type}.
Variable T : Transport World Raw.
Variable tok : string.

Lemma deleteLoop_same (own : string) (hostnameId : Z) (records : list libdns.record) :
  forall (deleted : list libdns.record) (errs : list error) (w : World),
    Previous.deleteLoop T tok hostnameId records deleted errs w
    = Provider.deleteLoop T (Provider.mk tok own) hostnameId records deleted errs w.
Proof.
  induction records as [|rec rest IH]; intros deleted errs w; [reflexivity|].
  cbn [Previous.deleteLoop Provider.deleteLoop Provider.APIToken]. unfold bind.
  destruct (Client.DeleteRecord T tok hostnameId (libdns.ID rec) w) as [[err|] w1];
    apply IH.
Qed.

Lemma toProvider_same (record : libdns.record) (domain : string) :
  domain <> "" -> endsWithDot domain = false ->
  sameInBoth domain record = true ->
  libdnsRecordToDnsRecord record domain domain
  = Previous.libdnsRecordToDnsRecord domain record.
Proof.
  intros Hd Hddot Hsame. unfold sameInBoth in Hsame.
  apply andb_prop in Hsame as [Hn Hptr]. apply negb_true_iff in Hn, Hptr.
  pose proof (relative_absolute_name (libdns.Name record) domain Hd Hddot Hn) as Hrel.
  unfold libdnsRecordToDnsRecord, Previous.libdnsRecordToDnsRecord.
  rewrite Hrel.
  destruct (libdns.Type_ record =? "PTR")%string eqn:EPTR.
  - apply String.eqb_eq in EPTR. rewrite EPTR. cbn [String.eqb Ascii.eqb Bool.eqb].
    cbn [andb] in Hptr. cbn [DNSRecord.set_NodeName DNSRecord.set_Host DNSRecord.NodeName].
    now rewrite Hptr.
  - clear Hptr Hrel.
    destruct (libdns.Name record =? "@")%string eqn:Eat;
      repeat (match goal with
              | |- context [(libdns.Type_ record =? ?s)%string] =>
                  destruct (libdns.Type_ record =? s)%string
              end);
      cbn [DNSRecord.set_NodeName DNSRecord.set_Host DNSRecord.set_Ipv4Address
             DNSRecord.set_Ipv6Address DNSRecord.set_TextData DNSRecord.set_Priority
             DNSRecord.NodeName];
      rewrite ?Eat; reflexivity.
Qed.

Lemma appendOrSetLoop_same (domain : string) (hostnameId : Z) (ignoreRecordId : bool)
    (records : list libdns.record) :
  domain <> "" -> endsWithDot domain = false ->
  Forall (fun rec => sameInBoth domain rec = true) records ->
  forall (updated updated' : list libdns.record) (errs : list error) (w : World),
    let r := Previous.appendOrSetLoop T tok domain hostnameId ignoreRecordId records
               updated errs w in
    let r' := Provider.appendOrSetLoop T (Provider.mk tok domain) domain hostnameId
                ignoreRecordId records updated' errs w in
    snd r = snd r' /\ snd (fst r) = snd (fst r').
Proof.
  intros Hd Hddot Hall. induction Hall as [|rec rest Hrec _ IH]; intros updated updated' errs w.
  - simpl. auto.
  - cbn [Previous.appendOrSetLoop Provider.appendOrSetLoop Provider.APIToken
           Provider.OwnDomain].
    rewrite (toProvider_same rec domain Hd Hddot Hrec).
    destruct (Previous.libdnsRecordToDnsRecord domain rec) as [d [err|]]; [apply IH|].
    unfold bind.
    destruct (Client.AddOrUpdateRecord T tok hostnameId d ignoreRecordId w) as [[err|resp] w1];
      apply IH.
Qed.

End PreviousFacts.

Section PreviousTheorems.
Import strings StringFacts NameFacts.

Context {World Raw : Type}.
Variable T : Transport World Raw.
Variable tok : string.

(** X21: With the owning domain set to the zone's domain,
    [libdnsRecordToDnsRecord] makes the provider record it made before
    [OwnDomain] of every record whose name does not end with a dot (and,
    for PTR, whose value is not ["@"] under the domain). *)
Theorem previous_toProvider_agrees (record : libdns.record) (domain : string) :
  domain <> "" -> endsWithDot domain = false ->
  sameInBoth domain record = true ->
  libdnsRecordToDnsRecord record domain domain
  = Previous.libdnsRecordToDnsRecord domain record.
Proof. exact (toProvider_same record domain). Qed.

(** X22: For a record as the provider of the zone's domain sends it, with the
    host name put together from the node name and the domain,
    [dnsRecordToLibdnsRecord] gives what it gave before [OwnDomain]. *)
Theorem previous_toNormalized_agrees (dnsRecord : DNSRecord.t) (domain : string) :
  domain <> "" -> endsWithDot domain = false ->
  dnsRecordToLibdnsRecord (providerEcho domain dnsRecord) domain
  = Previous.dnsRecordToLibdnsRecord (providerEcho domain dnsRecord).
Proof.
  intros Hd Hddot.
  assert (Hname : (let r := libdns.RelativeName
                              (DNSRecord.Hostname (providerEcho domain dnsRecord)) domain in
                   if (r =? "")%string then "@" else r)
                  = (if (DNSRecord.NodeName dnsRecord =? "")%string then "@"
                     else DNSRecord.NodeName dnsRecord)).
  { unfold providerEcho. cbn [DNSRecord.set_Hostname DNSRecord.Hostname]. cbv zeta.
    destruct (DNSRecord.NodeName dnsRecord =? "")%string eqn:E.
    - now rewrite RelativeName_self.
    - rewrite RelativeName_under by assumption. now rewrite E. }
  unfold dnsRecordToLibdnsRecord, Previous.dnsRecordToLibdnsRecord.
  cbv zeta in Hname. rewrite Hname. reflexivity.
Qed.

(** X23: Before [OwnDomain] every operation asked root resolution for the
    zone's domain; with [OwnDomain] set to the zone's domain,
    [DeleteRecords] does what it did then. *)
Theorem previous_DeleteRecords_agrees (zone : string) (records : list libdns.record)
    (w : World) :
  Previous.DeleteRecords T tok zone records w
  = Provider.DeleteRecords T (Provider.mk tok (zoneToFqdn zone)) zone records w.
Proof.
  unfold Previous.DeleteRecords, Provider.DeleteRecords, bind.
  cbn [Provider.APIToken Provider.OwnDomain].
  destruct (Client.GetRootDomain T tok (zoneToFqdn zone) w) as [[err|h] w1]; [reflexivity|].
  now rewrite (deleteLoop_same T tok (zoneToFqdn zone)).
Qed.

(** X24: With [OwnDomain] set to the zone's domain, [GetRecords] and, for
    records that the two versions of the translator treat alike,
    [appendOrSetRecords] leave the provider as they left it before
    [OwnDomain], and return the same error. *)
Theorem previous_requests_agree (zone : string) (records : list libdns.record)
    (ignoreRecordId : bool) (w : World) :
  zoneToFqdn zone <> "" ->
  Forall (fun rec => sameInBoth (zoneToFqdn zone) rec = true) records ->
  let p := Provider.mk tok (zoneToFqdn zone) in
  let old := Previous.appendOrSetRecords T tok zone records ignoreRecordId w in
  let new := Provider.appendOrSetRecords T p zone records ignoreRecordId w in
  snd old = snd new /\ snd (fst old) = snd (fst new)
  /\ snd (Previous.GetRecords T tok zone w) = snd (Provider.GetRecords T p zone w)
  /\ snd (fst (Previous.GetRecords T tok zone w)) = snd (fst (Provider.GetRecords T p zone w)).
Proof.
  intros Hne Hall p old new. subst p old new.
  assert (Hdot : endsWithDot (zoneToFqdn zone) = false)
    by apply endsWithDot_false_last, TrimRight_last.
  unfold Previous.appendOrSetRecords, Provider.appendOrSetRecords,
    Previous.GetRecords, Provider.GetRecords, bind.
  cbn [Provider.APIToken Provider.OwnDomain].
  destruct (Client.GetRootDomain T tok (zoneToFqdn zone) w) as [[err|h] w1];
    [repeat split|].
  pose proof (appendOrSetLoop_same T tok (zoneToFqdn zone) (DNSHostname.ID h) ignoreRecordId
                records Hne Hdot Hall [] [] [] w1) as H.
  cbv zeta in H.
  destruct (Previous.appendOrSetLoop T tok _ _ _ records [] [] w1) as [[up errs] w2].
  destruct (Provider.appendOrSetLoop T _ _ _ _ records [] [] w1) as [[up' errs'] w2'].
  cbn [fst snd] in *. destruct H as [-> ->].
  destruct (Client.GetRecords T tok (DNSHostname.ID h) w1) as [[err|ds] w3];
    repeat split.
Qed.

End PreviousTheorems.

Lemma previous_toProvider_agrees_witness :
  libdnsRecordToDnsRecord (libdns.mkRecord "7" "TXT" "@" "hello" (300 * time.Second) 0)
    "example.com" "example.com"
  = Previous.libdnsRecordToDnsRecord "example.com"
      (libdns.mkRecord "7" "TXT" "@" "hello" (300 * time.Second) 0).
Proof.
  apply (previous_toProvider_agrees
           (libdns.mkRecord "7" "TXT" "@" "hello" (300 * time.Second) 0) "example.com").
  - discriminate.
  - reflexivity.
  - reflexivity.
Defined.

Lemma previous_toNormalized_agrees_witness :
  dnsRecordToLibdnsRecord (providerEcho "dynu.com" Tests.getBasicDnsRecord) "dynu.com"
  = Previous.dnsRecordToLibdnsRecord (providerEcho "dynu.com" Tests.getBasicDnsRecord).
Proof.
  apply (previous_toNormalized_agrees Tests.getBasicDnsRecord "dynu.com").
  - discriminate.
  - reflexivity.
Defined.

Lemma previous_requests_agree_witness :
  snd (Previous.appendOrSetRecords (Mock.transport "example.com") "token" "example.com."
         [Mock.recA; Mock.recTxt] false [])
  = snd (Provider.appendOrSetRecords (Mock.transport "example.com") Mock.provider
           "example.com." [Mock.recA; Mock.recTxt] false []).
Proof.
  apply (previous_requests_agree (Mock.transport "example.com") "token" "example.com."
           [Mock.recA; Mock.recTxt] false []).
  - discriminate.
  - repeat constructor.
Defined.
